(** * BaiduPCS-Go: the range downloader's planning and the download driver

    A shallow embedding of [requester/downloader] ([Downloader], its
    [Execute] method and the control surface around it) and of the parts of
    [internal/pcscommand/download.go] that decide where the checkpoint file
    lives and when a destination is skipped.

    Go's [int] is taken at 64 bits (amd64, arm64), [int64] and [int32] at
    their widths; every arithmetic step of the source is written with its
    wrap-around, and division is Go's truncated division, which panics on a
    zero divisor. *)

From Stdlib Require Import ZArith Lia.
From stdpp Require Import base list strings gmap.

Local Open Scope Z_scope.

(** ** Machine integers *)

Module Int.

Definition wrap (bits z : Z) : Z :=
  (z + 2 ^ (bits - 1)) mod 2 ^ bits - 2 ^ (bits - 1).

Definition int64 (z : Z) : Z := wrap 64 z.
Definition int32 (z : Z) : Z := wrap 32 z.
(** Go's [int] on a 64-bit target. *)
Definition int (z : Z) : Z := wrap 64 z.

Definition in_int64 (z : Z) : Prop := - 2 ^ 63 <= z < 2 ^ 63.
Definition in_int (z : Z) : Prop := - 2 ^ 63 <= z < 2 ^ 63.

Definition add64 (a b : Z) : Z := int64 (a + b).
Definition sub64 (a b : Z) : Z := int64 (a - b).
Definition mul64 (a b : Z) : Z := int64 (a * b).
Definition add_int (a b : Z) : Z := int (a + b).
Definition sub_int (a b : Z) : Z := int (a - b).

(** [a / b] on integers: [None] is the run-time panic on a zero divisor. *)
Definition div64 (a b : Z) : option Z :=
  if b =? 0 then None else Some (int64 (a ÷ b)).
Definition div_int (a b : Z) : option Z :=
  if b =? 0 then None else Some (int (a ÷ b)).

End Int.

(** ** Results of Go code that may panic *)

Inductive go (A : Type) : Type :=
| Ok (a : A)
| Panic (msg : string).
Arguments Ok {A} a.
Arguments Panic {A} msg.

Definition go_bind {A B : Type} (m : go A) (k : A -> go B) : go B :=
  match m with
  | Ok a => k a
  | Panic msg => Panic msg
  end.

Notation "'do' x <- m ; k" := (go_bind m (fun x => k))
  (at level 10, x name, m at level 100, k at level 200).

Definition divide_by_zero : string := "runtime error: integer divide by zero".
Definition makeslice_cap : string := "runtime error: makeslice: cap out of range".
Definition index_out_of_range : string := "runtime error: index out of range".
Definition nil_dereference : string :=
  "runtime error: invalid memory address or nil pointer dereference".

Definition go_div64 (a b : Z) : go Z :=
  match Int.div64 a b with
  | Some q => Ok q
  | None => Panic divide_by_zero
  end.

(** ** Data of the package *)

(** A Go [error] value: one built by [errors.New] in this file, or one handed
    back by a collaborator (the HTTP client, the checkpoint loader). *)
Inductive error : Type :=
| errors_New (text : string)
| foreign_error (text : string).

Record Request := { Referer : string; URL : string }.

(** [http.Header]: a map from a header name to its values. *)
Definition Header_Get (h : gmap string (list string)) (key : string) : string :=
  match h !! key with
  | Some (v :: _) => v
  | _ => ""
  end.

Record Response := {
  Status : string;
  StatusCode : Z;
  Header : gmap string (list string);
  ContentLength : Z;
  Response_Request : option Request
}.

Record Range := { Begin : Z; End : Z }.

Record DownloadStatus := {
  totalSize : Z;
  downloaded : Z;
  speedsPerSecond : Z;
  timeElapsed : Z
}.

Definition set_totalSize (n : Z) (s : DownloadStatus) : DownloadStatus :=
  {| totalSize := n; downloaded := downloaded s;
     speedsPerSecond := speedsPerSecond s; timeElapsed := timeElapsed s |}.

Record InstanceInfo := {
  DlStatus : option DownloadStatus;
  Ranges : list Range
}.

Record Config := {
  MaxParallel : Z;
  CacheSize : Z;
  IsTest : bool;
  InstanceStatePath : string;
  parallel : Z;
  cacheSize : Z
}.

Definition set_parallel (n : Z) (c : Config) : Config :=
  {| MaxParallel := MaxParallel c; CacheSize := CacheSize c; IsTest := IsTest c;
     InstanceStatePath := InstanceStatePath c; parallel := n;
     cacheSize := cacheSize c |}.

Definition set_cacheSize (n : Z) (c : Config) : Config :=
  {| MaxParallel := MaxParallel c; CacheSize := CacheSize c; IsTest := IsTest c;
     InstanceStatePath := InstanceStatePath c; parallel := parallel c;
     cacheSize := n |}.

Definition set_InstanceStatePath (p : string) (c : Config) : Config :=
  {| MaxParallel := MaxParallel c; CacheSize := CacheSize c; IsTest := IsTest c;
     InstanceStatePath := p; parallel := parallel c;
     cacheSize := cacheSize c |}.

(** The HTTP client is opaque here: the one [requester.NewHTTPClient] makes,
    or one the caller configured and injected. *)
Inductive HTTPClient : Type :=
| NewHTTPClient
| InjectedClient (name : string).

(** The sink, a [rio.WriteCloserAt]: named by the path it was opened on. *)
Inductive WriteCloserAt : Type := OpenedFile (path : string).

(** Modelled from the spec: the [Worker] type and its setters are not in the
    sources at hand. A worker is the record of what [Execute] hands it: id,
    source URL, sink, HTTP client, cache size, write lock, referer and its
    range ([wrange], the one field [Execute] touches directly). *)
Record Worker := {
  wid : Z;
  wurl : string;
  wwriterAt : option WriteCloserAt;
  wclient : option HTTPClient;
  wcacheSize : Z;
  wwriteMu : bool;
  wreferer : string;
  wacceptRanges : string;
  wrange : option Range
}.

Definition NewWorker (id : Z) (url : string) (writerAt : option WriteCloserAt) : Worker :=
  {| wid := id; wurl := url; wwriterAt := writerAt; wclient := None;
     wcacheSize := 0; wwriteMu := false; wreferer := ""; wacceptRanges := "";
     wrange := None |}.

Definition Worker_SetClient (c : HTTPClient) (wer : Worker) : Worker :=
  {| wid := wid wer; wurl := wurl wer; wwriterAt := wwriterAt wer;
     wclient := Some c; wcacheSize := wcacheSize wer; wwriteMu := wwriteMu wer;
     wreferer := wreferer wer; wacceptRanges := wacceptRanges wer;
     wrange := wrange wer |}.

Definition Worker_SetCacheSize (n : Z) (wer : Worker) : Worker :=
  {| wid := wid wer; wurl := wurl wer; wwriterAt := wwriterAt wer;
     wclient := wclient wer; wcacheSize := n; wwriteMu := wwriteMu wer;
     wreferer := wreferer wer; wacceptRanges := wacceptRanges wer;
     wrange := wrange wer |}.

Definition Worker_SetWriteMutex (wer : Worker) : Worker :=
  {| wid := wid wer; wurl := wurl wer; wwriterAt := wwriterAt wer;
     wclient := wclient wer; wcacheSize := wcacheSize wer; wwriteMu := true;
     wreferer := wreferer wer; wacceptRanges := wacceptRanges wer;
     wrange := wrange wer |}.

Definition Worker_SetReferer (r : string) (wer : Worker) : Worker :=
  {| wid := wid wer; wurl := wurl wer; wwriterAt := wwriterAt wer;
     wclient := wclient wer; wcacheSize := wcacheSize wer; wwriteMu := wwriteMu wer;
     wreferer := r; wacceptRanges := wacceptRanges wer;
     wrange := wrange wer |}.

Definition Worker_SetRange (acceptRanges : string) (r : Range) (wer : Worker) : Worker :=
  {| wid := wid wer; wurl := wurl wer; wwriterAt := wwriterAt wer;
     wclient := wclient wer; wcacheSize := wcacheSize wer; wwriteMu := wwriteMu wer;
     wreferer := wreferer wer; wacceptRanges := acceptRanges;
     wrange := Some r |}.

(** [worker.wrange.End = e]; a worker without a range is a nil dereference. *)
Definition Worker_set_wrange_End (e : Z) (wer : Worker) : go Worker :=
  match wrange wer with
  | Some r =>
      Ok {| wid := wid wer; wurl := wurl wer; wwriterAt := wwriterAt wer;
            wclient := wclient wer; wcacheSize := wcacheSize wer;
            wwriteMu := wwriteMu wer; wreferer := wreferer wer;
            wacceptRanges := wacceptRanges wer;
            wrange := Some {| Begin := Begin r; End := e |} |}
  | None => Panic nil_dereference
  end.

Record Monitor := {
  status : DownloadStatus;
  workers : list Worker;
  monitor_hasInstanceState : bool
}.

Definition set_status (s : DownloadStatus) (m : Monitor) : Monitor :=
  {| status := s; workers := workers m;
     monitor_hasInstanceState := monitor_hasInstanceState m |}.

Definition set_workers (ws : list Worker) (m : Monitor) : Monitor :=
  {| status := status m; workers := ws;
     monitor_hasInstanceState := monitor_hasInstanceState m |}.

Definition Monitor_Append (wer : Worker) (m : Monitor) : Monitor :=
  set_workers (workers m ++ [wer]) m.

Definition Monitor_SetInstanceState (m : Monitor) : Monitor :=
  {| status := status m; workers := workers m; monitor_hasInstanceState := true |}.

(** A registered callback is named by a label; an empty slot is [None]. *)
Record Downloader := {
  onExecute : option string;
  onFinish : option string;
  onPause : option string;
  onResume : option string;
  onCancel : option string;
  monitorCancelFunc : bool;
  durl : string;
  writer : option WriteCloserAt;
  client : option HTTPClient;
  config : option Config;
  monitor : option Monitor
}.

Definition set_client (c : option HTTPClient) (der : Downloader) : Downloader :=
  {| onExecute := onExecute der; onFinish := onFinish der; onPause := onPause der;
     onResume := onResume der; onCancel := onCancel der;
     monitorCancelFunc := monitorCancelFunc der; durl := durl der;
     writer := writer der; client := c; config := config der;
     monitor := monitor der |}.

Definition set_config (c : option Config) (der : Downloader) : Downloader :=
  {| onExecute := onExecute der; onFinish := onFinish der; onPause := onPause der;
     onResume := onResume der; onCancel := onCancel der;
     monitorCancelFunc := monitorCancelFunc der; durl := durl der;
     writer := writer der; client := client der; config := c;
     monitor := monitor der |}.

Definition set_monitor (m : option Monitor) (der : Downloader) : Downloader :=
  {| onExecute := onExecute der; onFinish := onFinish der; onPause := onPause der;
     onResume := onResume der; onCancel := onCancel der;
     monitorCancelFunc := monitorCancelFunc der; durl := durl der;
     writer := writer der; client := client der; config := config der;
     monitor := m |}.

Definition set_monitorCancelFunc (der : Downloader) : Downloader :=
  {| onExecute := onExecute der; onFinish := onFinish der; onPause := onPause der;
     onResume := onResume der; onCancel := onCancel der;
     monitorCancelFunc := true; durl := durl der;
     writer := writer der; client := client der; config := config der;
     monitor := monitor der |}.

(** ** The world around [Execute]

    What [Execute] calls and this development does not have the source of:
    the package constant [MinParallelSize], the constructors [NewConfig] and
    [NewDownloadStatus], the HTTP client's [Req], the checkpoint loader
    ([initInstanceState], then [instanceState.Get]), and whether another
    goroutine calls [Cancel] while the monitor runs. *)
Record World := {
  MinParallelSize : Z;
  NewConfig : Config;
  NewDownloadStatus : DownloadStatus;
  client_Req : HTTPClient -> string -> string -> option Response * option error;
  initInstanceState : Config -> option error;
  instanceState_Get : Config -> option InstanceInfo;
  cancel_during_monitor : bool
}.

(** What [Execute] does to the outside, in order. *)
Inductive Event : Type :=
| EvReq (c : HTTPClient) (method url : string)
| EvBodyClose
| EvInitInstanceState
| EvVerbosef (parallel cacheSize : Z)
| EvCallback (name : string)
| EvCancelContext
| EvMonitorExecute (ws : list Worker)
| EvMonitorReturn (cancelled : bool)
| EvRemoveInstanceState.

(** What a call of [Execute] comes to: the value returned ([None] is Go's
    [nil] error) or a panic, the downloader it leaves, and its events. *)
Record Run := {
  result : go (option error);
  der_after : Downloader;
  trace : list Event
}.

(** Modelled from the spec: [trigger] is not in the sources at hand; it
    invokes the callback of a slot when the slot holds one. *)
Definition trigger (f : option string) : list Event :=
  match f with
  | Some name => [EvCallback name]
  | None => []
  end.

Definition trigger_cancel (set : bool) : list Event :=
  if set then [EvCancelContext] else [].

(** ** Downloader: construction and checks *)

Definition MustCheck (der : Downloader) : go unit :=
  match config der with
  | None => Panic "config is nil"
  | Some _ =>
      match client der with
      | None => Panic "client is nil"
      | Some _ => Ok tt
      end
  end.

Definition NewDownloader (w : World) (durl : string)
    (writer : option WriteCloserAt) (config : option Config) : Downloader :=
  let der :=
    {| onExecute := None; onFinish := None; onPause := None; onResume := None;
       onCancel := None; monitorCancelFunc := false; durl := durl;
       writer := writer; client := None; config := config; monitor := None |} in
  match config with
  | None => set_config (Some (NewConfig w)) der
  | Some _ => der
  end.

Definition SetClient (c : option HTTPClient) (der : Downloader) : go Downloader :=
  let der := set_client c der in
  do _ <- MustCheck der;
  Ok der.

Definition lazyInit (w : World) (der : Downloader) : Downloader :=
  let der :=
    match client der with
    | None => set_client (Some NewHTTPClient) der
    | Some _ => der
    end in
  match monitor der with
  | None =>
      set_monitor
        (Some {| status := NewDownloadStatus w; workers := [];
                 monitor_hasInstanceState := false |}) der
  | Some _ => der
  end.

(** [Cancel]: nothing without a monitor; otherwise the [onCancel] callback,
    then the monitor's cancel function. *)
Definition Cancel (der : Downloader) : list Event :=
  match monitor der with
  | None => []
  | Some _ => trigger (onCancel der) ++ trigger_cancel (monitorCancelFunc der)
  end.

(** ** [Execute], step by step *)

(** Lines 94 to 99: the header is read and then overwritten either way. *)
Definition decideAcceptRanges (resp : Response) : string :=
  let acceptRanges := Header_Get (Header resp) "Accept-Ranges" in
  if ContentLength resp <=? 0 then "" else "bytes".

(** Lines 134 to 144; [len(ranges)] is an [int] as it stands. *)
Definition chooseParallel (w : World) (acceptRanges : string)
    (ranges : list Range) (cfg : Config) (total : Z) : go Z :=
  let isRange := bool_decide (0 < Z.of_nat (length ranges)) in
  if String.eqb acceptRanges "" then Ok 1
  else if isRange then Ok (Z.of_nat (length ranges))
  else
    let parallel := MaxParallel cfg in
    do q <- go_div64 total (Int.int64 (MinParallelSize w));
    if bool_decide (Int.int64 parallel > q)
    then Ok (Int.add_int (Int.int q) 1)
    else Ok parallel.

(** Lines 146 to 152: the block size and the cache size cut down to it. *)
Definition blockSizeOf (total parallel : Z) : go Z :=
  go_div64 total (Int.int64 parallel).

Definition capCache (cfg : Config) (blockSize : Z) : Z :=
  let cacheSize := CacheSize cfg in
  if bool_decide (Int.int64 cacheSize > blockSize)
  then Int.int blockSize
  else cacheSize.

Section BuildWorkers.

Variables (cl : HTTPClient) (cfg : Config) (durl referer acceptRanges : string)
          (writerAt : option WriteCloserAt) (isRange : bool)
          (ranges : list Range) (blockSize total : Z).

Definition workerInit (wer : Worker) : Worker :=
  Worker_SetReferer referer
    (Worker_SetWriteMutex
       (Worker_SetCacheSize (cacheSize cfg) (Worker_SetClient cl wer))).

(** One turn of the loop of lines 178 to 197 at index [i], with the
    running [begin]: the worker built and the next [begin]. *)
Definition buildWorker (i begin : Z) : go (Worker * Z) :=
  let worker := workerInit (NewWorker (Int.int32 i) durl writerAt) in
  if isRange then
    match ranges !! Z.to_nat i with
    | Some r => Ok (Worker_SetRange acceptRanges r worker, begin)
    | None => Panic index_out_of_range
    end
  else
    let end_ := Int.mul64 (Int.int64 (Int.add_int i 1)) blockSize in
    let worker :=
      Worker_SetRange acceptRanges {| Begin := begin; End := end_ |} worker in
    let begin := Int.add64 end_ 1 in
    do worker <-
      (if bool_decide (i = Int.sub_int (parallel cfg) 1)
       then Worker_set_wrange_End (Int.sub64 total 1) worker
       else Ok worker);
    Ok (worker, begin).

(** [for i := 0; i < parallel; i++]: [n] turns are left, the next at [i];
    the caller starts it with [n] the value of [parallel]. *)
Fixpoint workerLoop (n : nat) (i begin : Z) (mon : Monitor) : go Monitor :=
  match n with
  | O => Ok mon
  | S n' =>
      do wb <- buildWorker i begin;
      workerLoop n' (Int.add_int i 1) (snd wb) (Monitor_Append (fst wb) mon)
  end.

End BuildWorkers.

Definition stopped (res : go (option error)) (der : Downloader)
    (evs : list Event) : Run :=
  {| result := res; der_after := der; trace := evs |}.

(** Lines 94 to 197: from the HEAD response to the monitor's worker set.
    The result [Ok None] says that [Execute] goes on to run the monitor;
    [Ok (Some e)] is the early return of line 116. After a panic inside the
    worker loop the downloader is given as it stood before the loop. *)
Definition plan (w : World) (der : Downloader) (cl : HTTPClient) (cfg : Config)
    (mon : Monitor) (resp : Response) : Run :=
  let acceptRanges := decideAcceptRanges resp in
  let mon := set_status (set_totalSize (ContentLength resp) (status mon)) mon in
  let '(durl', referer) :=
    match Response_Request resp with
    | Some req => (URL req, Referer req)
    | None => ("", "")
    end in
  match initInstanceState w cfg with
  | Some err =>
      stopped (Ok (Some err)) (set_monitor (Some mon) der) [EvInitInstanceState]
  | None =>
      let instanceInfo := instanceState_Get w cfg in
      let dlStatus := instanceInfo ≫= DlStatus in
      let ranges := default [] (Ranges <$> instanceInfo) in
      let mon := match dlStatus with Some s => set_status s mon | None => mon end in
      let total := totalSize (status mon) in
      let isRange := bool_decide (0 < Z.of_nat (length ranges)) in
      match chooseParallel w acceptRanges ranges cfg total with
      | Panic msg =>
          stopped (Panic msg) (set_monitor (Some mon) der) [EvInitInstanceState]
      | Ok p =>
          let cfg := set_cacheSize (CacheSize cfg) (set_parallel p cfg) in
          match blockSizeOf total (parallel cfg) with
          | Panic msg =>
              stopped (Panic msg)
                (set_monitor (Some mon) (set_config (Some cfg) der))
                [EvInitInstanceState]
          | Ok blockSize =>
              let cfg := set_cacheSize (capCache cfg blockSize) cfg in
              let der := set_config (Some cfg) der in
              let evs :=
                [EvInitInstanceState; EvVerbosef (parallel cfg) (cacheSize cfg)] in
              if bool_decide (parallel cfg < 0)
              then stopped (Panic makeslice_cap) (set_monitor (Some mon) der) evs
              else
                let mon := set_workers [] mon in
                match workerLoop cl cfg durl' referer acceptRanges (writer der)
                        isRange ranges blockSize total
                        (Z.to_nat (parallel cfg)) 0 0 mon with
                | Panic msg => stopped (Panic msg) (set_monitor (Some mon) der) evs
                | Ok mon => stopped (Ok None) (set_monitor (Some mon) der) evs
                end
          end
      end
  end.

(** Lines 199 to 207: run the monitor, then clean up and return [nil].
    [monitor.Execute] blocks until the workers are done or the context is
    cancelled; [Cancel] can only come from another goroutine meanwhile. *)
Definition run (w : World) (der : Downloader) (mon : Monitor) : Run :=
  let der := set_monitorCancelFunc der in
  let mon := Monitor_SetInstanceState mon in
  let der := set_monitor (Some mon) der in
  {| result := Ok None;
     der_after := der;
     trace :=
       trigger (onExecute der)
       ++ [EvMonitorExecute (workers mon)]
       ++ (if cancel_during_monitor w then Cancel der else [])
       ++ [EvMonitorReturn (cancel_during_monitor w)]
       ++ [EvRemoveInstanceState]
       ++ trigger (onFinish der) |}.

(** The deferred [resp.Body.Close()] of line 81 runs when [Execute] leaves. *)
Definition deferred_close (resp : option Response) : list Event :=
  match resp with
  | Some _ => [EvBodyClose]
  | None => []
  end.

(** What [Execute] does with the outcome [p] of the planning: it returns
    what the planning returned early, or runs the monitor. [req] are the
    events so far, [close] those of the deferred call. *)
Definition afterPlan (w : World) (req close : list Event) (p : Run) : Run :=
  match result p, monitor (der_after p) with
  | Ok None, Some mon' =>
      let r := run w (der_after p) mon' in
      stopped (result r) (der_after r) (req ++ trace p ++ trace r ++ close)
  | Ok None, None =>
      stopped (Panic nil_dereference) (der_after p) (req ++ trace p ++ close)
  | res, _ => stopped res (der_after p) (req ++ trace p ++ close)
  end.

Definition Execute (w : World) (der0 : Downloader) : Run :=
  let der := lazyInit w der0 in
  match MustCheck der, config der, client der, monitor der with
  | Ok _, Some cfg, Some cl, Some mon =>
      let '(resp, err) := client_Req w cl "HEAD" (durl der) in
      let req := [EvReq cl "HEAD" (durl der)] in
      let close := deferred_close resp in
      match err, resp with
      | Some e, _ => stopped (Ok (Some e)) der (req ++ close)
      | None, None => stopped (Panic nil_dereference) der req
      | None, Some resp =>
          let class := StatusCode resp ÷ 100 in
          if bool_decide (class = 4 ∨ class = 5) then
            stopped (Ok (Some (errors_New (Status resp)))) der (req ++ close)
          else afterPlan w req close (plan w der cl cfg mon resp)
      end
  | Panic msg, _, _, _ => stopped (Panic msg) der []
  | _, _, _, _ => stopped (Panic nil_dereference) der []
  end.

(** ** The download driver ([internal/pcscommand/download.go]) *)

Definition DownloadSuffix : string := ".BaiduPCS-Go-downloading".

(** The file system as the set of paths on which [os.Stat] succeeds. *)
Definition os_Stat (fs : gset string) (path : string) : bool :=
  bool_decide (path ∈ fs).

Definition fileExist (fs : gset string) (path : string) : bool :=
  if os_Stat fs path then
    if negb (os_Stat fs (path +:+ DownloadSuffix)) then true else false
  else false.

(** Line 230 of [RunDownload]: the condition under which the destination is
    skipped. *)
Definition skipsDownload (isTest : bool) (fs : gset string) (savePath : string) : bool :=
  negb isTest && fileExist fs savePath.

(** ** Closed forms of what [Execute] computes

    These are the statements' side of the theorems below: each is shown to be
    what the embedded code produces. *)

Definition client_of (der : Downloader) : HTTPClient :=
  default NewHTTPClient (client der).

Definition monitor_of (w : World) (der : Downloader) : Monitor :=
  default {| status := NewDownloadStatus w; workers := [];
             monitor_hasInstanceState := false |} (monitor der).

(** The HEAD probe answered with [resp] and no transport error. *)
Definition probed (w : World) (der : Downloader) (resp : Response) : Prop :=
  client_Req w (client_of der) "HEAD" (durl der) = (Some resp, None).

(** The status class of line 88. *)
Definition statusClass (resp : Response) : Z := StatusCode resp ÷ 100.

(** The ranges and the total size the planning works with: the checkpoint's
    when it has them, else none and the HEAD response's length. *)
Definition persistedRanges (w : World) (cfg : Config) : list Range :=
  default [] (Ranges <$> instanceState_Get w cfg).

Definition plannedTotal (w : World) (cfg : Config) (resp : Response) : Z :=
  match instanceState_Get w cfg ≫= DlStatus with
  | Some s => totalSize s
  | None => ContentLength resp
  end.

(** The range of worker [j] out of [n] in a fresh plan of [total] bytes in
    blocks of [b], as the loop computes it, wrap-around included. *)
Definition freshRangeW (b total n j : Z) : Range :=
  {| Begin := if bool_decide (j = 0) then 0
              else Int.add64 (Int.mul64 j b) 1;
     End := if bool_decide (j = n - 1) then Int.sub64 total 1
            else Int.mul64 (j + 1) b |}.

(** The same over the integers. *)
Definition freshRange (b total n j : Z) : Range :=
  {| Begin := if bool_decide (j = 0) then 0 else j * b + 1;
     End := if bool_decide (j = n - 1) then total - 1 else (j + 1) * b |}.

Definition rangeLength (r : Range) : Z := End r - Begin r + 1.

Definition inRange (z : Z) (r : Range) : Prop := Begin r <= z <= End r.

Definition sumZ (l : list Z) : Z := foldr Z.add 0 l.

(** The ranges of the workers a run leaves in the monitor. *)
Definition workersOf (r : Run) : list Worker :=
  default [] (workers <$> monitor (der_after r)).

Definition planRanges (r : Run) : list Range :=
  omap wrange (workersOf r).

Definition chosenParallel (r : Run) : option Z :=
  parallel <$> config (der_after r).

Definition effectiveCacheSize (r : Run) : option Z :=
  cacheSize <$> config (der_after r).

(** The worker of index [j] once it holds the range [r]. *)
Definition builtWorker (cl : HTTPClient) (cfg : Config)
    (durl referer acceptRanges : string) (writerAt : option WriteCloserAt)
    (r : Range) (j : Z) : Worker :=
  Worker_SetRange acceptRanges r
    (workerInit cl cfg referer (NewWorker (Int.int32 j) durl writerAt)).

(** The range of worker [j]: the persisted one when there are persisted
    ranges, else the fresh one. *)
Definition plannedRange (isRange : bool) (ranges : list Range)
    (b total n j : Z) : Range :=
  if isRange
  then default {| Begin := 0; End := 0 |} (ranges !! Z.to_nat j)
  else freshRangeW b total n j.


(** The block size, the configuration, the status and the workers that the
    planning arrives at when it chooses [n] workers. *)
Definition plannedBlock (total n : Z) : Z := Int.int64 (total ÷ n).

Definition plannedConfig (cfg : Config) (n b : Z) : Config :=
  set_cacheSize (capCache cfg b) (set_parallel n cfg).

Definition plannedStatus (w : World) (cfg : Config) (resp : Response)
    (mon : Monitor) : DownloadStatus :=
  match instanceState_Get w cfg ≫= DlStatus with
  | Some s => s
  | None => set_totalSize (ContentLength resp) (status mon)
  end.

Definition sourceOf (resp : Response) : string * string :=
  match Response_Request resp with
  | Some req => (URL req, Referer req)
  | None => ("", "")
  end.

Definition plannedWorkers (cl : HTTPClient) (cfg' : Config) (resp : Response)
    (writerAt : option WriteCloserAt) (ranges : list Range) (b total : Z)
    : list Worker :=
  (fun j =>
     builtWorker cl cfg' (fst (sourceOf resp)) (snd (sourceOf resp))
       (decideAcceptRanges resp) writerAt
       (plannedRange (bool_decide (0 < Z.of_nat (length ranges))) ranges
          b total (parallel cfg') j) j)
  <$> seqZ 0 (parallel cfg').

Definition plannedDownloader (w : World) (der : Downloader) (cl : HTTPClient)
    (cfg : Config) (mon : Monitor) (resp : Response) (n : Z) : Downloader :=
  let total := plannedTotal w cfg resp in
  let b := plannedBlock total n in
  let cfg' := plannedConfig cfg n b in
  set_monitor
    (Some {| status := plannedStatus w cfg resp mon;
             workers := plannedWorkers cl cfg' resp (writer der)
                          (persistedRanges w cfg) b total;
             monitor_hasInstanceState := monitor_hasInstanceState mon |})
    (set_config (Some cfg') der).

(** The cancellation flag an event of the monitor's return carries. *)
Definition monitorReturned (e : Event) : option bool :=
  match e with
  | EvMonitorReturn cancelled => Some cancelled
  | _ => None
  end.

(** The response [resp] with another status code and status line. *)
Definition with_status (code : Z) (line : string) (resp : Response) : Response :=
  {| Status := line; StatusCode := code; Header := Header resp;
     ContentLength := ContentLength resp;
     Response_Request := Response_Request resp |}.

(** ** Sample runs

    Concrete responses, configurations, worlds and downloaders on which the
    statements below are also evaluated. *)

Module Sample.

Definition request : Request := {| Referer := "http://pan/"; URL := "http://d/f" |}.

Definition response (code : Z) (line : string) (len : Z) : Response :=
  {| Status := line; StatusCode := code;
     Header := {[ "Accept-Ranges" := ["none"] ]};
     ContentLength := len; Response_Request := Some request |}.

Definition zeroStatus : DownloadStatus :=
  {| totalSize := 0; downloaded := 0; speedsPerSecond := 0; timeElapsed := 0 |}.

Definition cfg (maxParallel size : Z) : Config :=
  {| MaxParallel := maxParallel; CacheSize := size; IsTest := false;
     InstanceStatePath := "f.BaiduPCS-Go-downloading";
     parallel := 0; cacheSize := 0 |}.

Definition world (minParallelSize : Z)
    (head : option Response * option error)
    (info : option InstanceInfo) (cancelled : bool) : World :=
  {| MinParallelSize := minParallelSize;
     NewConfig := cfg 1 1024;
     NewDownloadStatus := zeroStatus;
     client_Req := fun _ _ _ => head;
     initInstanceState := fun _ => None;
     instanceState_Get := fun _ => info;
     cancel_during_monitor := cancelled |}.

(** A downloader as [NewDownloader] leaves it: no client injected yet. *)
Definition downloader (w : World) (c : Config) : Downloader :=
  NewDownloader w "http://d/f" (Some (OpenedFile "f")) (Some c).

Definition ok (len : Z) : option Response * option error :=
  (Some (response 200 "200 OK" len), None).

(** A checkpoint of two ranges over 200 bytes. *)
Definition checkpoint : InstanceInfo :=
  {| DlStatus := Some {| totalSize := 200; downloaded := 50;
                         speedsPerSecond := 0; timeElapsed := 0 |};
     Ranges := [ {| Begin := 0; End := 99 |}; {| Begin := 100; End := 199 |} ] |}.

End Sample.

(** ** The rest of the downloader's surface *)

(** The five setters of lines 268 to 291: a slot takes the function given,
    [nil] included, in place of what it held. *)
Definition OnExecute (fn : option string) (der : Downloader) : Downloader :=
  {| onExecute := fn; onFinish := onFinish der; onPause := onPause der;
     onResume := onResume der; onCancel := onCancel der;
     monitorCancelFunc := monitorCancelFunc der; durl := durl der;
     writer := writer der; client := client der; config := config der;
     monitor := monitor der |}.

Definition OnFinish (fn : option string) (der : Downloader) : Downloader :=
  {| onExecute := onExecute der; onFinish := fn; onPause := onPause der;
     onResume := onResume der; onCancel := onCancel der;
     monitorCancelFunc := monitorCancelFunc der; durl := durl der;
     writer := writer der; client := client der; config := config der;
     monitor := monitor der |}.

Definition OnPause (fn : option string) (der : Downloader) : Downloader :=
  {| onExecute := onExecute der; onFinish := onFinish der; onPause := fn;
     onResume := onResume der; onCancel := onCancel der;
     monitorCancelFunc := monitorCancelFunc der; durl := durl der;
     writer := writer der; client := client der; config := config der;
     monitor := monitor der |}.

Definition OnResume (fn : option string) (der : Downloader) : Downloader :=
  {| onExecute := onExecute der; onFinish := onFinish der; onPause := onPause der;
     onResume := fn; onCancel := onCancel der;
     monitorCancelFunc := monitorCancelFunc der; durl := durl der;
     writer := writer der; client := client der; config := config der;
     monitor := monitor der |}.

Definition OnCancel (fn : option string) (der : Downloader) : Downloader :=
  {| onExecute := onExecute der; onFinish := onFinish der; onPause := onPause der;
     onResume := onResume der; onCancel := fn;
     monitorCancelFunc := monitorCancelFunc der; durl := durl der;
     writer := writer der; client := client der; config := config der;
     monitor := monitor der |}.

(** What [Pause] and [Resume] do to the outside: an event of [Execute]'s
    kind (a callback), or the call into the monitor. *)
Inductive ControlEvent : Type :=
| CtlEvent (e : Event)
| CtlMonitorPause
| CtlMonitorResume.

Definition Pause (der : Downloader) : list ControlEvent :=
  match monitor der with
  | None => []
  | Some _ => (CtlEvent <$> trigger (onPause der)) ++ [CtlMonitorPause]
  end.

Definition Resume (der : Downloader) : list ControlEvent :=
  match monitor der with
  | None => []
  | Some _ => (CtlEvent <$> trigger (onResume der)) ++ [CtlMonitorResume]
  end.

(** The events of the probe and of the planning, as against those of the
    run: callbacks, the monitor, the removal of the checkpoint. *)
Definition planningEvent (e : Event) : bool :=
  match e with
  | EvReq _ _ _ | EvBodyClose | EvInitInstanceState | EvVerbosef _ _ => true
  | _ => false
  end.

(** ** The driver: download function and task queue *)

(** [err.Error()] and [strings.Contains]. *)
Definition Error (e : error) : string :=
  match e with
  | errors_New text => text
  | foreign_error text => text
  end.

Definition strings_Contains (s sub : string) : bool :=
  match String.index 0 sub s with
  | Some _ => true
  | None => false
  end.

(** A [baidupcs.FileDirectory], by the fields the driver reads. *)
Record FileDirectory := { Path : string; Isdir : bool; Size : Z }.

(** What the driver calls and this development does not have the source
    of: the configuration of the program, the cloud client ([info]), the
    mapping of remote paths to local ones, and the operating system.
    [DownloadFile] is given the number of downloads made so far, so that it
    may answer differently from one attempt to the next, and the file
    system, which it hands back as it leaves it. *)
Record Cloud := {
  UserAgent : string;
  Config_MaxParallel : Z;
  Config_CacheSize : Z;
  getAllAbsPaths : list string -> list string + error;
  GetSavePath : string -> string;
  FilesDirectoriesMeta : string -> FileDirectory + error;
  FilesDirectoriesList : string -> list FileDirectory + error;
  DownloadFile : nat -> string -> Z -> string -> gset string
                 -> gset string * option error;
  filepath_Dir : string -> string;
  os_MkdirAll : string -> gset string -> gset string;
  os_OpenFile : string -> gset string -> option error
}.

(** The client [getDownloadFunc] sets up (user agent, cookie jar,
    keep-alive, ten minutes of timeout), named by its user agent. *)
Definition driverClient (c : Cloud) : HTTPClient := InjectedClient (UserAgent c).

(** The two lines [getDownloadFunc] prints at the end of a download. *)
Inductive Printed : Type :=
| PrDownloaded (id : Z) (savePath : string)
| PrTestEnded (id : Z).

(** What a call of the function made by [getDownloadFunc] comes to: what it
    returns, the file system and the shared configuration as it leaves
    them before [Execute] runs, the downloader it made, the run of
    [Execute] when there is one, and what it printed. *)
Record Download := {
  dl_result : go (option error);
  dl_fs : gset string;
  dl_config : Config;
  dl_downloader : option Downloader;
  dl_run : option Run;
  dl_printed : list Printed
}.

(** Lines 31 to 104. The callbacks are named "status" (the loop that prints
    the progress) and "exit" (the signal that stops it). *)
Definition getDownloadFunc (w : World) (c : Cloud) (id : Z) (savePath : string)
    (cfg : option Config) (downloadURL : string) (fs : gset string) : Download :=
  let cfg := default (NewConfig w) cfg in
  let h := driverClient c in
  let opened : Config * gset string * (option WriteCloserAt + error) :=
    if negb (IsTest cfg) then
      let cfg := set_InstanceStatePath (savePath +:+ DownloadSuffix) cfg in
      let fs := os_MkdirAll c (filepath_Dir c savePath) fs in
      match os_OpenFile c savePath fs with
      | Some err => (cfg, fs, inr err)
      | None => (cfg, {[savePath]} ∪ fs, inl (Some (OpenedFile savePath)))
      end
    else (cfg, fs, inl None) in
  match opened with
  | (cfg, fs, inr err) =>
      {| dl_result := Ok (Some err); dl_fs := fs; dl_config := cfg;
         dl_downloader := None; dl_run := None; dl_printed := [] |}
  | (cfg, fs, inl file) =>
      match SetClient (Some h) (NewDownloader w downloadURL file (Some cfg)) with
      | Panic msg =>
          {| dl_result := Panic msg; dl_fs := fs; dl_config := cfg;
             dl_downloader := None; dl_run := None; dl_printed := [] |}
      | Ok download =>
          let download := OnFinish (Some "exit") (OnExecute (Some "status") download) in
          let r := Execute w download in
          {| dl_result := result r; dl_fs := fs; dl_config := cfg;
             dl_downloader := Some download; dl_run := Some r;
             dl_printed :=
               match result r with
               | Ok None =>
                   if negb (IsTest cfg) then [PrDownloaded id savePath]
                   else [PrTestEnded id]
               | _ => []
               end |}
      end
  end.

(** A download task: the embedded [ListTask] ([ID], [MaxRetry], [retry]),
    the remote path and its details once known. *)
Record dtask := {
  ID : Z;
  MaxRetry : Z;
  retry : Z;
  path : string;
  downloadInfo : option FileDirectory
}.

Definition set_retry (n : Z) (t : dtask) : dtask :=
  {| ID := ID t; MaxRetry := MaxRetry t; retry := n; path := path t;
     downloadInfo := downloadInfo t |}.

Definition set_downloadInfo (i : FileDirectory) (t : dtask) : dtask :=
  {| ID := ID t; MaxRetry := MaxRetry t; retry := retry t; path := path t;
     downloadInfo := Some i |}.

(** What [RunDownload] does to the outside: the lines it prints, the
    directories it makes, the downloads it starts, and its sleeps (in
    nanoseconds, as [time.Duration] counts). *)
Inductive DriverEvent : Type :=
| DrPathsError (err : error)
| DrHeader (maxParallel cacheSize : Z)
| DrQueued (id : Z) (path : string)
| DrMetaError (id : Z) (err : error)
| DrInfo (id : Z) (info : FileDirectory)
| DrMkdir (dir : string)
| DrListError (id : Z) (err : error)
| DrPrepare (id : Z) (path : string)
| DrSkip (id : Z) (savePath : string)
| DrDownload (id : Z) (path savePath : string)
| DrNoRetry (id : Z) (err : error)
| DrRetry (id : Z) (err : error) (retry maxRetry : Z)
| DrSleep (nanoseconds : Z)
| DrEnd (total : Z).

(** The state of [RunDownload]'s loop: the queue [dlist], [lastID],
    [totalSize], the file system, the number of downloads made so far, and
    the events so far. *)
Record Driver := {
  dlist : list dtask;
  lastID : Z;
  totalBytes : Z;
  files : gset string;
  downloads : nat;
  out : list DriverEvent
}.

Definition time_Second : Z := 1000000000.

(** Lines 147 to 171: what [handleTaskErr] does with a failed task, on the
    queue: the queue it leaves and its events. *)
Definition handleTaskErr (task : dtask) (errManifest : string)
    (err : option error) (queue : list dtask) : list dtask * list DriverEvent :=
  match err with
  | None => (queue, [])
  | Some e =>
      if String.eqb errManifest "下载文件错误"
         && strings_Contains (Error e) "文件已存在"
      then (queue, [DrNoRetry (ID task) e])
      else
        let line := DrRetry (ID task) e (retry task) (MaxRetry task) in
        let '(task, queue) :=
          if bool_decide (retry task < MaxRetry task)
          then let task := set_retry (Int.add_int (retry task) 1) task in
               (task, queue ++ [task])
          else (task, queue) in
        (queue,
         [line; DrSleep (Int.mul64 (Int.mul64 3 (Int.int64 (retry task))) time_Second)])
  end.

(** Lines 132 to 142 and 213 to 224: one more task at the back of the
    queue, under the next id. *)
Definition enqueue (p : string) (info : option FileDirectory) (st : Driver) : Driver :=
  let id := Int.add_int (lastID st) 1 in
  {| dlist := dlist st ++ [ {| ID := id; MaxRetry := 3; retry := 0; path := p;
                               downloadInfo := info |} ];
     lastID := id; totalBytes := totalBytes st; files := files st;
     downloads := downloads st; out := out st ++ [DrQueued id p] |}.

Definition say (evs : list DriverEvent) (st : Driver) : Driver :=
  {| dlist := dlist st; lastID := lastID st; totalBytes := totalBytes st;
     files := files st; downloads := downloads st; out := out st ++ evs |}.

(** Lines 175 to 242: one turn of the loop; [None] when the queue is empty
    and the loop ends. *)
Definition turn (c : Cloud) (isTest : bool) (st : Driver) : option Driver :=
  match dlist st with
  | [] => None
  | task :: rest =>
      let st := {| dlist := rest; lastID := lastID st; totalBytes := totalBytes st;
                   files := files st; downloads := downloads st; out := out st |} in
      let found :=
        match downloadInfo task with
        | Some info => inl info
        | None => FilesDirectoriesMeta c (path task)
        end in
      match found with
      | inr err => Some (say [DrMetaError (ID task) err] st)
      | inl info =>
          let task := set_downloadInfo info task in
          let st := say [DrInfo (ID task) info] st in
          if Isdir info then
            let st :=
              if negb isTest then
                let dir := GetSavePath c (path task) in
                {| dlist := dlist st; lastID := lastID st;
                   totalBytes := totalBytes st;
                   files := os_MkdirAll c dir (files st);
                   downloads := downloads st; out := out st ++ [DrMkdir dir] |}
              else st in
            match FilesDirectoriesList c (path task) with
            | inr err => Some (say [DrListError (ID task) err] st)
            | inl fileList =>
                Some (foldl (fun st f => enqueue (Path f) (Some f) st) st fileList)
            end
          else
            let savePath := GetSavePath c (path task) in
            let st := say [DrPrepare (ID task) (path task)] st in
            if skipsDownload isTest (files st) savePath then
              Some (say [DrSkip (ID task) savePath] st)
            else
              let '(fs, err) :=
                DownloadFile c (downloads st) (path task) (ID task) savePath
                  (files st) in
              let st := {| dlist := dlist st; lastID := lastID st;
                           totalBytes := totalBytes st; files := fs;
                           downloads := S (downloads st);
                           out := out st ++ [DrDownload (ID task) (path task) savePath] |} in
              match err with
              | Some e =>
                  let '(queue, evs) :=
                    handleTaskErr task "下载文件错误" (Some e) (dlist st) in
                  Some {| dlist := queue; lastID := lastID st;
                          totalBytes := totalBytes st; files := files st;
                          downloads := downloads st; out := out st ++ evs |}
              | None =>
                  Some {| dlist := dlist st; lastID := lastID st;
                          totalBytes := Int.add64 (totalBytes st) (Size info);
                          files := files st; downloads := downloads st;
                          out := out st |}
              end
      end
  end.

(** The loop, for at most [fuel] turns: the state reached, and whether the
    loop has ended. *)
Fixpoint turns (c : Cloud) (isTest : bool) (fuel : nat) (st : Driver)
    : Driver * bool :=
  match turn c isTest st with
  | None => (st, true)
  | Some st' =>
      match fuel with
      | O => (st, false)
      | S fuel' => turns c isTest fuel' st'
      end
  end.

(** Lines 107 to 142: the configuration and the queue before the loop;
    [inr] when the paths cannot be resolved, which ends [RunDownload]. *)
Definition RunDownload_start (c : Cloud) (isTest : bool) (parallel : Z)
    (paths : list string) (fs : gset string) : Config * Driver + error :=
  let parallel := if bool_decide (parallel = 0) then Config_MaxParallel c else parallel in
  let cfg := {| MaxParallel := parallel; CacheSize := Config_CacheSize c;
                IsTest := isTest; InstanceStatePath := ""; parallel := 0;
                cacheSize := 0 |} in
  match getAllAbsPaths c paths with
  | inr err => inr err
  | inl paths =>
      let st := {| dlist := []; lastID := 0; totalBytes := 0; files := fs;
                   downloads := O;
                   out := [DrHeader (MaxParallel cfg) (CacheSize cfg)] |} in
      inl (cfg, foldl (fun st p => enqueue p None st) st paths)
  end.

(** [RunDownload], its loop cut after [fuel] turns: the final state, with
    the closing line when the loop has ended. *)
Definition RunDownload (c : Cloud) (isTest : bool) (parallel : Z)
    (paths : list string) (fs : gset string) (fuel : nat) : Driver * bool :=
  match RunDownload_start c isTest parallel paths fs with
  | inr err =>
      ({| dlist := []; lastID := 0; totalBytes := 0; files := fs; downloads := O;
          out := [DrPathsError err] |}, true)
  | inl (_, st) =>
      let '(st, ended) := turns c isTest fuel st in
      (if ended then say [DrEnd (totalBytes st)] st else st, ended)
  end.

(** The downloader [getDownloadFunc] makes for the sink [file] and the
    configuration [cfg]. *)
Definition driverDownloader (w : World) (c : Cloud) (cfg : Config)
    (file : option WriteCloserAt) (downloadURL : string) : Downloader :=
  OnFinish (Some "exit")
    (OnExecute (Some "status")
       (set_client (Some (driverClient c))
          (NewDownloader w downloadURL file (Some cfg)))).

(** Reading the driver's events: the ids queued, in order; the number of
    downloads started for the task [id]; the sleeps. *)
Definition queuedId (e : DriverEvent) : option Z :=
  match e with
  | DrQueued id _ => Some id
  | _ => None
  end.

Definition downloadedId (e : DriverEvent) : option Z :=
  match e with
  | DrDownload id _ _ => Some id
  | _ => None
  end.

Definition attempts (id : Z) (evs : list DriverEvent) : nat :=
  length (filter (fun i => i = id) (omap downloadedId evs)).

Definition sleptFor (e : DriverEvent) : option Z :=
  match e with
  | DrSleep ns => Some ns
  | _ => None
  end.

(** The number of tasks queued so far stays within an [int]. *)
Definition idsFit (evs : list DriverEvent) : Prop :=
  Z.of_nat (length (omap queuedId evs)) < 2 ^ 63.

(** The turns a task may still take: one, and one more for each retry it
    has left. *)
Definition turnsLeft (t : dtask) : nat := Z.to_nat (MaxRetry t - retry t + 1).

(** What the loop of [RunDownload] keeps true of its queue [q], of [lastID]
    and of its events so far. *)
Definition sleepOK (e : DriverEvent) : Prop :=
  match e with
  | DrSleep ns =>
      ns = 3 * time_Second ∨ ns = 6 * time_Second ∨ ns = 9 * time_Second
  | _ => True
  end.

Definition taskOK (last : Z) (evs : list DriverEvent) (t : dtask) : Prop :=
  1 <= ID t <= last ∧ MaxRetry t = 3 ∧ 0 <= retry t <= 3
  ∧ Z.of_nat (attempts (ID t) evs) <= retry t.

Definition queueInv (q : list dtask) (last : Z) (evs : list DriverEvent) : Prop :=
  omap queuedId evs = seqZ 1 last
  ∧ 0 <= last
  ∧ NoDup (ID <$> q)
  ∧ Forall (taskOK last evs) q
  ∧ (forall id, (attempts id evs <= 4)%nat)
  ∧ (forall id, attempts id evs <> 0%nat -> 1 <= id <= last)
  ∧ Forall sleepOK evs.

(** The retry counter of a task stays between 0 and its [MaxRetry] of 3. *)
Definition retryOK (t : dtask) : Prop := MaxRetry t = 3 ∧ 0 <= retry t <= 3.

(** Two configurations with the same settings: they differ at most in the
    fields [parallel] and [cacheSize], which [Execute] computes. *)
Definition sameSettings (a b : Config) : Prop :=
  MaxParallel a = MaxParallel b ∧ CacheSize a = CacheSize b
  ∧ IsTest a = IsTest b ∧ InstanceStatePath a = InstanceStatePath b.


(** A queue of tasks none of which is known to be a directory. *)
Definition fileTask (t : dtask) : Prop :=
  MaxRetry t = 3 ∧ 0 <= retry t <= 3
  ∧ forall info, downloadInfo t = Some info -> Isdir info = false.

Definition turnsLeftOf (q : list dtask) : nat := sum_list (turnsLeft <$> q).

Module DriverSample.

(** A cloud of two files under one directory; every download succeeds and
    leaves the file system as it found it. *)
Definition file1 : FileDirectory := {| Path := "/d/a"; Isdir := false; Size := 10 |}.
Definition file2 : FileDirectory := {| Path := "/d/b"; Isdir := false; Size := 32 |}.
Definition dir : FileDirectory := {| Path := "/d"; Isdir := true; Size := 0 |}.

Definition cloud : Cloud :=
  {| UserAgent := "netdisk";
     Config_MaxParallel := 8;
     Config_CacheSize := 8192;
     getAllAbsPaths := fun paths => inl paths;
     GetSavePath := fun p => "save" +:+ p;
     FilesDirectoriesMeta := fun p =>
       if String.eqb p "/d" then inl dir
       else if String.eqb p "/d/a" then inl file1
       else if String.eqb p "/d/b" then inl file2
       else inr (foreign_error "no such file");
     FilesDirectoriesList := fun p =>
       if String.eqb p "/d" then inl [file1; file2]
       else inr (foreign_error "not a directory");
     DownloadFile := fun _ _ _ _ fs => (fs, None);
     filepath_Dir := fun p => p;
     os_MkdirAll := fun _ fs => fs;
     os_OpenFile := fun _ _ => None |}.

(** The same cloud with every download failing. *)
Definition failing (e : error) : Cloud :=
  {| UserAgent := UserAgent cloud;
     Config_MaxParallel := Config_MaxParallel cloud;
     Config_CacheSize := Config_CacheSize cloud;
     getAllAbsPaths := getAllAbsPaths cloud;
     GetSavePath := GetSavePath cloud;
     FilesDirectoriesMeta := FilesDirectoriesMeta cloud;
     FilesDirectoriesList := FilesDirectoriesList cloud;
     DownloadFile := fun _ _ _ _ fs => (fs, Some e);
     filepath_Dir := filepath_Dir cloud;
     os_MkdirAll := os_MkdirAll cloud;
     os_OpenFile := os_OpenFile cloud |}.

(** A cloud of the two files alone, whose first two downloads fail. *)
Definition flaky : Cloud :=
  {| UserAgent := UserAgent cloud;
     Config_MaxParallel := Config_MaxParallel cloud;
     Config_CacheSize := Config_CacheSize cloud;
     getAllAbsPaths := getAllAbsPaths cloud;
     GetSavePath := GetSavePath cloud;
     FilesDirectoriesMeta := fun p =>
       if String.eqb p "/d/a" then inl file1
       else if String.eqb p "/d/b" then inl file2
       else inr (foreign_error "no such file");
     FilesDirectoriesList := fun _ => inr (foreign_error "not a directory");
     DownloadFile := fun n _ _ _ fs =>
       (fs, if (n <? 2)%nat then Some (errors_New "timeout") else None);
     filepath_Dir := filepath_Dir cloud;
     os_MkdirAll := os_MkdirAll cloud;
     os_OpenFile := os_OpenFile cloud |}.

(** The cloud of the directory and its two files, on a disk where making a
    directory shows. *)
Definition mkdirs : Cloud :=
  {| UserAgent := UserAgent cloud;
     Config_MaxParallel := Config_MaxParallel cloud;
     Config_CacheSize := Config_CacheSize cloud;
     getAllAbsPaths := getAllAbsPaths cloud;
     GetSavePath := GetSavePath cloud;
     FilesDirectoriesMeta := FilesDirectoriesMeta cloud;
     FilesDirectoriesList := FilesDirectoriesList cloud;
     DownloadFile := DownloadFile cloud;
     filepath_Dir := filepath_Dir cloud;
     os_MkdirAll := fun d fs => {[d]} ∪ fs;
     os_OpenFile := os_OpenFile cloud |}.

End DriverSample.

(** * Proofs *)

(** ** Machine integers that do not wrap *)

Lemma wrap64_id (z : Z) : - 2 ^ 63 <= z < 2 ^ 63 -> Int.wrap 64 z = z.
Proof.
  intros Hz. unfold Int.wrap.
  change (64 - 1) with 63.
  rewrite Z.mod_small; lia.
Qed.


Lemma int64_id (z : Z) : Int.in_int64 z -> Int.int64 z = z.
Proof. apply wrap64_id. Qed.

Lemma int_id (z : Z) : Int.in_int z -> Int.int z = z.
Proof. apply wrap64_id. Qed.

Lemma go_div64_ok (a b : Z) :
  b <> 0 -> Int.in_int64 (a ÷ b) -> go_div64 a b = Ok (a ÷ b).
Proof.
  intros Hb Hq. unfold go_div64, Int.div64.
  destruct (Z.eqb_spec b 0) as [->|_]; [done|].
  by rewrite int64_id.
Qed.

Lemma quot_in_int64 (a b : Z) :
  Int.in_int64 a -> 0 < b -> Int.in_int64 (a ÷ b).
Proof.
  unfold Int.in_int64. intros Ha Hb.
  destruct (Z.le_gt_cases 0 a) as [H0|H0].
  - rewrite Z.quot_div_nonneg by lia.
    split; [pose proof (Z.div_pos a b); lia|].
    apply Z.le_lt_trans with a; [apply Z.div_le_upper_bound; nia | lia].
  - replace a with (- (- a)) by lia.
    rewrite Z.quot_opp_l by lia.
    rewrite Z.quot_div_nonneg by lia.
    assert (0 <= (- a) / b <= - a); [|lia].
    split; [apply Z.div_pos; lia|apply Z.div_le_upper_bound; nia].
Qed.

(** ** The worker loop in closed form *)

Section WorkerLoop.

Variables (cl : HTTPClient) (cfg : Config) (durl referer acceptRanges : string)
          (writerAt : option WriteCloserAt) (isRange : bool)
          (ranges : list Range) (blockSize total : Z).

Let built (j : Z) : Worker :=
  builtWorker cl cfg durl referer acceptRanges writerAt
    (plannedRange isRange ranges blockSize total (parallel cfg) j) j.

Lemma buildWorker_closed (i begin : Z) :
  0 <= i < parallel cfg ->
  parallel cfg < 2 ^ 63 ->
  (isRange = true -> parallel cfg <= Z.of_nat (length ranges)) ->
  (isRange = false ->
   begin = Begin (freshRangeW blockSize total (parallel cfg) i)) ->
  buildWorker cl cfg durl referer acceptRanges writerAt isRange ranges
    blockSize total i begin
  = Ok (built i,
        if isRange then begin
        else Begin (freshRangeW blockSize total (parallel cfg) (i + 1))).
Proof.
  intros Hi Hp Hlen Hbegin. unfold buildWorker, built, builtWorker, plannedRange.
  destruct isRange.
  - destruct (lookup_lt_is_Some_2 ranges (Z.to_nat i)) as [r Hr]; [lia|].
    by rewrite Hr.
  - rewrite (Hbegin eq_refl). unfold Int.add_int, Int.sub_int.
    rewrite (int_id (i + 1)) by (unfold Int.in_int; lia).
    rewrite (int64_id (i + 1)) by (unfold Int.in_int64; lia).
    rewrite (int_id (parallel cfg - 1)) by (unfold Int.in_int; lia).
    unfold freshRangeW; simpl.
    rewrite (bool_decide_eq_false_2 (i + 1 = 0)) by lia.
    by case_bool_decide.
Qed.

Lemma workerLoop_closed (n : nat) : forall (i begin : Z) (mon : Monitor),
  0 <= i ->
  i + Z.of_nat n = parallel cfg ->
  parallel cfg < 2 ^ 63 ->
  (isRange = true -> parallel cfg <= Z.of_nat (length ranges)) ->
  (isRange = false -> (0 < n)%nat ->
   begin = Begin (freshRangeW blockSize total (parallel cfg) i)) ->
  workerLoop cl cfg durl referer acceptRanges writerAt isRange ranges
    blockSize total n i begin mon
  = Ok (set_workers (workers mon ++ (built <$> seqZ i (Z.of_nat n))) mon).
Proof.
  induction n as [|n IH]; intros i begin mon Hi Hn Hp Hlen Hbegin.
  - simpl. rewrite app_nil_r. by destruct mon.
  - cbn [workerLoop].
    rewrite buildWorker_closed; [|lia|done|done|intros; apply Hbegin; [done|lia]].
    cbn [go_bind fst snd].
    unfold Int.add_int. rewrite (int_id (i + 1)) by (unfold Int.in_int; lia).
    rewrite IH; [|lia|lia|done|done|].
    + rewrite (seqZ_cons i) by lia.
      replace (Z.pred (Z.of_nat (S n))) with (Z.of_nat n) by lia.
      replace (Z.succ i) with (i + 1) by lia.
      unfold Monitor_Append, set_workers; simpl.
      by rewrite <- app_assoc.
    + intros HR _. by rewrite HR.
Qed.

End WorkerLoop.

(** ** The planning in closed form *)

Lemma plannedTotal_status (w : World) (cfg : Config) (resp : Response) (mon : Monitor) :
  totalSize (plannedStatus w cfg resp mon) = plannedTotal w cfg resp.
Proof.
  unfold plannedStatus, plannedTotal.
  by destruct (instanceState_Get w cfg ≫= DlStatus).
Qed.

Lemma plan_closed (w : World) (der : Downloader) (cl : HTTPClient)
    (cfg : Config) (mon : Monitor) (resp : Response) (n : Z) :
  initInstanceState w cfg = None ->
  chooseParallel w (decideAcceptRanges resp) (persistedRanges w cfg) cfg
    (plannedTotal w cfg resp) = Ok n ->
  1 <= n < 2 ^ 63 ->
  (persistedRanges w cfg <> [] -> n <= Z.of_nat (length (persistedRanges w cfg))) ->
  plan w der cl cfg mon resp
  = stopped (Ok None) (plannedDownloader w der cl cfg mon resp n)
      [EvInitInstanceState;
       EvVerbosef n
         (cacheSize (plannedConfig cfg n
                       (plannedBlock (plannedTotal w cfg resp) n)))].
Proof.
  intros Hinit Hpar Hn Hlen.
  unfold plan, plannedDownloader, plannedWorkers, sourceOf.
  destruct (Response_Request resp) as [req|]; cbn [fst snd];
    rewrite Hinit; fold (persistedRanges w cfg);
    change (match instanceState_Get w cfg ≫= DlStatus with
            | Some s => set_status s ?m
            | None => ?m
            end) with (match instanceState_Get w cfg ≫= DlStatus with
            | Some s => set_status s m
            | None => m
            end).
  all: set (mon1 := match instanceState_Get w cfg ≫= DlStatus with
                    | Some s => set_status s _
                    | None => _
                    end).
  all: assert (Hst : status mon1 = plannedStatus w cfg resp mon)
         by (unfold mon1, plannedStatus;
             by destruct (instanceState_Get w cfg ≫= DlStatus)).
  all: assert (Hflag : monitor_hasInstanceState mon1 = monitor_hasInstanceState mon)
         by (unfold mon1; by destruct (instanceState_Get w cfg ≫= DlStatus)).
  all: rewrite Hst, plannedTotal_status, Hpar.
  all: cbn [parallel set_cacheSize set_parallel].
  all: unfold blockSizeOf, go_div64, Int.div64.
  all: rewrite (int64_id n) by (unfold Int.in_int64; lia).
  all: destruct (Z.eqb_spec n 0) as [?|_]; [lia|].
  all: fold (plannedBlock (plannedTotal w cfg resp) n).
  all: rewrite (bool_decide_eq_false_2 (n < 0)) by lia.
  all: rewrite workerLoop_closed; cbn [parallel set_cacheSize set_parallel];
         [ | lia | lia | lia | | done ].
  all: try (intros HR; apply bool_decide_eq_true_1 in HR; apply Hlen;
            destruct (persistedRanges w cfg); [simpl in HR; lia | done]).
  all: rewrite Z2Nat.id by lia.
  all: unfold stopped, plannedConfig, set_monitor, set_config, set_workers;
         cbn; rewrite Hst, Hflag; reflexivity.
Qed.

(** ** Choosing the parallelism *)

Lemma chooseParallel_nonranged (w : World) (ranges : list Range) (cfg : Config)
    (total : Z) :
  chooseParallel w "" ranges cfg total = Ok 1.
Proof. reflexivity. Qed.

Lemma chooseParallel_resume (w : World) (ranges : list Range) (cfg : Config)
    (total : Z) :
  ranges <> [] ->
  chooseParallel w "bytes" ranges cfg total = Ok (Z.of_nat (length ranges)).
Proof.
  intros Hne. unfold chooseParallel. cbn [String.eqb Ascii.eqb Bool.eqb].
  rewrite bool_decide_eq_true_2; [done|].
  destruct ranges; [done|simpl; lia].
Qed.

Lemma chooseParallel_fresh (w : World) (cfg : Config) (total : Z) :
  Int.in_int (MaxParallel cfg) ->
  Int.in_int64 (MinParallelSize w) -> 0 < MinParallelSize w ->
  Int.in_int64 total ->
  chooseParallel w "bytes" [] cfg total
  = Ok (Z.min (MaxParallel cfg) (total ÷ MinParallelSize w + 1)).
Proof.
  intros HM HP Hpos HT. unfold chooseParallel.
  cbn [String.eqb Ascii.eqb Bool.eqb length].
  rewrite bool_decide_eq_false_2 by (simpl; lia).
  rewrite (int64_id (MinParallelSize w)) by done.
  rewrite go_div64_ok; [|lia|by apply quot_in_int64].
  cbn [go_bind].
  pose proof (quot_in_int64 total (MinParallelSize w) HT Hpos) as Hq.
  rewrite (int64_id (MaxParallel cfg)) by done.
  unfold Int.in_int, Int.in_int64 in *.
  case_bool_decide.
  - unfold Int.add_int. rewrite (int_id (total ÷ MinParallelSize w)) by done.
    rewrite int_id by (unfold Int.in_int; lia).
    f_equal. lia.
  - f_equal. lia.
Qed.

Lemma decideAcceptRanges_by_length (resp : Response) :
  decideAcceptRanges resp = if bool_decide (ContentLength resp <= 0) then "" else "bytes".
Proof.
  unfold decideAcceptRanges.
  destruct (Z.leb_spec (ContentLength resp) 0); case_bool_decide; done || lia.
Qed.

(** ** [lazyInit] and the way into the planning *)

Lemma lazyInit_config (w : World) (der : Downloader) :
  config (lazyInit w der) = config der.
Proof.
  unfold lazyInit. destruct (client der); simpl; by destruct (monitor der).
Qed.

Lemma lazyInit_client (w : World) (der : Downloader) :
  client (lazyInit w der) = Some (client_of der).
Proof.
  unfold lazyInit, client_of.
  destruct (client der) eqn:Hc; simpl; destruct (monitor der); simpl; by rewrite ?Hc.
Qed.

Lemma lazyInit_monitor (w : World) (der : Downloader) :
  monitor (lazyInit w der) = Some (monitor_of w der).
Proof.
  unfold lazyInit, monitor_of.
  destruct (client der); simpl; destruct (monitor der) eqn:Hm; simpl; by rewrite ?Hm.
Qed.

Lemma lazyInit_durl (w : World) (der : Downloader) :
  durl (lazyInit w der) = durl der.
Proof.
  unfold lazyInit. destruct (client der); simpl; by destruct (monitor der).
Qed.

Lemma lazyInit_writer (w : World) (der : Downloader) :
  writer (lazyInit w der) = writer der.
Proof.
  unfold lazyInit. destruct (client der); simpl; by destruct (monitor der).
Qed.

Lemma MustCheck_lazyInit (w : World) (der : Downloader) :
  MustCheck (lazyInit w der)
  = match config der with Some _ => Ok tt | None => Panic "config is nil" end.
Proof.
  unfold MustCheck. rewrite lazyInit_config, lazyInit_client.
  by destruct (config der).
Qed.

Lemma Execute_probe (w : World) (der : Downloader) (cfg : Config) :
  config der = Some cfg ->
  Execute w der
  = let der1 := lazyInit w der in
    let req := [EvReq (client_of der) "HEAD" (durl der)] in
    match client_Req w (client_of der) "HEAD" (durl der) with
    | (resp, Some e) => stopped (Ok (Some e)) der1 (req ++ deferred_close resp)
    | (None, None) => stopped (Panic nil_dereference) der1 req
    | (Some resp, None) =>
        if bool_decide (statusClass resp = 4 ∨ statusClass resp = 5) then
          stopped (Ok (Some (errors_New (Status resp)))) der1 (req ++ [EvBodyClose])
        else afterPlan w req [EvBodyClose]
               (plan w der1 (client_of der) cfg (monitor_of w der) resp)
    end.
Proof.
  intros Hcfg. unfold Execute.
  rewrite MustCheck_lazyInit, lazyInit_config, lazyInit_client, lazyInit_monitor,
    lazyInit_durl, Hcfg.
  cbv zeta.
  destruct (client_Req w (client_of der) "HEAD" (durl der)) as [[resp|] [e|]];
    reflexivity.
Qed.

(** ** A run that gets through the probe into the planning *)

Section Planned.

Variables (w : World) (der : Downloader) (cfg : Config) (resp : Response).

Hypothesis Hcfg : config der = Some cfg.
Hypothesis Hprobe : probed w der resp.
Hypothesis Hclass : ¬ (statusClass resp = 4 ∨ statusClass resp = 5).

Lemma Execute_enters_plan :
  Execute w der
  = afterPlan w [EvReq (client_of der) "HEAD" (durl der)] [EvBodyClose]
      (plan w (lazyInit w der) (client_of der) cfg (monitor_of w der) resp).
Proof.
  rewrite (Execute_probe w der cfg Hcfg). cbv zeta.
  unfold probed in Hprobe. rewrite Hprobe.
  by rewrite bool_decide_eq_false_2.
Qed.

Hypothesis Hinit : initInstanceState w cfg = None.

Variable n : Z.

Hypothesis Hchosen :
  chooseParallel w (decideAcceptRanges resp) (persistedRanges w cfg) cfg
    (plannedTotal w cfg resp) = Ok n.
Hypothesis Hn : 1 <= n < 2 ^ 63.
Hypothesis Hlen :
  persistedRanges w cfg <> [] -> n <= Z.of_nat (length (persistedRanges w cfg)).

Lemma Execute_planned :
  let total := plannedTotal w cfg resp in
  let b := plannedBlock total n in
  let cfg' := plannedConfig cfg n b in
  let r := Execute w der in
  result r = Ok None
  ∧ config (der_after r) = Some cfg'
  ∧ workersOf r
    = plannedWorkers (client_of der) cfg' resp (writer der)
        (persistedRanges w cfg) b total
  ∧ trace r
    = [EvReq (client_of der) "HEAD" (durl der); EvInitInstanceState;
       EvVerbosef n (cacheSize cfg')]
      ++ trigger (onExecute der)
      ++ [EvMonitorExecute (workersOf r)]
      ++ (if cancel_during_monitor w
          then trigger (onCancel der) ++ [EvCancelContext] else [])
      ++ [EvMonitorReturn (cancel_during_monitor w); EvRemoveInstanceState]
      ++ trigger (onFinish der)
      ++ [EvBodyClose].
Proof.
  cbv zeta. rewrite Execute_enters_plan.
  rewrite (plan_closed w _ _ cfg _ resp n Hinit Hchosen Hn Hlen).
  unfold afterPlan, stopped, workersOf, plannedDownloader, run, Cancel.
  cbn -[plannedWorkers plannedConfig plannedBlock].
  rewrite lazyInit_writer.
  repeat split.
  replace (onExecute (lazyInit w der)) with (onExecute der)
    by (unfold lazyInit; destruct (client der); simpl; by destruct (monitor der)).
  replace (onFinish (lazyInit w der)) with (onFinish der)
    by (unfold lazyInit; destruct (client der); simpl; by destruct (monitor der)).
  replace (onCancel (lazyInit w der)) with (onCancel der)
    by (unfold lazyInit; destruct (client der); simpl; by destruct (monitor der)).
  repeat first [rewrite <- app_assoc | rewrite <- app_comm_cons]; reflexivity.
Qed.

End Planned.

(** ** The claims about the planning *)

Lemma decideAcceptRanges_bytes (resp : Response) :
  0 < ContentLength resp -> decideAcceptRanges resp = "bytes".
Proof.
  intros H. rewrite decideAcceptRanges_by_length.
  by rewrite bool_decide_eq_false_2 by lia.
Qed.

Lemma decideAcceptRanges_none (resp : Response) :
  ContentLength resp <= 0 -> decideAcceptRanges resp = "".
Proof.
  intros H. rewrite decideAcceptRanges_by_length.
  by rewrite bool_decide_eq_true_2.
Qed.

Lemma quot_is_div (a b : Z) : 0 <= a -> 0 < b -> a ÷ b = a / b.
Proof. intros. apply Z.quot_div_nonneg; lia. Qed.

Lemma div_bounds (a b : Z) : 0 <= a -> 0 < b -> 0 <= a / b <= a.
Proof.
  intros Ha Hb. split; [apply Z.div_pos; lia|].
  apply Z.div_le_upper_bound; nia.
Qed.

(** The parallelism a fresh, range-capable plan chooses. *)
Lemma fresh_choice (w : World) (cfg : Config) (resp : Response) :
  persistedRanges w cfg = [] ->
  0 < ContentLength resp ->
  0 < plannedTotal w cfg resp < 2 ^ 63 ->
  1 <= MaxParallel cfg < 2 ^ 63 ->
  0 < MinParallelSize w < 2 ^ 63 ->
  let n := Z.min (MaxParallel cfg) (plannedTotal w cfg resp / MinParallelSize w + 1) in
  chooseParallel w (decideAcceptRanges resp) (persistedRanges w cfg) cfg
    (plannedTotal w cfg resp) = Ok n
  ∧ 1 <= n < 2 ^ 63.
Proof.
  intros Hfresh Hlen HT HM HP n.
  rewrite Hfresh, decideAcceptRanges_bytes by done.
  rewrite chooseParallel_fresh by (unfold Int.in_int, Int.in_int64; lia).
  rewrite quot_is_div by lia.
  pose proof (div_bounds (plannedTotal w cfg resp) (MinParallelSize w)).
  split; [done|]. unfold n. lia.
Qed.

(** C3: a fresh range-capable plan of T > 0 bytes under max_parallel M >= 1
    runs min(M, floor(T / MinParallelSize) + 1) workers; with T = 100, M = 8
    and MinParallelSize = 256 * 1024 that is one worker. *)
Theorem fresh_parallelism (w : World) (der : Downloader) (cfg : Config)
    (resp : Response) :
  config der = Some cfg ->
  probed w der resp ->
  ¬ (statusClass resp = 4 ∨ statusClass resp = 5) ->
  initInstanceState w cfg = None ->
  persistedRanges w cfg = [] ->
  0 < ContentLength resp ->
  0 < plannedTotal w cfg resp < 2 ^ 63 ->
  1 <= MaxParallel cfg < 2 ^ 63 ->
  0 < MinParallelSize w < 2 ^ 63 ->
  result (Execute w der) = Ok None
  ∧ chosenParallel (Execute w der)
    = Some (Z.min (MaxParallel cfg)
              (plannedTotal w cfg resp / MinParallelSize w + 1))
  ∧ (plannedTotal w cfg resp = 100 -> MaxParallel cfg = 8 ->
     MinParallelSize w = 256 * 1024 ->
     chosenParallel (Execute w der) = Some 1).
Proof.
  intros Hcfg Hprobe Hclass Hinit Hfresh Hlen HT HM HP.
  destruct (fresh_choice w cfg resp Hfresh Hlen HT HM HP) as [Hch Hn].
  destruct (Execute_planned w der cfg resp Hcfg Hprobe Hclass Hinit _ Hch Hn)
    as (Hres & Hconf & _).
  { by rewrite Hfresh. }
  assert (Hpar : chosenParallel (Execute w der)
                 = Some (Z.min (MaxParallel cfg)
                           (plannedTotal w cfg resp / MinParallelSize w + 1))).
  { unfold chosenParallel. by rewrite Hconf. }
  split; [done|]. split; [done|].
  intros HT' HM' HP'. rewrite Hpar, HT', HM', HP'. reflexivity.
Qed.

Lemma fresh_parallelism_witness :
  let w := Sample.world (256 * 1024) (Sample.ok 100) None false in
  chosenParallel (Execute w (Sample.downloader w (Sample.cfg 8 8192))) = Some 1.
Proof.
  intros w.
  refine (proj2 (proj2 (fresh_parallelism w (Sample.downloader w (Sample.cfg 8 8192))
            (Sample.cfg 8 8192) (Sample.response 200 "200 OK" 100)
            _ _ _ _ _ _ _ _ _)) _ _ _);
    try reflexivity; try (vm_compute; intuition congruence); vm_compute; lia.
Defined.

Lemma chooseParallel_within_ranges (w : World) (resp : Response)
    (ranges : list Range) (cfg : Config) (total n : Z) :
  chooseParallel w (decideAcceptRanges resp) ranges cfg total = Ok n ->
  1 <= n ->
  ranges <> [] -> n <= Z.of_nat (length ranges).
Proof.
  intros Hch Hn Hne.
  assert (1 <= Z.of_nat (length ranges)) by (destruct ranges; [done|simpl; lia]).
  rewrite decideAcceptRanges_by_length in Hch.
  case_bool_decide.
  - rewrite chooseParallel_nonranged in Hch. injection Hch as <-. lia.
  - rewrite chooseParallel_resume in Hch by done. injection Hch as <-. lia.
Qed.

Lemma capCache_min (cfg : Config) (total n : Z) :
  0 < total < 2 ^ 63 -> 1 <= n ->
  Int.in_int (CacheSize cfg) ->
  capCache cfg (plannedBlock total n) = Z.min (CacheSize cfg) (total / n).
Proof.
  intros HT Hn HC. unfold capCache, plannedBlock.
  rewrite quot_is_div by lia.
  pose proof (div_bounds total n).
  rewrite (int64_id (total / n)) by (unfold Int.in_int64; lia).
  rewrite (int64_id (CacheSize cfg)) by done.
  rewrite (int_id (total / n)) by (unfold Int.in_int; lia).
  case_bool_decide; lia.
Qed.

Lemma plannedWorkers_cacheSize (cl : HTTPClient) (cfg' : Config) (resp : Response)
    (writerAt : option WriteCloserAt) (ranges : list Range) (b total : Z) :
  Forall (fun wk => wcacheSize wk = cacheSize cfg')
    (plannedWorkers cl cfg' resp writerAt ranges b total).
Proof.
  unfold plannedWorkers. apply Forall_fmap, Forall_forall. by intros j _.
Qed.

Lemma plannedWorkers_length (cl : HTTPClient) (cfg' : Config) (resp : Response)
    (writerAt : option WriteCloserAt) (ranges : list Range) (b total : Z) :
  length (plannedWorkers cl cfg' resp writerAt ranges b total)
  = Z.to_nat (parallel cfg').
Proof. unfold plannedWorkers. by rewrite length_fmap, length_seqZ. Qed.

(** C4: in a run over T > 0 bytes with configured cache size C that chooses
    N workers, the cache size in force, which every worker is given, is
    min(C, T / N) in integer division; it never exceeds C. *)
Theorem cache_clamp (w : World) (der : Downloader) (cfg : Config)
    (resp : Response) (n : Z) :
  config der = Some cfg ->
  probed w der resp ->
  ¬ (statusClass resp = 4 ∨ statusClass resp = 5) ->
  initInstanceState w cfg = None ->
  chooseParallel w (decideAcceptRanges resp) (persistedRanges w cfg) cfg
    (plannedTotal w cfg resp) = Ok n ->
  1 <= n < 2 ^ 63 ->
  0 < plannedTotal w cfg resp < 2 ^ 63 ->
  Int.in_int (CacheSize cfg) ->
  let effective := Z.min (CacheSize cfg) (plannedTotal w cfg resp / n) in
  result (Execute w der) = Ok None
  ∧ chosenParallel (Execute w der) = Some n
  ∧ effectiveCacheSize (Execute w der) = Some effective
  ∧ length (workersOf (Execute w der)) = Z.to_nat n
  ∧ Forall (fun wk => wcacheSize wk = effective) (workersOf (Execute w der))
  ∧ effective <= CacheSize cfg.
Proof.
  intros Hcfg Hprobe Hclass Hinit Hch Hn HT HC effective.
  destruct (Execute_planned w der cfg resp Hcfg Hprobe Hclass Hinit n Hch Hn)
    as (Hres & Hconf & Hws & _).
  { apply (chooseParallel_within_ranges w resp _ cfg _ n Hch). lia. }
  assert (Hcache : cacheSize (plannedConfig cfg n
                      (plannedBlock (plannedTotal w cfg resp) n)) = effective).
  { unfold plannedConfig. cbn [cacheSize set_cacheSize].
    apply capCache_min; [done|lia|done]. }
  unfold chosenParallel, effectiveCacheSize. rewrite Hconf, Hws.
  cbn [fmap option_fmap option_map]. rewrite Hcache.
  repeat split; try done.
  - by rewrite plannedWorkers_length.
  - rewrite <- Hcache. apply plannedWorkers_cacheSize.
  - unfold effective. lia.
Qed.

Lemma cache_clamp_witness :
  let w := Sample.world (256 * 1024) (Sample.ok 1048576) None false in
  let r := Execute w (Sample.downloader w (Sample.cfg 4 300000)) in
  effectiveCacheSize r = Some 262144
  ∧ Forall (fun wk => wcacheSize wk = 262144) (workersOf r).
Proof.
  intros w r.
  unshelve epose proof
    (cache_clamp w (Sample.downloader w (Sample.cfg 4 300000))
       (Sample.cfg 4 300000) (Sample.response 200 "200 OK" 1048576) 4
       _ _ _ _ _ _ _ _) as H.
  1-8: first [reflexivity | vm_compute; intuition congruence | vm_compute; lia].
  destruct H as (_ & _ & Hc & _ & Hw & _).
  split; [exact Hc | exact Hw].
Defined.

(** ** The fresh partition *)

Lemma planned_ranges (cl : HTTPClient) (cfg' : Config) (resp : Response)
    (writerAt : option WriteCloserAt) (ranges : list Range) (b total : Z) :
  omap wrange (plannedWorkers cl cfg' resp writerAt ranges b total)
  = plannedRange (bool_decide (0 < Z.of_nat (length ranges))) ranges b total
      (parallel cfg')
    <$> seqZ 0 (parallel cfg').
Proof.
  unfold plannedWorkers.
  induction (seqZ 0 (parallel cfg')) as [|j l IH]; [done|].
  csimpl. by rewrite IH.
Qed.

Section FreshPartition.

Variables b total n : Z.

Hypothesis Hb : 0 <= b.
Hypothesis Hn : 1 <= n.
Hypothesis Hfit : n * b <= total.
Hypothesis Htotal : 0 < total.

Lemma freshRangeW_exact (j : Z) :
  total < 2 ^ 63 -> 0 <= j < n ->
  freshRangeW b total n j = freshRange b total n j.
Proof.
  intros Hmax Hj. unfold freshRangeW, freshRange, Int.add64, Int.mul64, Int.sub64.
  assert (j * b <= (n - 1) * b) by nia.
  assert ((n - 1) * b + b <= total) by lia.
  f_equal.
  - case_bool_decide; [done|].
    rewrite (int64_id (j * b)) by (unfold Int.in_int64; nia).
    apply int64_id. unfold Int.in_int64.
    destruct (Z.eq_dec b 0) as [->|]; nia.
  - case_bool_decide.
    + apply int64_id. unfold Int.in_int64. lia.
    + apply int64_id. unfold Int.in_int64. nia.
Qed.

Lemma fresh_before (i j : Z) :
  0 <= i -> i < j -> j < n ->
  End (freshRange b total n i) < Begin (freshRange b total n j).
Proof.
  intros Hi Hij Hj. unfold freshRange; simpl.
  rewrite (bool_decide_eq_false_2 (i = n - 1)) by lia.
  rewrite (bool_decide_eq_false_2 (j = 0)) by lia.
  nia.
Qed.

Lemma fresh_disjoint (i j z : Z) :
  0 <= i < n -> 0 <= j < n -> i <> j ->
  inRange z (freshRange b total n i) -> ¬ inRange z (freshRange b total n j).
Proof.
  intros Hi Hj Hij [Hi1 Hi2] [Hj1 Hj2].
  destruct (Z.lt_total i j) as [Hlt|[?|Hlt]]; [|done|].
  - pose proof (fresh_before i j). lia.
  - pose proof (fresh_before j i). lia.
Qed.

Lemma fresh_within (j z : Z) :
  0 <= j < n -> inRange z (freshRange b total n j) -> 0 <= z <= total - 1.
Proof.
  unfold inRange, freshRange; simpl. intros Hj.
  repeat case_bool_decide; intros [H1 H2]; try lia.
  - destruct (Z.eq_dec b 0) as [->|]; nia.
  - destruct (Z.eq_dec b 0) as [->|]; nia.
Qed.

Lemma fresh_cover (z : Z) :
  0 <= z <= total - 1 -> exists j, 0 <= j < n ∧ inRange z (freshRange b total n j).
Proof.
  intros Hz. unfold inRange, freshRange; simpl.
  destruct (Z.eq_dec z 0) as [->|Hz0].
  { exists 0. split; [lia|]. rewrite bool_decide_eq_true_2 by done.
    case_bool_decide; nia. }
  destruct (Z.lt_ge_cases ((n - 1) * b) z) as [Hlast|Hmid].
  { exists (n - 1). split; [lia|]. rewrite (bool_decide_eq_true_2 (n - 1 = n - 1)) by done.
    case_bool_decide; lia. }
  assert (0 < b) by nia.
  exists ((z - 1) / b).
  pose proof (Z.div_mod (z - 1) b ltac:(lia)).
  pose proof (Z.mod_pos_bound (z - 1) b ltac:(lia)).
  assert (0 <= (z - 1) / b) by (apply Z.div_pos; lia).
  assert ((z - 1) / b < n - 1) by (apply Z.div_lt_upper_bound; nia).
  split; [lia|].
  rewrite (bool_decide_eq_false_2 (_ = n - 1)) by lia.
  case_bool_decide; nia.
Qed.

Lemma fresh_sum_from (k : nat) : forall i : Z,
  1 <= i -> i + Z.of_nat (S k) = n ->
  sumZ (rangeLength <$> (freshRange b total n <$> seqZ i (Z.of_nat (S k))))
  = total - 1 - i * b.
Proof.
  induction k as [|k IH]; intros i Hi Hk.
  - change (Z.of_nat 1) with 1. rewrite seqZ_cons, seqZ_nil by lia.
    unfold sumZ, rangeLength, freshRange; simpl.
    rewrite (bool_decide_eq_false_2 (i = 0)) by lia.
    rewrite (bool_decide_eq_true_2 (i = n - 1)) by lia. lia.
  - rewrite seqZ_cons by lia.
    replace (Z.pred (Z.of_nat (S (S k)))) with (Z.of_nat (S k)) by lia.
    rewrite !fmap_cons. cbn [sumZ foldr]. fold (sumZ).
    change (foldr Z.add 0 ?l) with (sumZ l).
    rewrite IH by lia.
    unfold rangeLength, freshRange; simpl.
    rewrite (bool_decide_eq_false_2 (i = 0)) by lia.
    rewrite (bool_decide_eq_false_2 (i = n - 1)) by lia. lia.
Qed.

Lemma fresh_sum :
  sumZ (rangeLength <$> (freshRange b total n <$> seqZ 0 n)) = total.
Proof.
  rewrite seqZ_cons by lia.
  rewrite !fmap_cons. cbn [sumZ foldr]. change (foldr Z.add 0 ?l) with (sumZ l).
  destruct (Z.eq_dec n 1) as [Hn1|Hn1].
  - rewrite seqZ_nil by lia. unfold sumZ, rangeLength, freshRange; simpl.
    rewrite (bool_decide_eq_true_2 (0 = n - 1)) by lia. lia.
  - replace (Z.pred n) with (Z.of_nat (S (Z.to_nat (n - 2)))) by lia.
    rewrite fresh_sum_from by lia.
    unfold rangeLength, freshRange; simpl.
    rewrite (bool_decide_eq_false_2 (0 = n - 1)) by lia. lia.
Qed.

End FreshPartition.

Lemma lookup_fresh (b total n : Z) (k : nat) (r : Range) :
  (freshRange b total n <$> seqZ 0 n) !! k = Some r ->
  Z.of_nat k < n ∧ r = freshRange b total n (Z.of_nat k).
Proof.
  rewrite list_lookup_fmap. intros Hk.
  destruct (seqZ 0 n !! k) as [j|] eqn:Hj; [|done].
  apply lookup_seqZ in Hj as [-> ?]. simpl in Hk. injection Hk as <-.
  split; [done|]. by rewrite Z.add_0_l.
Qed.

Lemma fresh_lookup (b total n j : Z) :
  0 <= j < n ->
  (freshRange b total n <$> seqZ 0 n) !! Z.to_nat j = Some (freshRange b total n j).
Proof.
  intros Hj. rewrite list_lookup_fmap, lookup_seqZ_lt by lia.
  simpl. do 2 f_equal. lia.
Qed.

Lemma Execute_fresh_ranges (w : World) (der : Downloader) (cfg : Config)
    (resp : Response) :
  config der = Some cfg ->
  probed w der resp ->
  ¬ (statusClass resp = 4 ∨ statusClass resp = 5) ->
  initInstanceState w cfg = None ->
  persistedRanges w cfg = [] ->
  0 < ContentLength resp ->
  0 < plannedTotal w cfg resp < 2 ^ 63 ->
  1 <= MaxParallel cfg < 2 ^ 63 ->
  0 < MinParallelSize w < 2 ^ 63 ->
  let total := plannedTotal w cfg resp in
  let n := Z.min (MaxParallel cfg) (total / MinParallelSize w + 1) in
  result (Execute w der) = Ok None
  ∧ chosenParallel (Execute w der) = Some n
  ∧ length (workersOf (Execute w der)) = Z.to_nat n
  ∧ planRanges (Execute w der) = freshRange (total / n) total n <$> seqZ 0 n.
Proof.
  intros Hcfg Hprobe Hclass Hinit Hfresh Hlen HT HM HP total n.
  destruct (fresh_choice w cfg resp Hfresh Hlen HT HM HP) as [Hch Hn].
  fold total in Hch, Hn, HT. fold n in Hch, Hn.
  destruct (Execute_planned w der cfg resp Hcfg Hprobe Hclass Hinit n Hch Hn)
    as (Hres & Hconf & Hws & _).
  { by rewrite Hfresh. }
  fold total in Hws.
  split; [done|]. split; [unfold chosenParallel; by rewrite Hconf|].
  unfold planRanges. rewrite Hws. split.
  { by rewrite plannedWorkers_length. }
  rewrite planned_ranges, Hfresh.
  cbn [length Z.of_nat parallel plannedConfig set_cacheSize set_parallel].
  rewrite (bool_decide_eq_false_2 (0 < 0)) by lia.
  unfold plannedRange, plannedBlock.
  rewrite quot_is_div by lia.
  pose proof (div_bounds total n ltac:(lia) ltac:(lia)) as Hb.
  pose proof (Z.mul_div_le total n ltac:(lia)) as Hfit.
  rewrite int64_id by (unfold Int.in_int64; lia).
  apply list_fmap_ext. intros k j Hj.
  apply lookup_seqZ in Hj as [-> Hk].
  apply freshRangeW_exact; lia.
Qed.

(** C2, amended: a fresh range-capable plan of T > 0 bytes on N >= 1 workers,
    block = T / N: for N = 1 the one worker gets [0, T-1]; for N >= 2 worker
    0 gets [0, block], worker i for 1 <= i <= N-2 gets
    [i*block + 1, (i+1)*block] and worker N-1 gets [(N-1)*block + 1, T-1].
    The ranges are pairwise disjoint, their union is [0, T-1], and their
    lengths add up to T. *)
Theorem fresh_partition (w : World) (der : Downloader) (cfg : Config)
    (resp : Response) :
  config der = Some cfg ->
  probed w der resp ->
  ¬ (statusClass resp = 4 ∨ statusClass resp = 5) ->
  initInstanceState w cfg = None ->
  persistedRanges w cfg = [] ->
  0 < ContentLength resp ->
  0 < plannedTotal w cfg resp < 2 ^ 63 ->
  1 <= MaxParallel cfg < 2 ^ 63 ->
  0 < MinParallelSize w < 2 ^ 63 ->
  let total := plannedTotal w cfg resp in
  let n := Z.min (MaxParallel cfg) (total / MinParallelSize w + 1) in
  let block := total / n in
  let rs := planRanges (Execute w der) in
  result (Execute w der) = Ok None
  ∧ chosenParallel (Execute w der) = Some n
  ∧ length (workersOf (Execute w der)) = Z.to_nat n
  ∧ length rs = Z.to_nat n
  ∧ (n = 1 -> rs = [ {| Begin := 0; End := total - 1 |} ])
  ∧ (2 <= n ->
     rs !! 0%nat = Some {| Begin := 0; End := block |}
     ∧ (forall i, 1 <= i <= n - 2 ->
        rs !! Z.to_nat i
        = Some {| Begin := i * block + 1; End := (i + 1) * block |})
     ∧ rs !! Z.to_nat (n - 1)
       = Some {| Begin := (n - 1) * block + 1; End := total - 1 |})
  ∧ (forall (i j : nat) (ri rj : Range) (z : Z),
       i <> j -> rs !! i = Some ri -> rs !! j = Some rj ->
       inRange z ri -> ¬ inRange z rj)
  ∧ (forall z, 0 <= z <= total - 1 <-> exists r, r ∈ rs ∧ inRange z r)
  ∧ sumZ (rangeLength <$> rs) = total.
Proof.
  intros Hcfg Hprobe Hclass Hinit Hfresh Hlen HT HM HP total n block rs.
  destruct (Execute_fresh_ranges w der cfg resp Hcfg Hprobe Hclass Hinit Hfresh
              Hlen HT HM HP) as (Hres & Hpar & Hws & Hrs).
  fold total in Hws, Hrs, Hpar, HT. fold n in Hws, Hrs, Hpar.
  fold block in Hrs. fold rs in Hrs.
  pose proof (div_bounds total (MinParallelSize w) ltac:(lia) ltac:(lia)) as Hq.
  assert (Hn : 1 <= n) by (unfold n; lia).
  pose proof (div_bounds total n ltac:(lia) ltac:(lia)) as Hb. fold block in Hb.
  pose proof (Z.mul_div_le total n ltac:(lia)) as Hfit. fold block in Hfit.
  split; [done|]. split; [done|]. split; [done|].
  rewrite Hrs. split; [by rewrite !length_fmap, length_seqZ|].
  split; [|split; [|split; [|split]]].
  - intros ->. change (seqZ 0 1) with [0]. reflexivity.
  - intros Hn2. split; [|split].
    + change 0%nat with (Z.to_nat 0).
      rewrite (fresh_lookup block total n 0) by lia.
      unfold freshRange.
      rewrite (bool_decide_eq_true_2 (0 = 0)) by done.
      rewrite (bool_decide_eq_false_2 (0 = n - 1)) by lia.
      do 2 f_equal. lia.
    + intros i Hi. rewrite fresh_lookup by lia. unfold freshRange.
      rewrite (bool_decide_eq_false_2 (i = 0)) by lia.
      by rewrite (bool_decide_eq_false_2 (i = n - 1)) by lia.
    + rewrite fresh_lookup by lia. unfold freshRange.
      rewrite (bool_decide_eq_false_2 (n - 1 = 0)) by lia.
      by rewrite (bool_decide_eq_true_2 (n - 1 = n - 1)) by lia.
  - intros i j ri rj z Hij Hi Hj.
    apply lookup_fresh in Hi as [Hi ->]. apply lookup_fresh in Hj as [Hj ->].
    apply fresh_disjoint; lia.
  - intros z. split.
    + intros Hz.
      assert (exists j, 0 <= j < n ∧ inRange z (freshRange block total n j))
        as (j & Hj & Hin) by (apply fresh_cover; lia).
      exists (freshRange block total n j). split; [|done].
      apply list_elem_of_lookup. exists (Z.to_nat j). by apply fresh_lookup.
    + intros (r & Hr & Hin).
      apply list_elem_of_lookup in Hr as [k Hk].
      apply lookup_fresh in Hk as [Hk ->].
      apply (fresh_within block total n) with (Z.of_nat k); lia || done.
  - apply fresh_sum; lia.
Qed.

Lemma fresh_partition_witness :
  let w := Sample.world (256 * 1024) (Sample.ok 1048576) None false in
  let r := Execute w (Sample.downloader w (Sample.cfg 4 8192)) in
  planRanges r !! 0%nat = Some {| Begin := 0; End := 262144 |}
  ∧ planRanges r !! 3%nat = Some {| Begin := 786433; End := 1048575 |}
  ∧ sumZ (rangeLength <$> planRanges r) = 1048576.
Proof.
  intros w r.
  unshelve epose proof
    (fresh_partition w (Sample.downloader w (Sample.cfg 4 8192))
       (Sample.cfg 4 8192) (Sample.response 200 "200 OK" 1048576)
       _ _ _ _ _ _ _ _ _) as H.
  1-9: first [reflexivity | vm_compute; intuition congruence | vm_compute; lia].
  destruct H as (_ & _ & _ & _ & _ & Hform & _ & _ & Hsum).
  destruct Hform as (H0 & _ & Hlast); [vm_compute; discriminate|].
  split; [exact H0|]. split; [exact Hlast | exact Hsum].
Defined.

(** C2 as it is written fails for one worker: with T = 100 the plan has the
    single range [0, 99], neither the [0, block] = [0, 100] stated for worker
    0 nor the [(N-1)*block + 1, T-1] = [1, 99] stated for worker N-1. *)
Lemma fresh_partition_one_worker_counterexample :
  let w := Sample.world (256 * 1024) (Sample.ok 100) None false in
  let r := Execute w (Sample.downloader w (Sample.cfg 8 8192)) in
  let n := 1 in
  let block := 100 / n in
  chosenParallel r = Some n
  ∧ planRanges r = [ {| Begin := 0; End := 99 |} ]
  ∧ planRanges r !! 0%nat <> Some {| Begin := 0; End := block |}
  ∧ planRanges r !! Z.to_nat (n - 1)
    <> Some {| Begin := (n - 1) * block + 1; End := 100 - 1 |}.
Proof. vm_compute. repeat split; discriminate. Qed.

(** ** Resuming from a checkpoint *)

Lemma persisted_lookup_all (ranges : list Range) (d : Range) :
  (fun j => default d (ranges !! Z.to_nat j)) <$> seqZ 0 (Z.of_nat (length ranges))
  = ranges.
Proof.
  apply list_eq. intros i. rewrite list_lookup_fmap.
  destruct (decide (i < length ranges)%nat) as [Hi|Hi].
  - rewrite lookup_seqZ_lt by lia. simpl.
    replace (Z.to_nat (0 + Z.of_nat i)) with i by lia.
    destruct (lookup_lt_is_Some_2 ranges i Hi) as [r Hr]. by rewrite Hr.
  - rewrite lookup_seqZ_ge by lia. simpl.
    symmetry. apply lookup_ge_None. lia.
Qed.

(** C7: a run that resumes from a checkpoint with k >= 1 ranges, the server
    taken as range-capable, runs k workers, and worker i holds exactly the
    i-th persisted range; neither max_parallel nor MinParallelSize enters. *)
Theorem resume_uses_persisted_ranges (w : World) (der : Downloader)
    (cfg : Config) (resp : Response) :
  config der = Some cfg ->
  probed w der resp ->
  ¬ (statusClass resp = 4 ∨ statusClass resp = 5) ->
  initInstanceState w cfg = None ->
  persistedRanges w cfg <> [] ->
  0 < ContentLength resp ->
  Z.of_nat (length (persistedRanges w cfg)) < 2 ^ 63 ->
  let r := Execute w der in
  let ranges := persistedRanges w cfg in
  result r = Ok None
  ∧ chosenParallel r = Some (Z.of_nat (length ranges))
  ∧ length (workersOf r) = length ranges
  ∧ planRanges r = ranges
  ∧ (forall (i : nat) (wk : Worker),
       workersOf r !! i = Some wk -> wrange wk = ranges !! i).
Proof.
  intros Hcfg Hprobe Hclass Hinit Hne Hlen Hmax r ranges.
  subst ranges. set (ranges := persistedRanges w cfg) in *.
  assert (Hk : 1 <= Z.of_nat (length ranges))
    by (destruct ranges; [done|simpl; lia]).
  assert (Hch : chooseParallel w (decideAcceptRanges resp) ranges cfg
                  (plannedTotal w cfg resp) = Ok (Z.of_nat (length ranges))).
  { rewrite decideAcceptRanges_bytes by done. by apply chooseParallel_resume. }
  destruct (Execute_planned w der cfg resp Hcfg Hprobe Hclass Hinit _ Hch)
    as (Hres & Hconf & Hws & _); [lia|done|].
  fold r in Hres, Hconf, Hws. fold ranges in Hws.
  assert (Hrs : planRanges r = ranges).
  { unfold planRanges. rewrite Hws, planned_ranges.
    cbn [parallel plannedConfig set_cacheSize set_parallel].
    rewrite bool_decide_eq_true_2 by lia. unfold plannedRange.
    apply persisted_lookup_all. }
  split; [done|]. split; [unfold chosenParallel; by rewrite Hconf|].
  split; [rewrite Hws, plannedWorkers_length; simpl; lia|].
  split; [done|].
  intros i wk Hi. rewrite Hws in Hi. unfold plannedWorkers in Hi.
  rewrite list_lookup_fmap in Hi.
  destruct (seqZ 0 _ !! i) as [j|] eqn:Hj; [|done].
  simpl in Hi. injection Hi as <-.
  apply lookup_seqZ in Hj as [-> Hj].
  cbn [parallel plannedConfig set_cacheSize set_parallel] in Hj.
  unfold builtWorker, Worker_SetRange, plannedRange. cbn [wrange].
  rewrite bool_decide_eq_true_2 by lia.
  replace (Z.to_nat (0 + Z.of_nat i)) with i by lia.
  destruct (lookup_lt_is_Some_2 ranges i) as [x Hx]; [lia|]. by rewrite Hx.
Qed.

Lemma resume_uses_persisted_ranges_witness :
  let w := Sample.world (256 * 1024) (Sample.ok 200) (Some Sample.checkpoint) false in
  let r := Execute w (Sample.downloader w (Sample.cfg 8 8192)) in
  chosenParallel r = Some 2
  ∧ planRanges r = [ {| Begin := 0; End := 99 |}; {| Begin := 100; End := 199 |} ].
Proof.
  intros w r.
  unshelve epose proof
    (resume_uses_persisted_ranges w (Sample.downloader w (Sample.cfg 8 8192))
       (Sample.cfg 8 8192) (Sample.response 200 "200 OK" 200)
       _ _ _ _ _ _ _) as H.
  1-7: first [reflexivity | vm_compute; intuition congruence | vm_compute; lia].
  destruct H as (_ & Hn & _ & Hrs & _).
  split; [exact Hn | exact Hrs].
Defined.

(** ** The probe and the range decision *)

Lemma statusClass_failure (resp : Response) :
  statusClass resp = 4 ∨ statusClass resp = 5 <-> 400 <= StatusCode resp <= 599.
Proof.
  unfold statusClass.
  pose proof (Z.quot_rem' (StatusCode resp) 100) as Hqr.
  destruct (Z.le_gt_cases 0 (StatusCode resp)) as [Hs|Hs].
  - pose proof (Z.rem_bound_pos (StatusCode resp) 100 Hs ltac:(lia)). lia.
  - assert (StatusCode resp ÷ 100 <= 0); [|lia].
    replace (StatusCode resp) with (- (- StatusCode resp)) by lia.
    rewrite Z.quot_opp_l by lia.
    pose proof (Z.quot_pos (- StatusCode resp) 100). lia.
Qed.

Lemma plannedWorkers_acceptRanges (cl : HTTPClient) (cfg' : Config) (resp : Response)
    (writerAt : option WriteCloserAt) (ranges : list Range) (b total : Z) :
  Forall (fun wk => wacceptRanges wk = decideAcceptRanges resp)
    (plannedWorkers cl cfg' resp writerAt ranges b total).
Proof.
  unfold plannedWorkers. apply Forall_fmap, Forall_forall. by intros j _.
Qed.

(** C5: range capability is decided from Content-Length alone. With
    Content-Length <= 0 the transfer is non-ranged and runs one worker; with
    Content-Length > 0 every worker is set up for "bytes" ranges, whatever
    the Accept-Ranges header of the response says. *)
Theorem range_capability_from_length (w : World) (der : Downloader)
    (cfg : Config) (resp : Response) :
  config der = Some cfg ->
  probed w der resp ->
  ¬ (statusClass resp = 4 ∨ statusClass resp = 5) ->
  initInstanceState w cfg = None ->
  let r := Execute w der in
  (forall resp' : Response,
     ContentLength resp' = ContentLength resp ->
     decideAcceptRanges resp' = decideAcceptRanges resp)
  ∧ (ContentLength resp <= 0 ->
     decideAcceptRanges resp = ""
     ∧ result r = Ok None
     ∧ chosenParallel r = Some 1
     ∧ length (workersOf r) = 1%nat
     ∧ Forall (fun wk => wacceptRanges wk = "") (workersOf r))
  ∧ (0 < ContentLength resp ->
     decideAcceptRanges resp = "bytes"
     ∧ forall n : Z,
         chooseParallel w "bytes" (persistedRanges w cfg) cfg
           (plannedTotal w cfg resp) = Ok n ->
         1 <= n < 2 ^ 63 ->
         result r = Ok None
         ∧ length (workersOf r) = Z.to_nat n
         ∧ Forall (fun wk => wacceptRanges wk = "bytes") (workersOf r)).
Proof.
  intros Hcfg Hprobe Hclass Hinit r. split; [|split].
  - intros resp' Heq. by rewrite !decideAcceptRanges_by_length, Heq.
  - intros Hlen. pose proof (decideAcceptRanges_none resp Hlen) as Hacc.
    split; [done|].
    assert (Hch : chooseParallel w (decideAcceptRanges resp) (persistedRanges w cfg)
                    cfg (plannedTotal w cfg resp) = Ok 1).
    { rewrite Hacc. apply chooseParallel_nonranged. }
    destruct (Execute_planned w der cfg resp Hcfg Hprobe Hclass Hinit 1 Hch)
      as (Hres & Hconf & Hws & _); [lia| |].
    { intros Hne. destruct (persistedRanges w cfg); [done|simpl; lia]. }
    fold r in Hres, Hconf, Hws.
    split; [done|]. split; [unfold chosenParallel; by rewrite Hconf|].
    rewrite Hws. split; [by rewrite plannedWorkers_length|].
    rewrite <- Hacc. apply plannedWorkers_acceptRanges.
  - intros Hlen. pose proof (decideAcceptRanges_bytes resp Hlen) as Hacc.
    split; [done|]. intros n Hch Hn. rewrite <- Hacc in Hch.
    destruct (Execute_planned w der cfg resp Hcfg Hprobe Hclass Hinit n Hch Hn)
      as (Hres & Hconf & Hws & _).
    { apply (chooseParallel_within_ranges w resp _ cfg _ n Hch). lia. }
    fold r in Hres, Hconf, Hws.
    split; [done|]. rewrite Hws. split; [by rewrite plannedWorkers_length|].
    rewrite <- Hacc. apply plannedWorkers_acceptRanges.
Qed.

Lemma range_capability_from_length_witness :
  let w := Sample.world (256 * 1024) (Sample.ok 1048576) None false in
  let r := Execute w (Sample.downloader w (Sample.cfg 4 8192)) in
  Header_Get (Header (Sample.response 200 "200 OK" 1048576)) "Accept-Ranges" = "none"
  ∧ length (workersOf r) = 4%nat
  ∧ Forall (fun wk => wacceptRanges wk = "bytes") (workersOf r).
Proof.
  intros w r.
  unshelve epose proof
    (range_capability_from_length w (Sample.downloader w (Sample.cfg 4 8192))
       (Sample.cfg 4 8192) (Sample.response 200 "200 OK" 1048576)
       _ _ _ _) as H.
  1-4: first [reflexivity | vm_compute; intuition congruence].
  destruct H as (_ & _ & Hpos).
  destruct Hpos as (_ & Hn); [reflexivity|].
  destruct (Hn 4) as (_ & Hl & Hw); [reflexivity | lia |].
  split; [reflexivity|]. split; [exact Hl | exact Hw].
Defined.

(** C6: when the HEAD response is of class 4xx or 5xx, [Execute] returns at
    once an error made of the response's status line: only the request and
    the deferred close of the body have happened, no worker was built and the
    checkpoint was not touched; when the request itself fails, [Execute]
    returns the client's error. *)
Theorem probe_failure_returns_at_once (w : World) (der : Downloader)
    (cfg : Config) :
  config der = Some cfg ->
  (forall resp : Response,
     probed w der resp ->
     400 <= StatusCode resp <= 599 ->
     Execute w der
     = stopped (Ok (Some (errors_New (Status resp)))) (lazyInit w der)
         [EvReq (client_of der) "HEAD" (durl der); EvBodyClose]
     ∧ workersOf (Execute w der) = workers (monitor_of w der))
  ∧ (forall (resp : option Response) (e : error),
       client_Req w (client_of der) "HEAD" (durl der) = (resp, Some e) ->
       Execute w der
       = stopped (Ok (Some e)) (lazyInit w der)
           (EvReq (client_of der) "HEAD" (durl der) :: deferred_close resp)
       ∧ workersOf (Execute w der) = workers (monitor_of w der)).
Proof.
  intros Hcfg. split.
  - intros resp Hprobe Hcode. unfold probed in Hprobe.
    rewrite (Execute_probe w der cfg Hcfg). cbv zeta. rewrite Hprobe.
    rewrite bool_decide_eq_true_2 by (by apply statusClass_failure).
    split; [done|]. unfold workersOf, stopped. cbn [der_after].
    by rewrite lazyInit_monitor.
  - intros resp e Hreq.
    rewrite (Execute_probe w der cfg Hcfg). cbv zeta. rewrite Hreq.
    destruct resp; (split; [done|]); unfold workersOf, stopped; cbn [der_after];
      by rewrite lazyInit_monitor.
Qed.

Lemma probe_failure_returns_at_once_witness :
  let w := Sample.world (256 * 1024)
             (Some (Sample.response 404 "404 Not Found" 100), None) None false in
  let r := Execute w (Sample.downloader w (Sample.cfg 4 8192)) in
  result r = Ok (Some (errors_New "404 Not Found"))
  ∧ trace r = [EvReq NewHTTPClient "HEAD" "http://d/f"; EvBodyClose]
  ∧ workersOf r = [].
Proof.
  intros w r.
  destruct (probe_failure_returns_at_once w
              (Sample.downloader w (Sample.cfg 4 8192)) (Sample.cfg 4 8192)
              eq_refl) as [H _].
  destruct (H (Sample.response 404 "404 Not Found" 100) eq_refl) as [He Hw].
  { vm_compute. split; discriminate. }
  unfold r. rewrite Hw. rewrite He. repeat split.
Defined.

(** C10: a HEAD response whose class is neither 4xx nor 5xx, be it 1xx, 2xx
    or 3xx, takes [Execute] into the planning: the checkpoint is loaded
    next, and the planning does not look at the status at all. *)
Theorem other_status_classes_proceed (w : World) (der : Downloader)
    (cfg : Config) (resp : Response) :
  config der = Some cfg ->
  probed w der resp ->
  ¬ (400 <= StatusCode resp <= 599) ->
  Execute w der
  = afterPlan w [EvReq (client_of der) "HEAD" (durl der)] [EvBodyClose]
      (plan w (lazyInit w der) (client_of der) cfg (monitor_of w der) resp)
  ∧ (exists rest : list Event,
       trace (Execute w der)
       = EvReq (client_of der) "HEAD" (durl der) :: EvInitInstanceState :: rest)
  ∧ (forall (code : Z) (line : string),
       plan w (lazyInit w der) (client_of der) cfg (monitor_of w der)
         (with_status code line resp)
       = plan w (lazyInit w der) (client_of der) cfg (monitor_of w der) resp).
Proof.
  intros Hcfg Hprobe Hcode.
  assert (Hclass : ¬ (statusClass resp = 4 ∨ statusClass resp = 5))
    by (by rewrite statusClass_failure).
  pose proof (Execute_enters_plan w der cfg resp Hcfg Hprobe Hclass) as HE.
  split; [done|]. split; [|done].
  rewrite HE. unfold afterPlan.
  set (p := plan w (lazyInit w der) (client_of der) cfg (monitor_of w der) resp).
  assert (Hp : exists rest, trace p = EvInitInstanceState :: rest).
  { unfold p, plan. destruct (Response_Request resp).
    all: destruct (initInstanceState w cfg); [by eexists|].
    all: destruct (chooseParallel _ _ _ _ _); [|by eexists]; cbn [parallel set_cacheSize set_parallel].
    all: destruct (blockSizeOf _ _); [|by eexists].
    all: case_bool_decide; [by eexists|].
    all: destruct (workerLoop _ _ _ _ _ _ _ _ _ _ _ _ _ _); by eexists. }
  destruct Hp as [rest Hrest].
  destruct (result p) as [[e|]|msg]; [| destruct (monitor (der_after p)) |];
    cbn [trace stopped]; rewrite Hrest; by eexists.
Qed.

Lemma other_status_classes_proceed_witness :
  let w := Sample.world (256 * 1024)
             (Some (Sample.response 302 "302 Found" 100), None) None false in
  let r := Execute w (Sample.downloader w (Sample.cfg 8 8192)) in
  exists rest : list Event,
    trace r = EvReq NewHTTPClient "HEAD" "http://d/f" :: EvInitInstanceState :: rest.
Proof.
  intros w r.
  refine (proj1 (proj2 (other_status_classes_proceed w
            (Sample.downloader w (Sample.cfg 8 8192)) (Sample.cfg 8 8192)
            (Sample.response 302 "302 Found" 100) eq_refl eq_refl _))).
  vm_compute. intros [H _]. by apply H.
Defined.

(** ** The client: injected or made on demand *)

(** C8, amended: [Execute] does not need an injected client. Without one,
    [lazyInit] installs the client of [requester.NewHTTPClient], the check
    passes, and the run is that of a downloader holding this client; the
    client check fails, with the panic "client is nil", only in
    [SetClient] called with no client. *)
Theorem missing_client_is_defaulted (w : World) (der : Downloader) (cfg : Config) :
  config der = Some cfg ->
  client der = None ->
  client (lazyInit w der) = Some NewHTTPClient
  ∧ MustCheck (lazyInit w der) = Ok tt
  ∧ Execute w der = Execute w (set_client (Some NewHTTPClient) der)
  ∧ SetClient None der = Panic "client is nil".
Proof.
  intros Hcfg Hcl. split; [|split; [|split]].
  - rewrite lazyInit_client. unfold client_of. by rewrite Hcl.
  - by rewrite MustCheck_lazyInit, Hcfg.
  - unfold Execute.
    replace (lazyInit w (set_client (Some NewHTTPClient) der)) with (lazyInit w der);
      [done|].
    unfold lazyInit. rewrite Hcl. reflexivity.
  - unfold SetClient, MustCheck. cbn [config client set_client]. by rewrite Hcfg.
Qed.

Lemma missing_client_is_defaulted_witness :
  let w := Sample.world (256 * 1024) (Sample.ok 100) None false in
  let der := Sample.downloader w (Sample.cfg 8 8192) in
  Execute w der = Execute w (set_client (Some NewHTTPClient) der).
Proof.
  intros w der.
  exact (proj1 (proj2 (proj2 (missing_client_is_defaulted w der (Sample.cfg 8 8192)
                                eq_refl eq_refl)))).
Defined.

(** C8 as it is written fails: a downloader fresh from [NewDownloader], with
    no client injected, runs to the end and returns nil. *)
Lemma missing_client_counterexample :
  let w := Sample.world (256 * 1024) (Sample.ok 100) None false in
  let der := Sample.downloader w (Sample.cfg 8 8192) in
  client der = None
  ∧ result (Execute w der) = Ok None
  ∧ take 1 (trace (Execute w der)) = [EvReq NewHTTPClient "HEAD" "http://d/f"].
Proof. vm_compute. repeat split. Qed.

(** ** Cancelling *)

Lemma lazyInit_callbacks (w : World) (der : Downloader) :
  onExecute (lazyInit w der) = onExecute der
  ∧ onFinish (lazyInit w der) = onFinish der
  ∧ onCancel (lazyInit w der) = onCancel der.
Proof.
  unfold lazyInit. destruct (client der); simpl; by destruct (monitor der).
Qed.

Local Ltac plan_shape_done :=
  split; [first [by left | right; by do 2 eexists] | by repeat split].

(** The planning makes no event but the checkpoint load and the debug line,
    and leaves the callbacks alone. *)
Lemma plan_shape (w : World) (der : Downloader) (cl : HTTPClient) (cfg : Config)
    (mon : Monitor) (resp : Response) :
  let p := plan w der cl cfg mon resp in
  (trace p = [EvInitInstanceState]
   ∨ exists a b, trace p = [EvInitInstanceState; EvVerbosef a b])
  ∧ onExecute (der_after p) = onExecute der
  ∧ onFinish (der_after p) = onFinish der
  ∧ onCancel (der_after p) = onCancel der.
Proof.
  unfold plan. destruct (Response_Request resp).
  all: destruct (initInstanceState w cfg); [plan_shape_done|].
  all: destruct (chooseParallel _ _ _ _ _); [|plan_shape_done];
         cbn [parallel set_cacheSize set_parallel].
  all: destruct (blockSizeOf _ _); [|plan_shape_done].
  all: case_bool_decide; [plan_shape_done|].
  all: destruct (workerLoop _ _ _ _ _ _ _ _ _ _ _ _ _ _); plan_shape_done.
Qed.

Lemma trigger_not_returned (f : option string) :
  omap monitorReturned (trigger f) = [].
Proof. by destruct f. Qed.

(** Either the monitor never ran, or it returned once and [Execute] went on
    to its end and returned nil. *)
Lemma Execute_monitor_returned (w : World) (der : Downloader) :
  omap monitorReturned (trace (Execute w der)) = []
  ∨ (omap monitorReturned (trace (Execute w der)) = [cancel_during_monitor w]
     ∧ result (Execute w der) = Ok None
     ∧ (cancel_during_monitor w = true -> EvCancelContext ∈ trace (Execute w der))
     ∧ EvRemoveInstanceState ∈ trace (Execute w der)
     ∧ exists before : list Event,
         trace (Execute w der) = before ++ trigger (onFinish der) ++ [EvBodyClose]).
Proof.
  destruct (config der) as [cfg|] eqn:Hcfg.
  2: { left. unfold Execute. by rewrite MustCheck_lazyInit, Hcfg. }
  rewrite (Execute_probe w der cfg Hcfg). cbv zeta.
  destruct (client_Req w (client_of der) "HEAD" (durl der)) as [[resp|] [e|]];
    [by left| |by left|by left].
  case_bool_decide; [by left|].
  set (p := plan w (lazyInit w der) (client_of der) cfg (monitor_of w der) resp).
  destruct (plan_shape w (lazyInit w der) (client_of der) cfg (monitor_of w der) resp)
    as (Htr & _ & Hfin & Hcan).
  fold p in Htr, Hfin, Hcan.
  destruct (lazyInit_callbacks w der) as (_ & Hfin' & Hcan').
  rewrite Hfin' in Hfin. rewrite Hcan' in Hcan.
  assert (Hplan : omap monitorReturned (trace p) = [])
    by (destruct Htr as [Htr|(a & b & Htr)]; by rewrite Htr).
  unfold afterPlan.
  destruct (result p) as [[e|]|msg]; [| destruct (monitor (der_after p)) as [mon'|] |];
    cbn [stopped trace result].
  1, 3, 4: left; by rewrite !omap_app, Hplan.
  right. unfold run, Cancel.
  cbn [trace result monitor set_monitor monitorCancelFunc set_monitorCancelFunc
       onExecute onFinish onCancel trigger_cancel].
  rewrite Hfin, Hcan. split; [|split; [done|split; [|split]]].
  - rewrite !omap_app, Hplan, !trigger_not_returned.
    destruct (cancel_during_monitor w); [|done].
    by rewrite !omap_app, trigger_not_returned.
  - intros ->.
    apply elem_of_app; right. apply elem_of_app; right.
    apply elem_of_app; left. apply elem_of_app; right.
    apply elem_of_app; right. apply elem_of_app; left.
    apply elem_of_app; right. apply list_elem_of_here.
  - apply elem_of_app; right. apply elem_of_app; right.
    apply elem_of_app; left. apply elem_of_app; right.
    apply elem_of_app; right. apply elem_of_app; right.
    apply elem_of_app; right. apply elem_of_app; left.
    apply list_elem_of_here.
  - eexists. rewrite !app_assoc. by do 2 f_equal.
Qed.

(** Whenever the monitor returns, cancelled or not, [Execute] goes on to
    call [removeInstanceState]: line 205 is not guarded. *)
Lemma removeInstanceState_unguarded (w : World) (der : Downloader) (cancelled : bool) :
  EvMonitorReturn cancelled ∈ trace (Execute w der) ->
  EvRemoveInstanceState ∈ trace (Execute w der).
Proof.
  intros Hin.
  assert (Hret : cancelled ∈ omap monitorReturned (trace (Execute w der))).
  { apply list_elem_of_omap. by exists (EvMonitorReturn cancelled). }
  destruct (Execute_monitor_returned w der) as [Hnone|(_ & _ & _ & Hrm & _)];
    [|done].
  rewrite Hnone in Hret. by apply elem_of_nil in Hret.
Qed.

(** C1, amended: in every run whose monitor came back cancelled, [Cancel]
    having been invoked while it ran, [Execute] returns nil, as after a
    completed run; there is no cancellation error. The context was
    cancelled, and [Execute] ends by firing [onFinish]. *)
Theorem cancelled_run_returns_nil (w : World) (der : Downloader) :
  EvMonitorReturn true ∈ trace (Execute w der) ->
  cancel_during_monitor w = true
  ∧ result (Execute w der) = Ok None
  ∧ EvCancelContext ∈ trace (Execute w der)
  ∧ exists before : list Event,
      trace (Execute w der) = before ++ trigger (onFinish der) ++ [EvBodyClose].
Proof.
  intros Hin.
  assert (Hret : true ∈ omap monitorReturned (trace (Execute w der))).
  { apply list_elem_of_omap. by exists (EvMonitorReturn true). }
  destruct (Execute_monitor_returned w der)
    as [Hnone|(Hone & Hres & Hctx & _ & Hend)].
  { rewrite Hnone in Hret. by apply elem_of_nil in Hret. }
  rewrite Hone in Hret. apply list_elem_of_singleton in Hret.
  symmetry in Hret. auto.
Qed.

Lemma cancelled_run_returns_nil_witness :
  let w := Sample.world (256 * 1024) (Sample.ok 100) None true in
  result (Execute w (Sample.downloader w (Sample.cfg 8 8192))) = Ok None.
Proof.
  intros w.
  refine (proj1 (proj2 (cancelled_run_returns_nil w
                          (Sample.downloader w (Sample.cfg 8 8192)) _))).
  vm_compute. do 5 apply list_elem_of_further. apply list_elem_of_here.
Defined.

(** C1 as it is written fails: with [Cancel] invoked while the monitor runs,
    [Execute] returns nil, not an error, and the same steps follow the
    monitor as after a completed run. *)
Lemma cancelled_run_counterexample :
  let w := Sample.world (256 * 1024) (Sample.ok 100) None true in
  let r := Execute w (Sample.downloader w (Sample.cfg 8 8192)) in
  result r = Ok None
  ∧ (forall e : error, result r <> Ok (Some e))
  ∧ drop 4 (trace r)
    = [EvCancelContext; EvMonitorReturn true; EvRemoveInstanceState; EvBodyClose].
Proof. vm_compute. repeat split. discriminate. Qed.

(** ** The driver: checkpoint path and skipping *)

Lemma fileExist_iff (fs : gset string) (p : string) :
  fileExist fs p = true <-> p ∈ fs ∧ (p +:+ DownloadSuffix) ∉ fs.
Proof.
  unfold fileExist, os_Stat.
  destruct (decide (p ∈ fs)) as [Hp|Hp];
    destruct (decide ((p +:+ DownloadSuffix) ∈ fs)) as [Hs|Hs].
  - rewrite !bool_decide_eq_true_2 by done. simpl. split; [done|]. by intros [_ ?].
  - rewrite bool_decide_eq_true_2, bool_decide_eq_false_2 by done. by simpl.
  - rewrite bool_decide_eq_false_2 by done. split; [done|]. by intros [? _].
  - rewrite bool_decide_eq_false_2 by done. split; [done|]. by intros [? _].
Qed.

(** C9, amended: outside a test download, for every destination path the
    checkpoint path that the download function sets in the configuration,
    and hands to the downloader it makes, is exactly that path followed by
    ".BaiduPCS-Go-downloading"; and the turn of the driver's loop that takes
    a file from the queue skips it as already downloaded (the skip line, no
    download started) if and only if the file at its destination exists and
    the file at the checkpoint path does not; otherwise it starts the
    download. *)
Theorem checkpoint_path_and_skip (w : World) (c : Cloud) (id : Z)
    (dest url : string) (cfg : Config) (fs : gset string)
    (st : Driver) (task : dtask) (rest : list dtask) (info : FileDirectory) :
  IsTest cfg = false ->
  dlist st = task :: rest ->
  match downloadInfo task with
  | Some known => inl known
  | None => FilesDirectoriesMeta c (path task)
  end = inl info ->
  Isdir info = false ->
  let d := getDownloadFunc w c id dest (Some cfg) url fs in
  let p := GetSavePath c (path task) in
  InstanceStatePath (dl_config d) = (dest +:+ ".BaiduPCS-Go-downloading")
  ∧ (forall der : Downloader,
       dl_downloader d = Some der ->
       InstanceStatePath <$> config der
       = Some (dest +:+ ".BaiduPCS-Go-downloading"))
  ∧ exists (st' : Driver) (evs : list DriverEvent),
      turn c (IsTest cfg) st = Some st'
      ∧ out st' = out st ++ evs
      ∧ (DrSkip (ID task) p ∈ evs
         <-> p ∈ files st ∧ (p +:+ ".BaiduPCS-Go-downloading") ∉ files st)
      ∧ (downloads st' = downloads st
         <-> p ∈ files st ∧ (p +:+ ".BaiduPCS-Go-downloading") ∉ files st)
      ∧ (DrDownload (ID task) (path task) p ∈ evs
         <-> ¬ (p ∈ files st ∧ (p +:+ ".BaiduPCS-Go-downloading") ∉ files st)).
Proof.
  intros Htest Hqueue Hfound Hfile d p.
  split; [|split].
  - unfold d, getDownloadFunc.
    change (default (NewConfig w) (Some cfg)) with cfg. rewrite Htest. cbn [negb].
    by destruct (os_OpenFile c dest _).
  - unfold d, getDownloadFunc.
    change (default (NewConfig w) (Some cfg)) with cfg. rewrite Htest. cbn [negb].
    destruct (os_OpenFile c dest _); [done|].
    cbn. by intros der [= <-].
  - rewrite Htest. unfold turn. rewrite Hqueue, Hfound, Hfile.
    cbn [say set_downloadInfo ID path dlist files out downloads lastID totalBytes].
    fold p. unfold skipsDownload. cbn [negb andb].
    pose proof (fileExist_iff (files st) p) as Hskip.
    change (p +:+ DownloadSuffix) with (p +:+ ".BaiduPCS-Go-downloading") in Hskip.
    destruct (fileExist (files st) p).
    + assert (Hyes : p ∈ files st ∧ (p +:+ ".BaiduPCS-Go-downloading") ∉ files st)
        by (by apply Hskip).
      eexists. exists [DrInfo (ID task) info; DrPrepare (ID task) (path task);
                       DrSkip (ID task) p].
      split; [reflexivity|]. split; [cbn; by rewrite <- !app_assoc|].
      split; [|split].
      * split; [done|]. intros _. do 2 apply list_elem_of_further.
        apply list_elem_of_here.
      * done.
      * split; [|done]. intros Hin.
        repeat (apply elem_of_cons in Hin as [Hin|Hin]; [discriminate Hin|]).
        by apply elem_of_nil in Hin.
    + assert (Hno : ¬ (p ∈ files st ∧ (p +:+ ".BaiduPCS-Go-downloading") ∉ files st)).
      { intros Hyes. apply Hskip in Hyes. discriminate Hyes. }
      assert (Hquiet : forall evs : list DriverEvent,
                omap (fun ev => match ev with DrSkip _ _ => Some ev | _ => None end)
                  evs = [] ->
                DrSkip (ID task) p ∉ evs).
      { intros evs Hevs Hin.
        assert (Hmem : DrSkip (ID task) p
                       ∈ omap (fun ev => match ev with
                                         | DrSkip _ _ => Some ev
                                         | _ => None
                                         end) evs)
          by (apply list_elem_of_omap; by exists (DrSkip (ID task) p)).
        rewrite Hevs in Hmem. by apply elem_of_nil in Hmem. }
      destruct (DownloadFile c (downloads st) (path task) (ID task) p (files st))
        as [fs' [e|]].
      * assert (Hevs : omap (fun ev => match ev with
                                       | DrSkip _ _ => Some ev
                                       | _ => None
                                       end)
                         (handleTaskErr (set_downloadInfo info task) "下载文件错误"
                            (Some e) rest).2 = []).
        { unfold handleTaskErr.
          destruct (String.eqb _ _ && strings_Contains _ _); [done|].
          by case_bool_decide. }
        destruct (handleTaskErr _ _ _ _) as [queue evs]. cbn [snd] in Hevs.
        eexists. exists ([DrInfo (ID task) info; DrPrepare (ID task) (path task);
                          DrDownload (ID task) (path task) p] ++ evs).
        split; [reflexivity|]. split; [cbn; by rewrite <- !app_assoc|].
        split; [|split].
        -- split; [|done]. intros Hin. exfalso.
           apply (Hquiet ([DrInfo (ID task) info; DrPrepare (ID task) (path task);
                           DrDownload (ID task) (path task) p] ++ evs)); [|done].
           by rewrite omap_app, Hevs.
        -- cbn [downloads]. split; [lia|done].
        -- split; [done|]. intros _. do 2 apply list_elem_of_further.
           apply list_elem_of_here.
      * eexists. exists [DrInfo (ID task) info; DrPrepare (ID task) (path task);
                         DrDownload (ID task) (path task) p].
        split; [reflexivity|]. split; [cbn; by rewrite <- !app_assoc|].
        split; [|split].
        -- split; [|done]. intros Hin.
           repeat (apply elem_of_cons in Hin as [Hin|Hin]; [discriminate Hin|]).
           by apply elem_of_nil in Hin.
        -- cbn [downloads]. split; [lia|done].
        -- split; [done|]. intros _. do 2 apply list_elem_of_further.
           apply list_elem_of_here.
Qed.

(** A finished file is skipped: its destination is there and no checkpoint
    file stands beside it. *)
Lemma checkpoint_path_and_skip_witness :
  let w := Sample.world (256 * 1024) (Sample.ok 100) None false in
  let task := {| ID := 1; MaxRetry := 3; retry := 0; path := "/d/a";
                 downloadInfo := None |} in
  let st := {| dlist := [task]; lastID := 1; totalBytes := 0;
               files := {[ "save/d/a" ]}; downloads := O; out := [] |} in
  InstanceStatePath
    (dl_config (getDownloadFunc w DriverSample.cloud 1 "save/d/a"
                  (Some (Sample.cfg 4 8192)) "http://d/a" ∅))
  = "save/d/a.BaiduPCS-Go-downloading"
  ∧ exists st' : Driver,
      turn DriverSample.cloud false st = Some st'
      ∧ DrSkip 1 "save/d/a" ∈ out st'
      ∧ downloads st' = O.
Proof.
  intros w task st.
  unshelve epose proof
    (checkpoint_path_and_skip w DriverSample.cloud 1 "save/d/a" "http://d/a"
       (Sample.cfg 4 8192) ∅ st task [] DriverSample.file1 _ _ _ _)
    as (Hpath & _ & st' & evs & Hturn & Hout & Hskip & Hcount & _).
  1-4: reflexivity.
  assert (Hthere : "save/d/a" ∈ files st
                   ∧ "save/d/a.BaiduPCS-Go-downloading" ∉ files st).
  { subst st. cbn [files]. split; [by apply elem_of_singleton_2|].
    intros Hin. apply elem_of_singleton in Hin. discriminate Hin. }
  split; [exact Hpath|]. exists st'. split; [exact Hturn|]. split.
  - rewrite Hout. apply elem_of_app. right. by apply Hskip.
  - by apply Hcount.
Defined.

(** C9 as it is written fails in a test download: the destination exists,
    its checkpoint file does not, yet the turn of the driver's loop does not
    skip it but starts the download; nor does the download function set the
    checkpoint path. *)
Lemma test_download_counterexample :
  let w := Sample.world (256 * 1024) (Sample.ok 100) None false in
  let cfg := {| MaxParallel := 4; CacheSize := 8192; IsTest := true;
                InstanceStatePath := ""; parallel := 0; cacheSize := 0 |} in
  let task := {| ID := 1; MaxRetry := 3; retry := 0; path := "/d/a";
                 downloadInfo := None |} in
  let st := {| dlist := [task]; lastID := 1; totalBytes := 0;
               files := {[ "save/d/a" ]}; downloads := O; out := [] |} in
  "save/d/a" ∈ files st
  ∧ (("save/d/a" +:+ DownloadSuffix) ∉ files st)
  ∧ (out <$> turn DriverSample.cloud (IsTest cfg) st)
    = Some [DrInfo 1 DriverSample.file1; DrPrepare 1 "/d/a";
            DrDownload 1 "/d/a" "save/d/a"]
  ∧ InstanceStatePath
      (dl_config (getDownloadFunc w DriverSample.cloud 1 "save/d/a" (Some cfg)
                    "http://d/a" ∅))
    <> ("save/d/a" +:+ DownloadSuffix).
Proof.
  intros w cfg task st. subst st. cbn [files].
  split; [by apply elem_of_singleton_2|]. split.
  { intros Hin. apply elem_of_singleton in Hin. discriminate Hin. }
  split; [reflexivity | discriminate].
Qed.

(** * Further properties of the code *)

(** ** Construction *)

(** X1: [NewDownloader] never leaves the configuration nil (a nil argument
    is replaced by [NewConfig]), so [SetClient] with a client cannot panic
    on its result; the downloader then holds that client and no monitor. *)
Theorem SetClient_after_NewDownloader (w : World) (url : string)
    (sink : option WriteCloserAt) (cfg : option Config) (c : HTTPClient) :
  exists der : Downloader,
    SetClient (Some c) (NewDownloader w url sink cfg) = Ok der
    ∧ client der = Some c
    ∧ config der = Some (default (NewConfig w) cfg)
    ∧ monitor der = None
    ∧ durl der = url
    ∧ writer der = sink.
Proof.
  destruct cfg as [cfg|]; eexists; (split; [reflexivity|]); by repeat split.
Qed.

(** ** What a run is made of *)

Lemma workerLoop_built (cl : HTTPClient) (cfg : Config)
    (url referer acceptRanges : string) (writerAt : option WriteCloserAt)
    (isRange : bool) (ranges : list Range) (blockSize total : Z)
    (P : Worker -> Prop) :
  (forall i begin wk b,
     buildWorker cl cfg url referer acceptRanges writerAt isRange ranges
       blockSize total i begin = Ok (wk, b) -> P wk) ->
  forall (n : nat) (i begin : Z) (mon mon' : Monitor),
    workerLoop cl cfg url referer acceptRanges writerAt isRange ranges
      blockSize total n i begin mon = Ok mon' ->
    status mon' = status mon
    ∧ monitor_hasInstanceState mon' = monitor_hasInstanceState mon
    ∧ exists ws, workers mon' = workers mon ++ ws ∧ length ws = n ∧ Forall P ws.
Proof.
  intros HP. induction n as [|n IH]; intros i begin mon mon' Hloop.
  - simpl in Hloop. injection Hloop as <-.
    repeat split. exists []. by rewrite app_nil_r.
  - cbn [workerLoop] in Hloop.
    destruct (buildWorker _ _ _ _ _ _ _ _ _ _ i begin) as [[wk b]|msg] eqn:Hb;
      [|done].
    cbn [go_bind fst snd] in Hloop.
    apply IH in Hloop as (Hst & Hfl & ws & Hws & Hlen & Hall).
    split; [done|]. split; [done|].
    exists (wk :: ws). split; [|split].
    + rewrite Hws. simpl. by rewrite <- app_assoc.
    + simpl. by rewrite Hlen.
    + constructor; [by eapply HP|done].
Qed.

Lemma buildWorker_setup (cl : HTTPClient) (cfg : Config)
    (url referer acceptRanges : string) (writerAt : option WriteCloserAt)
    (isRange : bool) (ranges : list Range) (blockSize total : Z)
    (i begin : Z) (wk : Worker) (b : Z) :
  buildWorker cl cfg url referer acceptRanges writerAt isRange ranges
    blockSize total i begin = Ok (wk, b) ->
  wid wk = Int.int32 i ∧ wurl wk = url ∧ wwriterAt wk = writerAt
  ∧ wclient wk = Some cl ∧ wcacheSize wk = cacheSize cfg ∧ wwriteMu wk = true
  ∧ wreferer wk = referer ∧ wacceptRanges wk = acceptRanges
  ∧ is_Some (wrange wk).
Proof.
  unfold buildWorker. destruct isRange.
  - destruct (ranges !! Z.to_nat i); [|done].
    intros [= <- <-]. by repeat split.
  - case_bool_decide; cbn; intros [= <- <-]; by repeat split.
Qed.

(** The three ways out of the planning. *)
Lemma plan_outcome (w : World) (der : Downloader) (cl : HTTPClient)
    (cfg : Config) (mon : Monitor) (resp : Response) :
  let p := plan w der cl cfg mon resp in
  let mon0 := set_status (set_totalSize (ContentLength resp) (status mon)) mon in
  match result p with
  | Ok None =>
      exists (cfg' : Config) (mon' : Monitor),
        initInstanceState w cfg = None
        ∧ der_after p = set_monitor (Some mon') (set_config (Some cfg') der)
        ∧ trace p = [EvInitInstanceState; EvVerbosef (parallel cfg') (cacheSize cfg')]
        ∧ length (workers mon') = Z.to_nat (parallel cfg')
        ∧ Forall (fun wk => wwriterAt wk = writer der ∧ wclient wk = Some cl)
            (workers mon')
  | Ok (Some e) =>
      initInstanceState w cfg = Some e
      ∧ der_after p = set_monitor (Some mon0) der
      ∧ trace p = [EvInitInstanceState]
  | Panic msg =>
      initInstanceState w cfg = None
      ∧ (trace p = [EvInitInstanceState]
         ∨ exists a b, trace p = [EvInitInstanceState; EvVerbosef a b])
      ∧ (workers <$> monitor (der_after p) = Some (workers mon)
         ∨ workers <$> monitor (der_after p) = Some [])
  end.
Proof.
  unfold plan. destruct (Response_Request resp) as [req|].
  all: destruct (initInstanceState w cfg) as [e|]; [done|].
  all: destruct (chooseParallel _ _ _ _ _) as [n|msg];
         [|cbn; split; [done|]; split; [by left|left];
           by destruct (instanceState_Get w cfg ≫= DlStatus)].
  all: cbn [parallel set_cacheSize set_parallel].
  all: destruct (blockSizeOf _ _) as [b|msg];
         [|cbn; split; [done|]; split; [by left|left];
           by destruct (instanceState_Get w cfg ≫= DlStatus)].
  all: case_bool_decide;
         [cbn; split; [done|]; split; [right; by do 2 eexists|left];
          by destruct (instanceState_Get w cfg ≫= DlStatus)|].
  all: destruct (workerLoop _ _ _ _ _ _ _ _ _ _ _ _ _ _) as [mon'|msg] eqn:Hloop;
         [|cbn; split; [done|]; split; [right; by do 2 eexists|by right]].
  all: cbn [stopped result der_after trace].
  all: eapply (workerLoop_built _ _ _ _ _ _ _ _ _ _
                 (fun wk => wwriterAt wk = writer der ∧ wclient wk = Some cl))
         in Hloop as (_ & _ & ws & Hws & Hlen & Hall);
         [|intros i begin wk b' Hb; apply buildWorker_setup in Hb;
           cbn [writer set_config] in Hb; by destruct Hb as (_ & _ & ? & ? & _)].
  all: cbn [workers set_workers app] in Hws.
  all: eexists _, mon'; split; [done|]; split; [done|]; split; [done|].
  all: rewrite Hws; split; [by rewrite Hlen|done].
Qed.

Local Ltac mid_events :=
  repeat (constructor; [first [by left | by right]|]); constructor.

(** The three ways out of [Execute]. *)
Lemma Execute_outcome (w : World) (der : Downloader) :
  let r := Execute w der in
  match result r with
  | Ok None =>
      exists cfg' : Config,
        config (der_after r) = Some cfg'
        ∧ monitorCancelFunc (der_after r) = true
        ∧ is_Some (monitor (der_after r))
        ∧ onCancel (der_after r) = onCancel der
        ∧ length (workersOf r) = Z.to_nat (parallel cfg')
        ∧ Forall (fun wk => wwriterAt wk = writer der
                            ∧ wclient wk = Some (client_of der)) (workersOf r)
        ∧ trace r
          = [EvReq (client_of der) "HEAD" (durl der); EvInitInstanceState;
             EvVerbosef (parallel cfg') (cacheSize cfg')]
            ++ trigger (onExecute der)
            ++ [EvMonitorExecute (workersOf r)]
            ++ (if cancel_during_monitor w
                then trigger (onCancel der) ++ [EvCancelContext] else [])
            ++ [EvMonitorReturn (cancel_during_monitor w); EvRemoveInstanceState]
            ++ trigger (onFinish der)
            ++ [EvBodyClose]
  | Ok (Some e) =>
      workersOf r = workers (monitor_of w der)
      ∧ monitorCancelFunc (der_after r) = monitorCancelFunc der
      ∧ is_Some (monitor (der_after r))
      ∧ onCancel (der_after r) = onCancel der
      ∧ exists mid : list Event,
          trace r = EvReq (client_of der) "HEAD" (durl der) :: mid
          ∧ Forall (fun ev => ev = EvInitInstanceState ∨ ev = EvBodyClose) mid
  | Panic msg => Forall (fun ev => planningEvent ev = true) (trace r)
  end.
Proof.
  assert (Hflag : monitorCancelFunc (lazyInit w der) = monitorCancelFunc der)
    by (unfold lazyInit; destruct (client der); simpl; by destruct (monitor der)).
  destruct (lazyInit_callbacks w der) as (Hexe & Hfin & Hcan).
  destruct (config der) as [cfg|] eqn:Hcfg.
  2: { unfold Execute. rewrite MustCheck_lazyInit, Hcfg. by constructor. }
  cbv zeta. rewrite (Execute_probe w der cfg Hcfg). cbv zeta.
  assert (Hearly : forall (e : error) (evs : list Event),
            Forall (fun ev => ev = EvInitInstanceState ∨ ev = EvBodyClose) evs ->
            let r := stopped (Ok (Some e)) (lazyInit w der)
                       ([EvReq (client_of der) "HEAD" (durl der)] ++ evs) in
            workersOf r = workers (monitor_of w der)
            ∧ monitorCancelFunc (der_after r) = monitorCancelFunc der
            ∧ is_Some (monitor (der_after r))
            ∧ onCancel (der_after r) = onCancel der
            ∧ exists mid : list Event,
                trace r = EvReq (client_of der) "HEAD" (durl der) :: mid
                ∧ Forall (fun ev => ev = EvInitInstanceState ∨ ev = EvBodyClose) mid).
  { intros e evs Hevs r. unfold r, workersOf. cbn [stopped der_after trace].
    rewrite lazyInit_monitor. split; [done|]. split; [done|].
    split; [by eexists|]. split; [done|]. by exists evs. }
  destruct (client_Req w (client_of der) "HEAD" (durl der)) as [[resp|] [e|]].
  - cbn [result stopped]. apply Hearly. mid_events.
  - case_bool_decide.
    { cbn [result stopped]. apply Hearly. mid_events. }
    pose proof (plan_outcome w (lazyInit w der) (client_of der) cfg
                  (monitor_of w der) resp) as Hp.
    cbv zeta in Hp. unfold afterPlan.
    destruct (result (plan w (lazyInit w der) (client_of der) cfg
                        (monitor_of w der) resp)) as [[e|]|msg].
    + destruct Hp as (_ & Hder & Htr).
      cbn [stopped result der_after trace]. unfold workersOf.
      cbn [stopped der_after]. rewrite Hder, Htr.
      cbn [monitor set_monitor monitorCancelFunc onCancel fmap option_fmap
           option_map default workers set_status].
      rewrite Hflag, Hcan. split; [done|]. split; [done|].
      split; [by eexists|]. split; [done|].
      eexists. split; [reflexivity|]. mid_events.
    + destruct Hp as (cfg' & mon' & _ & Hder & Htr & Hlen & Hall).
      rewrite Hder, Htr. cbn [monitor set_monitor]. unfold run, Cancel, workersOf.
      cbn [stopped result der_after trace monitor set_monitor config set_config
           monitorCancelFunc set_monitorCancelFunc onCancel onExecute onFinish
           trigger_cancel fmap option_fmap option_map default workers
           Monitor_SetInstanceState].
      rewrite Hexe, Hfin, Hcan. rewrite lazyInit_writer in Hall.
      exists cfg'. split; [done|]. split; [done|]. split; [by eexists|].
      split; [done|]. split; [done|]. split; [done|].
      repeat first [rewrite <- app_assoc | rewrite <- app_comm_cons]; reflexivity.
    + destruct Hp as (_ & Htr & _).
      destruct (monitor _); cbn [stopped result trace].
      all: destruct Htr as [->|(a & b & ->)]; by repeat constructor.
  - cbn [result stopped]. rewrite <- (app_nil_r [EvReq _ _ _]).
    apply Hearly. constructor.
  - cbn. by repeat constructor.
Qed.

(** X2: when [Execute] returns nil it has done, in this order: the HEAD
    request, the checkpoint load, the debug line with the parallelism and
    the cache size it settled on, [onExecute], the monitor on the workers it
    built, [removeInstanceState], [onFinish], and the deferred close; every
    worker holds the downloader's sink and client. *)
Theorem nil_return_trace (w : World) (der : Downloader) :
  result (Execute w der) = Ok None ->
  let r := Execute w der in
  exists n size : Z,
    chosenParallel r = Some n
    ∧ effectiveCacheSize r = Some size
    ∧ length (workersOf r) = Z.to_nat n
    ∧ Forall (fun wk => wwriterAt wk = writer der
                        ∧ wclient wk = Some (client_of der)) (workersOf r)
    ∧ trace r
      = [EvReq (client_of der) "HEAD" (durl der); EvInitInstanceState;
         EvVerbosef n size]
        ++ trigger (onExecute der)
        ++ [EvMonitorExecute (workersOf r)]
        ++ (if cancel_during_monitor w
            then trigger (onCancel der) ++ [EvCancelContext] else [])
        ++ [EvMonitorReturn (cancel_during_monitor w); EvRemoveInstanceState]
        ++ trigger (onFinish der)
        ++ [EvBodyClose].
Proof.
  intros Hres r. pose proof (Execute_outcome w der) as H. cbv zeta in H.
  rewrite Hres in H. destruct H as (cfg' & Hcfg & _ & _ & _ & Hlen & Hall & Htr).
  exists (parallel cfg'), (cacheSize cfg').
  unfold chosenParallel, effectiveCacheSize, r. rewrite Hcfg. by repeat split.
Qed.

Lemma nil_return_trace_witness :
  let w := Sample.world (256 * 1024) (Sample.ok 100) None false in
  let der := OnFinish (Some "exit") (OnExecute (Some "status")
               (Sample.downloader w (Sample.cfg 8 8192))) in
  exists wk : Worker,
    trace (Execute w der)
    = [EvReq NewHTTPClient "HEAD" "http://d/f"; EvInitInstanceState;
       EvVerbosef 1 100; EvCallback "status"; EvMonitorExecute [wk];
       EvMonitorReturn false; EvRemoveInstanceState; EvCallback "exit";
       EvBodyClose].
Proof.
  intros w der.
  destruct (nil_return_trace w der eq_refl) as (n & size & Hn & Hs & Hl & _ & Htr).
  injection Hn as <-. injection Hs as <-.
  destruct (workersOf (Execute w der)) as [|wk [|]] eqn:Hws; try discriminate Hl.
  exists wk. rewrite Htr. reflexivity.
Defined.

(** X3: whenever [Execute] does not return nil, be it an error or a panic,
    nothing but the probe and the planning has happened: no callback has
    fired ([onFinish] included), the monitor has not run and
    [removeInstanceState] has not been called. *)
Theorem failure_fires_nothing (w : World) (der : Downloader) :
  result (Execute w der) <> Ok None ->
  Forall (fun ev => planningEvent ev = true) (trace (Execute w der))
  ∧ (forall name, EvCallback name ∉ trace (Execute w der))
  ∧ EvRemoveInstanceState ∉ trace (Execute w der).
Proof.
  intros Hres. pose proof (Execute_outcome w der) as H. cbv zeta in H.
  assert (Hall : Forall (fun ev => planningEvent ev = true) (trace (Execute w der))).
  { destruct (result (Execute w der)) as [[e|]|msg]; [|done|done].
    destruct H as (_ & _ & _ & _ & mid & -> & Hmid).
    constructor; [done|]. eapply Forall_impl; [exact Hmid|].
    by intros ev [->| ->]. }
  split; [done|]. rewrite Forall_forall in Hall.
  split; [intros name Hin|intros Hin]; by apply Hall in Hin.
Qed.

Lemma failure_fires_nothing_witness :
  let w := Sample.world (256 * 1024)
             (Some (Sample.response 500 "500 Internal Server Error" 100), None)
             None false in
  let der := OnFinish (Some "exit") (Sample.downloader w (Sample.cfg 8 8192)) in
  EvCallback "exit" ∉ trace (Execute w der).
Proof.
  intros w der.
  refine (proj1 (proj2 (failure_fires_nothing w der _)) "exit").
  vm_compute. discriminate.
Defined.

(** X4: when the checkpoint cannot be loaded, [Execute] returns the
    loader's error and stops there: the total size has been set from the
    HEAD response, but no parallelism is chosen and no worker is built. *)
Theorem checkpoint_load_failure_aborts (w : World) (der : Downloader)
    (cfg : Config) (resp : Response) (e : error) :
  config der = Some cfg ->
  probed w der resp ->
  ¬ (400 <= StatusCode resp <= 599) ->
  initInstanceState w cfg = Some e ->
  let r := Execute w der in
  result r = Ok (Some e)
  ∧ trace r = [EvReq (client_of der) "HEAD" (durl der); EvInitInstanceState;
               EvBodyClose]
  ∧ (totalSize ∘ status <$> monitor (der_after r)) = Some (ContentLength resp)
  ∧ workersOf r = workers (monitor_of w der)
  ∧ config (der_after r) = Some cfg.
Proof.
  intros Hcfg Hprobe Hcode Hinit r.
  assert (Hclass : ¬ (statusClass resp = 4 ∨ statusClass resp = 5))
    by (by rewrite statusClass_failure).
  unfold r. rewrite (Execute_enters_plan w der cfg resp Hcfg Hprobe Hclass).
  unfold afterPlan, plan, workersOf. rewrite Hinit.
  destruct (Response_Request resp); cbn; by rewrite lazyInit_config.
Qed.

Lemma checkpoint_load_failure_aborts_witness :
  let w := {| MinParallelSize := 256 * 1024; NewConfig := Sample.cfg 1 1024;
              NewDownloadStatus := Sample.zeroStatus;
              client_Req := fun _ _ _ => Sample.ok 100;
              initInstanceState := fun _ => Some (foreign_error "open checkpoint");
              instanceState_Get := fun _ => None;
              cancel_during_monitor := false |} in
  let r := Execute w (Sample.downloader w (Sample.cfg 8 8192)) in
  result r = Ok (Some (foreign_error "open checkpoint")) ∧ workersOf r = [].
Proof.
  intros w r.
  unshelve epose proof
    (checkpoint_load_failure_aborts w (Sample.downloader w (Sample.cfg 8 8192))
       (Sample.cfg 8 8192) (Sample.response 200 "200 OK" 100)
       (foreign_error "open checkpoint") _ _ _ _) as H.
  1-4: first [reflexivity | vm_compute; intuition congruence].
  destruct H as (Hres & _ & _ & Hws & _). split; [exact Hres | exact Hws].
Defined.



(** X6: [Pause], [Resume] and [Cancel] do nothing, registered callbacks
    included, on a downloader that has no monitor yet. After a run that
    returned nil, [Cancel] fires [onCancel] and cancels the run's context;
    after one that returned an error it only fires [onCancel] (and whatever
    cancel function the downloader held before). *)
Theorem control_before_and_after_Execute (w : World) (der : Downloader) :
  monitor der = None ->
  let r := Execute w der in
  Pause der = [] ∧ Resume der = [] ∧ Cancel der = []
  ∧ (result r = Ok None ->
     Cancel (der_after r) = trigger (onCancel der) ++ [EvCancelContext])
  ∧ (forall e, result r = Ok (Some e) ->
     Cancel (der_after r)
     = trigger (onCancel der) ++ trigger_cancel (monitorCancelFunc der)).
Proof.
  intros Hmon r. unfold Pause, Resume, Cancel at 1. rewrite Hmon.
  split; [done|]. split; [done|]. split; [done|].
  pose proof (Execute_outcome w der) as H. cbv zeta in H. fold r in H.
  split.
  - intros Hres. rewrite Hres in H.
    destruct H as (cfg' & _ & Hflag & [mon' Hmon'] & Hcan & _).
    unfold Cancel. by rewrite Hmon', Hcan, Hflag.
  - intros e Hres. rewrite Hres in H.
    destruct H as (_ & Hflag & [mon' Hmon'] & Hcan & _).
    unfold Cancel. by rewrite Hmon', Hcan, Hflag.
Qed.

Lemma control_before_and_after_Execute_witness :
  let w := Sample.world (256 * 1024) (Sample.ok 100) None false in
  let der := OnCancel (Some "cancelled") (Sample.downloader w (Sample.cfg 8 8192)) in
  Cancel der = []
  ∧ Cancel (der_after (Execute w der)) = [EvCallback "cancelled"; EvCancelContext].
Proof.
  intros w der.
  destruct (control_before_and_after_Execute w der eq_refl)
    as (_ & _ & Hbefore & Hafter & _).
  split; [exact Hbefore | exact (Hafter eq_refl)].
Defined.

(** ** Edges of the planning *)

(** The planning once the checkpoint is loaded, over the planned total and
    the persisted ranges. *)
Lemma plan_loaded (w : World) (der : Downloader) (cl : HTTPClient)
    (cfg : Config) (mon : Monitor) (resp : Response) :
  initInstanceState w cfg = None ->
  plan w der cl cfg mon resp
  = let mon1 := {| status := plannedStatus w cfg resp mon; workers := workers mon;
                   monitor_hasInstanceState := monitor_hasInstanceState mon |} in
    let total := plannedTotal w cfg resp in
    let ranges := persistedRanges w cfg in
    match chooseParallel w (decideAcceptRanges resp) ranges cfg total with
    | Panic msg => stopped (Panic msg) (set_monitor (Some mon1) der)
                     [EvInitInstanceState]
    | Ok n =>
        match blockSizeOf total n with
        | Panic msg =>
            stopped (Panic msg)
              (set_monitor (Some mon1)
                 (set_config (Some (set_cacheSize (CacheSize cfg) (set_parallel n cfg)))
                    der))
              [EvInitInstanceState]
        | Ok b =>
            let cfg' := plannedConfig cfg n b in
            let evs := [EvInitInstanceState; EvVerbosef n (cacheSize cfg')] in
            if bool_decide (n < 0)
            then stopped (Panic makeslice_cap)
                   (set_monitor (Some mon1) (set_config (Some cfg') der)) evs
            else
              match workerLoop cl cfg' (sourceOf resp).1 (sourceOf resp).2
                      (decideAcceptRanges resp) (writer der)
                      (bool_decide (0 < Z.of_nat (length ranges))) ranges b total
                      (Z.to_nat n) 0 0 (set_workers [] mon1) with
              | Panic msg =>
                  stopped (Panic msg)
                    (set_monitor (Some (set_workers [] mon1))
                       (set_config (Some cfg') der)) evs
              | Ok mon' =>
                  stopped (Ok None)
                    (set_monitor (Some mon') (set_config (Some cfg') der)) evs
              end
        end
    end.
Proof.
  intros Hinit. unfold plan, plannedStatus, plannedTotal, persistedRanges, sourceOf.
  rewrite Hinit.
  destruct (Response_Request resp);
    destruct (instanceState_Get w cfg ≫= DlStatus); reflexivity.
Qed.

Lemma chooseParallel_nonpositive (w : World) (cfg : Config) (total : Z) :
  - 2 ^ 63 <= MaxParallel cfg <= 0 ->
  0 < MinParallelSize w < 2 ^ 63 ->
  0 <= total < 2 ^ 63 ->
  chooseParallel w "bytes" [] cfg total = Ok (MaxParallel cfg).
Proof.
  intros HM HP HT. unfold chooseParallel.
  cbn [String.eqb Ascii.eqb Bool.eqb length].
  rewrite bool_decide_eq_false_2 by (simpl; lia).
  rewrite (int64_id (MinParallelSize w)) by (unfold Int.in_int64; lia).
  rewrite go_div64_ok;
    [|lia|apply quot_in_int64; unfold Int.in_int64; lia].
  cbn [go_bind]. rewrite quot_is_div by lia.
  pose proof (div_bounds total (MinParallelSize w) ltac:(lia) ltac:(lia)).
  rewrite (int64_id (MaxParallel cfg)) by (unfold Int.in_int64; lia).
  by rewrite bool_decide_eq_false_2 by lia.
Qed.

(** X7: a fresh range-capable run with max_parallel 0 panics on the
    division of line 147 (integer divide by zero), and one with a negative
    max_parallel panics in the [make] of line 156; in both cases the
    checkpoint has been loaded, no worker has been built and no callback has
    fired. *)
Theorem nonpositive_MaxParallel_panics (w : World) (der : Downloader)
    (cfg : Config) (resp : Response) :
  config der = Some cfg ->
  probed w der resp ->
  ¬ (400 <= StatusCode resp <= 599) ->
  initInstanceState w cfg = None ->
  persistedRanges w cfg = [] ->
  0 < ContentLength resp ->
  0 <= plannedTotal w cfg resp < 2 ^ 63 ->
  0 < MinParallelSize w < 2 ^ 63 ->
  - 2 ^ 63 <= MaxParallel cfg <= 0 ->
  let r := Execute w der in
  result r = Panic (if bool_decide (MaxParallel cfg = 0)
                    then divide_by_zero else makeslice_cap)
  ∧ workersOf r = workers (monitor_of w der)
  ∧ exists rest : list Event,
      trace r = EvReq (client_of der) "HEAD" (durl der) :: EvInitInstanceState :: rest
      ∧ Forall (fun ev => planningEvent ev = true) rest.
Proof.
  intros Hcfg Hprobe Hcode Hinit Hfresh Hlen HT HP HM r.
  assert (Hclass : ¬ (statusClass resp = 4 ∨ statusClass resp = 5))
    by (by rewrite statusClass_failure).
  unfold r. rewrite (Execute_enters_plan w der cfg resp Hcfg Hprobe Hclass).
  rewrite (plan_loaded _ _ _ _ _ _ Hinit). cbv zeta.
  rewrite Hfresh, decideAcceptRanges_bytes, chooseParallel_nonpositive by done.
  unfold blockSizeOf, go_div64, Int.div64.
  rewrite (int64_id (MaxParallel cfg)) by (unfold Int.in_int64; lia).
  destruct (Z.eqb_spec (MaxParallel cfg) 0) as [H0|H0].
  - rewrite (bool_decide_eq_true_2 (MaxParallel cfg = 0)) by done.
    cbn. split; [done|]. split; [done|].
    eexists. split; [done|]. by repeat constructor.
  - rewrite (bool_decide_eq_false_2 (MaxParallel cfg = 0)) by done.
    rewrite (bool_decide_eq_true_2 (MaxParallel cfg < 0)) by lia. cbn.
    split; [done|]. split; [done|].
    eexists. split; [done|]. by repeat constructor.
Qed.

Lemma nonpositive_MaxParallel_panics_witness :
  let w := Sample.world (256 * 1024) (Sample.ok 1048576) None false in
  result (Execute w (Sample.downloader w (Sample.cfg 0 8192)))
  = Panic divide_by_zero.
Proof.
  intros w.
  unshelve epose proof
    (nonpositive_MaxParallel_panics w (Sample.downloader w (Sample.cfg 0 8192))
       (Sample.cfg 0 8192) (Sample.response 200 "200 OK" 1048576)
       _ _ _ _ _ _ _ _ _) as H.
  1-9: first [reflexivity | vm_compute; intuition congruence | vm_compute; lia].
  exact (proj1 H).
Defined.

(** X8: with the package's [MinParallelSize] at zero, every fresh
    range-capable run panics on the division of line 141, whatever
    max_parallel is, before any worker is built. *)
Theorem zero_MinParallelSize_panics (w : World) (der : Downloader)
    (cfg : Config) (resp : Response) :
  config der = Some cfg ->
  probed w der resp ->
  ¬ (400 <= StatusCode resp <= 599) ->
  initInstanceState w cfg = None ->
  persistedRanges w cfg = [] ->
  0 < ContentLength resp ->
  MinParallelSize w = 0 ->
  let r := Execute w der in
  result r = Panic divide_by_zero
  ∧ workersOf r = workers (monitor_of w der)
  ∧ trace r = [EvReq (client_of der) "HEAD" (durl der); EvInitInstanceState;
               EvBodyClose].
Proof.
  intros Hcfg Hprobe Hcode Hinit Hfresh Hlen HP r.
  assert (Hclass : ¬ (statusClass resp = 4 ∨ statusClass resp = 5))
    by (by rewrite statusClass_failure).
  unfold r. rewrite (Execute_enters_plan w der cfg resp Hcfg Hprobe Hclass).
  rewrite (plan_loaded _ _ _ _ _ _ Hinit). cbv zeta.
  rewrite Hfresh, decideAcceptRanges_bytes by done.
  unfold chooseParallel. rewrite HP. by cbn.
Qed.

Lemma zero_MinParallelSize_panics_witness :
  let w := Sample.world 0 (Sample.ok 1048576) None false in
  result (Execute w (Sample.downloader w (Sample.cfg 4 8192)))
  = Panic divide_by_zero.
Proof.
  intros w.
  unshelve epose proof
    (zero_MinParallelSize_panics w (Sample.downloader w (Sample.cfg 4 8192))
       (Sample.cfg 4 8192) (Sample.response 200 "200 OK" 1048576)
       _ _ _ _ _ _ _) as H.
  1-7: first [reflexivity | vm_compute; intuition congruence | vm_compute; lia].
  exact (proj1 H).
Defined.

Lemma Execute_planned_status (w : World) (der : Downloader) (cfg : Config)
    (resp : Response) (n : Z) :
  config der = Some cfg ->
  probed w der resp ->
  ¬ (statusClass resp = 4 ∨ statusClass resp = 5) ->
  initInstanceState w cfg = None ->
  chooseParallel w (decideAcceptRanges resp) (persistedRanges w cfg) cfg
    (plannedTotal w cfg resp) = Ok n ->
  1 <= n < 2 ^ 63 ->
  (persistedRanges w cfg <> [] -> n <= Z.of_nat (length (persistedRanges w cfg))) ->
  status <$> monitor (der_after (Execute w der))
  = Some (plannedStatus w cfg resp (monitor_of w der)).
Proof.
  intros Hcfg Hprobe Hclass Hinit Hch Hn Hlen.
  rewrite (Execute_enters_plan w der cfg resp Hcfg Hprobe Hclass).
  by rewrite (plan_closed w _ _ cfg _ resp n Hinit Hch Hn Hlen).
Qed.

(** X9: when the server reports no length (Content-Length <= 0) and there
    is no checkpoint, the run has one non-ranged worker whose range is
    [0, Content-Length - 1], an empty interval, and the cache size in force
    is min(CacheSize, Content-Length): it is cut down to the non-positive
    length whenever the configured size exceeds it. *)
Theorem unknown_length_plan (w : World) (der : Downloader) (cfg : Config)
    (resp : Response) :
  config der = Some cfg ->
  probed w der resp ->
  ¬ (400 <= StatusCode resp <= 599) ->
  initInstanceState w cfg = None ->
  instanceState_Get w cfg = None ->
  - 2 ^ 63 < ContentLength resp <= 0 ->
  Int.in_int (CacheSize cfg) ->
  let r := Execute w der in
  result r = Ok None
  ∧ chosenParallel r = Some 1
  ∧ planRanges r = [ {| Begin := 0; End := ContentLength resp - 1 |} ]
  ∧ Forall (fun wk => wacceptRanges wk = "") (workersOf r)
  ∧ effectiveCacheSize r = Some (Z.min (CacheSize cfg) (ContentLength resp))
  ∧ (totalSize ∘ status <$> monitor (der_after r)) = Some (ContentLength resp).
Proof.
  intros Hcfg Hprobe Hcode Hinit Hget Hlen HC r.
  assert (Hclass : ¬ (statusClass resp = 4 ∨ statusClass resp = 5))
    by (by rewrite statusClass_failure).
  assert (Hranges : persistedRanges w cfg = [])
    by (unfold persistedRanges; by rewrite Hget).
  assert (Htotal : plannedTotal w cfg resp = ContentLength resp)
    by (unfold plannedTotal; by rewrite Hget).
  pose proof (decideAcceptRanges_none resp ltac:(lia)) as Hacc.
  assert (Hch : chooseParallel w (decideAcceptRanges resp) (persistedRanges w cfg)
                  cfg (plannedTotal w cfg resp) = Ok 1)
    by (rewrite Hacc; apply chooseParallel_nonranged).
  assert (Hlen1 : persistedRanges w cfg <> [] ->
                  1 <= Z.of_nat (length (persistedRanges w cfg)))
    by (by rewrite Hranges).
  destruct (Execute_planned w der cfg resp Hcfg Hprobe Hclass Hinit 1 Hch
              ltac:(lia) Hlen1) as (Hres & Hconf & Hws & _).
  pose proof (Execute_planned_status w der cfg resp 1 Hcfg Hprobe Hclass Hinit Hch
                ltac:(lia) Hlen1) as Hst.
  fold r in Hres, Hconf, Hws, Hst.
  rewrite Htotal, Hranges in Hws. rewrite Htotal in Hconf.
  assert (Hb : plannedBlock (ContentLength resp) 1 = ContentLength resp).
  { unfold plannedBlock. rewrite Z.quot_1_r.
    apply int64_id. unfold Int.in_int64. lia. }
  rewrite Hb in Hws, Hconf.
  split; [done|]. split; [unfold chosenParallel; by rewrite Hconf|].
  split; [|split; [|split]].
  - unfold planRanges. rewrite Hws, planned_ranges.
    cbn [length Z.of_nat parallel plannedConfig set_cacheSize set_parallel].
    change (seqZ 0 1) with [0]. cbn [fmap list_fmap].
    rewrite (bool_decide_eq_false_2 (0 < Z.of_nat 0)) by (simpl; lia).
    unfold plannedRange, freshRangeW, Int.sub64.
    rewrite (bool_decide_eq_true_2 (0 = 0)) by done.
    rewrite (bool_decide_eq_true_2 (0 = 1 - 1)) by done.
    rewrite int64_id by (unfold Int.in_int64; lia). done.
  - rewrite Hws, <- Hacc. apply plannedWorkers_acceptRanges.
  - unfold effectiveCacheSize. rewrite Hconf. cbn. f_equal.
    unfold capCache.
    rewrite (int64_id (CacheSize cfg)) by done.
    rewrite (int_id (ContentLength resp)) by (unfold Int.in_int; lia).
    case_bool_decide; lia.
  - destruct (monitor (der_after r)) as [m|]; [|done].
    injection Hst as Hst. cbn. rewrite Hst. unfold plannedStatus.
    by rewrite Hget.
Qed.

Lemma unknown_length_plan_witness :
  let w := Sample.world (256 * 1024) (Sample.ok (-1)) None false in
  let r := Execute w (Sample.downloader w (Sample.cfg 8 8192)) in
  planRanges r = [ {| Begin := 0; End := -2 |} ]
  ∧ effectiveCacheSize r = Some (-1).
Proof.
  intros w r.
  unshelve epose proof
    (unknown_length_plan w (Sample.downloader w (Sample.cfg 8 8192))
       (Sample.cfg 8 8192) (Sample.response 200 "200 OK" (-1))
       _ _ _ _ _ _ _) as H.
  1-7: first [reflexivity | vm_compute; intuition congruence | vm_compute; lia].
  destruct H as (_ & _ & Hrs & _ & Hc & _). split; [exact Hrs | exact Hc].
Defined.

(** X10: a run that loads a checkpoint with a status takes that status,
    total size included, in place of the one just set from the HEAD
    response; without one, the status keeps its counters and its total is
    the Content-Length. The planning divides the total so obtained. *)
Theorem checkpoint_status_adopted (w : World) (der : Downloader) (cfg : Config)
    (resp : Response) (n : Z) :
  config der = Some cfg ->
  probed w der resp ->
  ¬ (400 <= StatusCode resp <= 599) ->
  initInstanceState w cfg = None ->
  chooseParallel w (decideAcceptRanges resp) (persistedRanges w cfg) cfg
    (plannedTotal w cfg resp) = Ok n ->
  1 <= n < 2 ^ 63 ->
  let r := Execute w der in
  (forall s : DownloadStatus,
     instanceState_Get w cfg ≫= DlStatus = Some s ->
     status <$> monitor (der_after r) = Some s
     ∧ plannedTotal w cfg resp = totalSize s)
  ∧ (instanceState_Get w cfg ≫= DlStatus = None ->
     status <$> monitor (der_after r)
     = Some (set_totalSize (ContentLength resp) (status (monitor_of w der)))
     ∧ plannedTotal w cfg resp = ContentLength resp)
  ∧ (0 < plannedTotal w cfg resp < 2 ^ 63 -> Int.in_int (CacheSize cfg) ->
     effectiveCacheSize r
     = Some (Z.min (CacheSize cfg) (plannedTotal w cfg resp / n))).
Proof.
  intros Hcfg Hprobe Hcode Hinit Hch Hn r.
  assert (Hclass : ¬ (statusClass resp = 4 ∨ statusClass resp = 5))
    by (by rewrite statusClass_failure).
  assert (Hlen : persistedRanges w cfg <> [] ->
                 n <= Z.of_nat (length (persistedRanges w cfg)))
    by (apply (chooseParallel_within_ranges w resp _ cfg _ n Hch); lia).
  pose proof (Execute_planned_status w der cfg resp n Hcfg Hprobe Hclass Hinit Hch
                Hn Hlen) as Hst.
  destruct (Execute_planned w der cfg resp Hcfg Hprobe Hclass Hinit n Hch Hn Hlen)
    as (_ & Hconf & _).
  fold r in Hst, Hconf. unfold plannedStatus in Hst. unfold plannedTotal.
  split; [|split].
  - intros s Hs. rewrite Hs in Hst |- *. done.
  - intros Hs. rewrite Hs in Hst |- *. done.
  - intros HT HC. unfold effectiveCacheSize. rewrite Hconf. cbn. f_equal.
    apply capCache_min; [done|lia|done].
Qed.

Lemma checkpoint_status_adopted_witness :
  let w := Sample.world (256 * 1024) (Sample.ok 9999) (Some Sample.checkpoint) false in
  let r := Execute w (Sample.downloader w (Sample.cfg 8 8192)) in
  (totalSize ∘ status <$> monitor (der_after r)) = Some 200
  ∧ effectiveCacheSize r = Some 100.
Proof.
  intros w r.
  unshelve epose proof
    (checkpoint_status_adopted w (Sample.downloader w (Sample.cfg 8 8192))
       (Sample.cfg 8 8192) (Sample.response 200 "200 OK" 9999) 2
       _ _ _ _ _ _) as H.
  1-6: first [reflexivity | vm_compute; intuition congruence | lia].
  destruct H as (Hs & _ & Hc).
  destruct (Hs _ eq_refl) as [Hst _].
  split.
  - fold r in Hst. destruct (monitor (der_after r)); [|discriminate Hst].
    injection Hst as Hst. cbn. by rewrite Hst.
  - apply Hc; [vm_compute; intuition congruence | vm_compute; intuition congruence].
Defined.

(** X11: when the server reports no length but the checkpoint holds k >= 1
    ranges, the run is non-ranged with one worker, which is given the first
    persisted range; the other persisted ranges get no worker. *)
Theorem nonranged_resume_first_range_only (w : World) (der : Downloader)
    (cfg : Config) (resp : Response) (first : Range) (others : list Range) :
  config der = Some cfg ->
  probed w der resp ->
  ¬ (400 <= StatusCode resp <= 599) ->
  initInstanceState w cfg = None ->
  persistedRanges w cfg = first :: others ->
  ContentLength resp <= 0 ->
  let r := Execute w der in
  result r = Ok None
  ∧ chosenParallel r = Some 1
  ∧ planRanges r = [first]
  ∧ Forall (fun wk => wacceptRanges wk = "") (workersOf r).
Proof.
  intros Hcfg Hprobe Hcode Hinit Hranges Hlen r.
  assert (Hclass : ¬ (statusClass resp = 4 ∨ statusClass resp = 5))
    by (by rewrite statusClass_failure).
  pose proof (decideAcceptRanges_none resp Hlen) as Hacc.
  assert (Hch : chooseParallel w (decideAcceptRanges resp) (persistedRanges w cfg)
                  cfg (plannedTotal w cfg resp) = Ok 1)
    by (rewrite Hacc; apply chooseParallel_nonranged).
  destruct (Execute_planned w der cfg resp Hcfg Hprobe Hclass Hinit 1 Hch)
    as (Hres & Hconf & Hws & _); [lia| |].
  { rewrite Hranges. simpl. lia. }
  fold r in Hres, Hconf, Hws.
  split; [done|]. split; [unfold chosenParallel; by rewrite Hconf|]. split.
  - unfold planRanges. rewrite Hws, planned_ranges, Hranges.
    cbn [parallel plannedConfig set_cacheSize set_parallel].
    change (seqZ 0 1) with [0].
    rewrite bool_decide_eq_true_2 by (simpl; lia). reflexivity.
  - rewrite Hws, <- Hacc. apply plannedWorkers_acceptRanges.
Qed.

Lemma nonranged_resume_first_range_only_witness :
  let w := Sample.world (256 * 1024) (Sample.ok 0) (Some Sample.checkpoint) false in
  planRanges (Execute w (Sample.downloader w (Sample.cfg 8 8192)))
  = [ {| Begin := 0; End := 99 |} ].
Proof.
  intros w.
  unshelve epose proof
    (nonranged_resume_first_range_only w (Sample.downloader w (Sample.cfg 8 8192))
       (Sample.cfg 8 8192) (Sample.response 200 "200 OK" 0)
       {| Begin := 0; End := 99 |} [ {| Begin := 100; End := 199 |} ]
       _ _ _ _ _ _) as H.
  1-6: first [reflexivity | vm_compute; intuition congruence].
  exact (proj1 (proj2 (proj2 H))).
Defined.

(** ** The shape of a fresh plan *)

Lemma chosen_bounds (total mps m : Z) :
  0 < total -> 0 < mps -> 1 <= m ->
  let n := Z.min m (total / mps + 1) in
  1 <= n <= m
  ∧ (n - 1) * mps <= total
  ∧ (n < m -> total < n * mps)
  ∧ (n = 1 <-> m = 1 ∨ total < mps)
  ∧ (2 <= n -> mps <= 2 * (total / n) + 1).
Proof.
  intros HT HP HM n.
  pose proof (Z.mul_div_le total mps HP) as Hlo.
  pose proof (Z.mul_succ_div_gt total mps HP) as Hhi.
  pose proof (div_bounds total mps ltac:(lia) HP) as Hq.
  assert (Hn : 1 <= n <= m) by (unfold n; lia).
  assert (Hdata : (n - 1) * mps <= total) by (unfold n; nia).
  split; [done|]. split; [done|]. split; [unfold n; nia|]. split.
  - split.
    + intros Hn1. destruct (Z.eq_dec m 1); [by left|right].
      assert (total / mps = 0) by (unfold n in Hn1; lia).
      nia.
    + intros [->|Hsmall]; [unfold n; lia|].
      assert (total / mps = 0) by (apply Z.div_small; lia).
      unfold n. lia.
  - intros Hn2.
    pose proof (Z.mul_succ_div_gt total n ltac:(lia)) as Hb.
    assert ((n - 1) * mps < n * (total / n + 1)) by lia.
    assert (n <= 2 * (n - 1)) by lia.
    nia.
Qed.

(** X12: the parallelism n of a fresh range-capable plan is the largest
    number of workers, up to max_parallel, such that every worker beyond the
    first is backed by a full MinParallelSize of data:
    (n-1) * MinParallelSize <= T, and T < n * MinParallelSize unless n is
    max_parallel. It is 1 exactly when max_parallel is 1 or T is below
    MinParallelSize. A block T / n can fall short of MinParallelSize, but
    not of half of it. *)
Theorem parallelism_characterised (w : World) (der : Downloader) (cfg : Config)
    (resp : Response) :
  config der = Some cfg ->
  probed w der resp ->
  ¬ (400 <= StatusCode resp <= 599) ->
  initInstanceState w cfg = None ->
  persistedRanges w cfg = [] ->
  0 < ContentLength resp ->
  0 < plannedTotal w cfg resp < 2 ^ 63 ->
  1 <= MaxParallel cfg < 2 ^ 63 ->
  0 < MinParallelSize w < 2 ^ 63 ->
  let total := plannedTotal w cfg resp in
  exists n : Z,
    chosenParallel (Execute w der) = Some n
    ∧ 1 <= n <= MaxParallel cfg
    ∧ (n - 1) * MinParallelSize w <= total
    ∧ (n < MaxParallel cfg -> total < n * MinParallelSize w)
    ∧ (n = 1 <-> MaxParallel cfg = 1 ∨ total < MinParallelSize w)
    ∧ (2 <= n -> MinParallelSize w <= 2 * (total / n) + 1).
Proof.
  intros Hcfg Hprobe Hcode Hinit Hfresh Hlen HT HM HP total.
  assert (Hclass : ¬ (statusClass resp = 4 ∨ statusClass resp = 5))
    by (by rewrite statusClass_failure).
  destruct (Execute_fresh_ranges w der cfg resp Hcfg Hprobe Hclass Hinit Hfresh
              Hlen HT HM HP) as (_ & Hpar & _).
  eexists. split; [exact Hpar|].
  apply chosen_bounds; lia.
Qed.

Lemma parallelism_characterised_witness :
  let w := Sample.world (256 * 1024) (Sample.ok (256 * 1024)) None false in
  exists n : Z,
    chosenParallel (Execute w (Sample.downloader w (Sample.cfg 8 8192))) = Some n
    ∧ 1 <= n <= 8
    ∧ (n - 1) * (256 * 1024) <= 256 * 1024.
Proof.
  intros w.
  unshelve epose proof
    (parallelism_characterised w (Sample.downloader w (Sample.cfg 8 8192))
       (Sample.cfg 8 8192) (Sample.response 200 "200 OK" (256 * 1024))
       _ _ _ _ _ _ _ _ _) as H.
  1-9: first [reflexivity | vm_compute; intuition congruence | vm_compute; lia].
  destruct H as (n & Hn & Hb & Hd & _).
  exists n. split; [exact Hn|]. split; [exact Hb | exact Hd].
Defined.

(** X13: the ranges of a fresh range-capable plan lie within [0, T-1], the
    first begins at 0, the last ends at T-1, and each begins right after
    the one before it ends; with MinParallelSize at 4 or more, none of them
    is empty. *)
Theorem fresh_ranges_contiguous (w : World) (der : Downloader) (cfg : Config)
    (resp : Response) :
  config der = Some cfg ->
  probed w der resp ->
  ¬ (400 <= StatusCode resp <= 599) ->
  initInstanceState w cfg = None ->
  persistedRanges w cfg = [] ->
  0 < ContentLength resp ->
  0 < plannedTotal w cfg resp < 2 ^ 63 ->
  1 <= MaxParallel cfg < 2 ^ 63 ->
  0 < MinParallelSize w < 2 ^ 63 ->
  let total := plannedTotal w cfg resp in
  let rs := planRanges (Execute w der) in
  Begin <$> head rs = Some 0
  ∧ End <$> last rs = Some (total - 1)
  ∧ (forall (i : nat) (r : Range),
       rs !! i = Some r -> 0 <= Begin r ∧ End r <= total - 1)
  ∧ (forall (i : nat) (r r' : Range),
       rs !! i = Some r -> rs !! S i = Some r' -> Begin r' = End r + 1)
  ∧ (4 <= MinParallelSize w ->
     forall (i : nat) (r : Range), rs !! i = Some r -> Begin r <= End r).
Proof.
  intros Hcfg Hprobe Hcode Hinit Hfresh Hlen HT HM HP total rs.
  assert (Hclass : ¬ (statusClass resp = 4 ∨ statusClass resp = 5))
    by (by rewrite statusClass_failure).
  destruct (Execute_fresh_ranges w der cfg resp Hcfg Hprobe Hclass Hinit Hfresh
              Hlen HT HM HP) as (_ & _ & _ & Hrs).
  fold total in Hrs, HT. fold rs in Hrs.
  set (n := Z.min (MaxParallel cfg) (total / MinParallelSize w + 1)) in *.
  destruct (chosen_bounds total (MinParallelSize w) (MaxParallel cfg))
    as (Hn & Hdata & _ & _ & Hhalf); [lia..|]. fold n in Hn, Hdata, Hhalf.
  set (b := total / n) in *.
  pose proof (div_bounds total n ltac:(lia) ltac:(lia)) as Hb. fold b in Hb.
  pose proof (Z.mul_div_le total n ltac:(lia)) as Hfit. fold b in Hfit.
  rewrite Hrs. split; [|split; [|split; [|split]]].
  - rewrite (seqZ_cons 0 n) by lia. cbn. do 2 f_equal.
  - rewrite last_lookup, length_fmap, length_seqZ.
    replace (Nat.pred (Z.to_nat n)) with (Z.to_nat (n - 1)) by lia.
    rewrite fresh_lookup by lia. cbn.
    by rewrite (bool_decide_eq_true_2 (n - 1 = n - 1)) by done.
  - intros i r Hi. apply lookup_fresh in Hi as [Hi ->].
    unfold freshRange; cbn. repeat case_bool_decide; try nia.
    all: destruct (Z.eq_dec b 0) as [Hb0|Hb0]; [rewrite Hb0 in *|]; nia.
  - intros i r r' Hi Hi'.
    apply lookup_fresh in Hi as [Hi ->]. apply lookup_fresh in Hi' as [Hi' ->].
    unfold freshRange; cbn.
    rewrite (bool_decide_eq_false_2 (Z.of_nat (S i) = 0)) by lia.
    rewrite (bool_decide_eq_false_2 (Z.of_nat i = n - 1)) by lia. lia.
  - intros Hmps i r Hi. apply lookup_fresh in Hi as [Hi ->].
    unfold freshRange; cbn.
    destruct (Z.eq_dec n 1) as [Hn1|Hn1].
    { assert (i = 0%nat) as -> by lia.
      rewrite (bool_decide_eq_true_2 (Z.of_nat 0 = 0)) by done.
      rewrite (bool_decide_eq_true_2 (Z.of_nat 0 = n - 1)) by lia. lia. }
    specialize (Hhalf ltac:(lia)).
    repeat case_bool_decide; nia.
Qed.

Lemma fresh_ranges_contiguous_witness :
  let w := Sample.world (256 * 1024) (Sample.ok 1048576) None false in
  let rs := planRanges (Execute w (Sample.downloader w (Sample.cfg 4 8192))) in
  Begin <$> head rs = Some 0 ∧ End <$> last rs = Some 1048575.
Proof.
  intros w rs.
  unshelve epose proof
    (fresh_ranges_contiguous w (Sample.downloader w (Sample.cfg 4 8192))
       (Sample.cfg 4 8192) (Sample.response 200 "200 OK" 1048576)
       _ _ _ _ _ _ _ _ _) as H.
  1-9: first [reflexivity | vm_compute; intuition congruence | vm_compute; lia].
  destruct H as (Hfirst & Hlast & _). split; [exact Hfirst | exact Hlast].
Defined.

(** ** The driver's download function *)

Lemma Execute_first_event (w : World) (der : Downloader) (cfg : Config) :
  config der = Some cfg ->
  exists rest : list Event,
    trace (Execute w der) = EvReq (client_of der) "HEAD" (durl der) :: rest.
Proof.
  intros Hcfg. rewrite (Execute_probe w der cfg Hcfg). cbv zeta.
  destruct (client_Req w (client_of der) "HEAD" (durl der)) as [[resp|] [e|]];
    try by eexists.
  case_bool_decide; [by eexists|].
  unfold afterPlan.
  destruct (result _) as [[e|]|msg]; [|destruct (monitor _)|]; by eexists.
Qed.

Lemma workersOf_lazyInit (w : World) (der : Downloader)
    (res : go (option error)) (evs : list Event) :
  workersOf (stopped res (lazyInit w der) evs) = workers (monitor_of w der).
Proof. unfold workersOf. cbn [stopped der_after]. by rewrite lazyInit_monitor. Qed.

(** Without a monitor of its own, a downloader comes out of [Execute] with
    the workers of this run only, all on its sink. *)
Lemma Execute_workers_sink (w : World) (der : Downloader) :
  monitor der = None ->
  Forall (fun wk => wwriterAt wk = writer der) (workersOf (Execute w der)).
Proof.
  intros Hmon.
  assert (Hnone : workers (monitor_of w der) = [])
    by (unfold monitor_of; by rewrite Hmon).
  destruct (config der) as [cfg|] eqn:Hcfg.
  2: { unfold Execute. rewrite MustCheck_lazyInit, Hcfg.
       by rewrite workersOf_lazyInit, Hnone. }
  pose proof (Execute_outcome w der) as H. cbv zeta in H.
  destruct (result (Execute w der)) as [[e|]|msg] eqn:Hres.
  - destruct H as (-> & _). by rewrite Hnone.
  - destruct H as (cfg' & _ & _ & _ & _ & _ & Hall & _).
    eapply Forall_impl; [exact Hall|]. by intros wk [? _].
  - clear H. revert Hres.
    rewrite (Execute_probe w der cfg Hcfg). cbv zeta.
    destruct (client_Req w (client_of der) "HEAD" (durl der)) as [[resp|] [e|]];
      cbn [stopped result]; try done.
    + case_bool_decide; cbn [stopped result]; [done|].
      pose proof (plan_outcome w (lazyInit w der) (client_of der) cfg
                    (monitor_of w der) resp) as Hp.
      cbv zeta in Hp. unfold afterPlan.
      destruct (result (plan _ _ _ _ _ _)) as [[e|]|msg'] eqn:Hrp;
        [done| |].
      * destruct (monitor (der_after (plan _ _ _ _ _ _))) eqn:Hm;
          cbn [stopped result]; [done|].
        intros _. unfold workersOf. cbn [stopped der_after]. by rewrite Hm.
      * destruct Hp as (_ & _ & Hws). rewrite Hnone in Hws.
        assert (Hws' : workers <$> monitor (der_after
                         (plan w (lazyInit w der) (client_of der) cfg
                            (monitor_of w der) resp)) = Some [])
          by (by destruct Hws).
        intros _. unfold workersOf.
        destruct (monitor (der_after (plan _ _ _ _ _ _))) as [m|] eqn:Hm;
          cbn [stopped der_after]; rewrite Hm; [|done].
        rewrite Hws'. done.
    + intros _. by rewrite workersOf_lazyInit, Hnone.
Qed.

(** X14: once the destination is open, or at once in a test download, the
    download function runs [Execute] on a new downloader that holds the
    driver's client, the opened sink and the shared configuration, with
    both callbacks registered; [SetClient] does not panic; the HEAD request
    goes to the download URL through that client; the function returns what
    [Execute] returns and prints its closing line exactly when that is
    nil. *)
Theorem getDownloadFunc_runs_Execute (w : World) (c : Cloud) (id : Z)
    (savePath : string) (cfg : option Config) (url : string) (fs : gset string) :
  let cfg0 := default (NewConfig w) cfg in
  (IsTest cfg0 = true
   ∨ os_OpenFile c savePath (os_MkdirAll c (filepath_Dir c savePath) fs) = None) ->
  let d := getDownloadFunc w c id savePath cfg url fs in
  let file := if IsTest cfg0 then None else Some (OpenedFile savePath) in
  let download := driverDownloader w c (dl_config d) file url in
  dl_downloader d = Some download
  ∧ dl_run d = Some (Execute w download)
  ∧ dl_result d = result (Execute w download)
  ∧ (exists rest : list Event,
       trace (Execute w download) = EvReq (driverClient c) "HEAD" url :: rest)
  ∧ (dl_printed d <> [] <-> dl_result d = Ok None)
  ∧ dl_config d
    = (if IsTest cfg0 then cfg0
       else set_InstanceStatePath (savePath +:+ DownloadSuffix) cfg0).
Proof.
  intros cfg0 Hopen d file download.
  assert (Hd : d = {| dl_result := result (Execute w download);
                      dl_fs := dl_fs d; dl_config := dl_config d;
                      dl_downloader := Some download;
                      dl_run := Some (Execute w download);
                      dl_printed :=
                        match result (Execute w download) with
                        | Ok None => if negb (IsTest (dl_config d))
                                     then [PrDownloaded id savePath]
                                     else [PrTestEnded id]
                        | _ => []
                        end |}
               ∧ dl_config d
                 = (if IsTest cfg0 then cfg0
                    else set_InstanceStatePath (savePath +:+ DownloadSuffix) cfg0)).
  { unfold download, file, d, getDownloadFunc. fold cfg0.
    destruct (IsTest cfg0) eqn:Htest; cbn [negb].
    - done.
    - destruct Hopen as [?|Hopen]; [done|]. by rewrite Hopen. }
  destruct Hd as [Hd Hconf].
  split; [by rewrite Hd|]. split; [by rewrite Hd|]. split; [by rewrite Hd|].
  split; [|split; [|done]].
  - apply (Execute_first_event w download (dl_config d)). reflexivity.
  - rewrite Hd. cbn [dl_printed dl_result].
    destruct (result (Execute w download)) as [[e|]|msg].
    + split; [done|discriminate].
    + split; [done|]. intros _. by destruct (negb _).
    + split; [done|discriminate].
Qed.

Lemma getDownloadFunc_runs_Execute_witness :
  let w := Sample.world (256 * 1024) (Sample.ok 100) None false in
  let c := DriverSample.cloud in
  let d := getDownloadFunc w c 1 "a/f" (Some (Sample.cfg 8 8192)) "http://d/f" ∅ in
  dl_result d = Ok None ∧ dl_printed d = [PrDownloaded 1 "a/f"].
Proof.
  intros w c d.
  unshelve epose proof
    (getDownloadFunc_runs_Execute w c 1 "a/f" (Some (Sample.cfg 8 8192))
       "http://d/f" ∅ _) as H.
  { right. reflexivity. }
  destruct H as (_ & _ & Hres & _ & _ & _).
  split; [exact (eq_trans Hres eq_refl) | reflexivity].
Defined.

Lemma string_length_append (s1 s2 : string) :
  String.length (s1 +:+ s2) = (String.length s1 + String.length s2)%nat.
Proof.
  induction s1 as [|a s1 IH]; [done|].
  change (S (String.length (s1 +:+ s2))
          = S (String.length s1 + String.length s2)).
  by rewrite IH.
Qed.

Lemma suffixed_path_differs (p : string) : p +:+ DownloadSuffix <> p.
Proof.
  intros Heq. apply (f_equal String.length) in Heq.
  rewrite string_length_append in Heq. cbn in Heq. lia.
Qed.

(** X15: outside a test download the destination is created before the
    probe. If no checkpoint file stands beside it then, the destination
    already passes the driver's test for a finished download; and when the
    HEAD probe is answered with a 4xx or 5xx status, the function returns
    that status as an error after the request alone, with nothing printed:
    the next look at this path skips it. *)
Theorem opened_destination_counts_as_downloaded (w : World) (c : Cloud) (id : Z)
    (savePath : string) (cfg : option Config) (url : string) (fs : gset string) :
  let cfg0 := default (NewConfig w) cfg in
  let fs1 := os_MkdirAll c (filepath_Dir c savePath) fs in
  IsTest cfg0 = false ->
  os_OpenFile c savePath fs1 = None ->
  (savePath +:+ DownloadSuffix) ∉ fs1 ->
  let d := getDownloadFunc w c id savePath cfg url fs in
  dl_fs d = {[savePath]} ∪ fs1
  ∧ skipsDownload false (dl_fs d) savePath = true
  ∧ (forall resp : Response,
       client_Req w (driverClient c) "HEAD" url = (Some resp, None) ->
       400 <= StatusCode resp <= 599 ->
       dl_result d = Ok (Some (errors_New (Status resp)))
       ∧ trace <$> dl_run d = Some [EvReq (driverClient c) "HEAD" url; EvBodyClose]
       ∧ dl_printed d = []).
Proof.
  intros cfg0 fs1 Htest Hopen Hsuffix d.
  assert (Hfs : dl_fs d = {[savePath]} ∪ fs1).
  { unfold d, getDownloadFunc. fold cfg0. rewrite Htest. cbn [negb].
    fold fs1. by rewrite Hopen. }
  split; [done|]. split.
  - unfold skipsDownload. cbn [negb andb]. apply fileExist_iff. rewrite Hfs.
    split; [apply elem_of_union; left; by apply elem_of_singleton|].
    intros [Hin|Hin]%elem_of_union; [|done].
    apply elem_of_singleton in Hin.
    by apply suffixed_path_differs in Hin.
  - intros resp Hreq Hcode.
    assert (Hd : dl_run d
                 = Some (Execute w (driverDownloader w c
                           (set_InstanceStatePath (savePath +:+ DownloadSuffix) cfg0)
                           (Some (OpenedFile savePath)) url))
                 ∧ dl_result d
                   = result (Execute w (driverDownloader w c
                       (set_InstanceStatePath (savePath +:+ DownloadSuffix) cfg0)
                       (Some (OpenedFile savePath)) url))
                 ∧ (dl_result d <> Ok None -> dl_printed d = [])).
    { unfold d, getDownloadFunc. fold cfg0. rewrite Htest. cbn [negb].
      fold fs1. rewrite Hopen. cbn.
      split; [done|]. split; [done|].
      by destruct (result _) as [[?|]|?]. }
    destruct Hd as (Hrun & Hres & Hpr).
    assert (HE : Execute w (driverDownloader w c
                   (set_InstanceStatePath (savePath +:+ DownloadSuffix) cfg0)
                   (Some (OpenedFile savePath)) url)
                 = stopped (Ok (Some (errors_New (Status resp))))
                     (lazyInit w (driverDownloader w c
                        (set_InstanceStatePath (savePath +:+ DownloadSuffix) cfg0)
                        (Some (OpenedFile savePath)) url))
                     [EvReq (driverClient c) "HEAD" url; EvBodyClose]).
    { rewrite (Execute_probe w
                 (driverDownloader w c
                    (set_InstanceStatePath (savePath +:+ DownloadSuffix) cfg0)
                    (Some (OpenedFile savePath)) url)
                 (set_InstanceStatePath (savePath +:+ DownloadSuffix) cfg0) eq_refl).
      cbv zeta.
      change (client_of (driverDownloader _ _ _ _ _)) with (driverClient c).
      change (durl (driverDownloader _ _ _ _ _)) with url.
      rewrite Hreq.
      by rewrite bool_decide_eq_true_2 by (by apply statusClass_failure). }
    rewrite Hrun, Hres, HE in *. split; [done|]. split; [done|].
    by apply Hpr.
Qed.

Lemma opened_destination_counts_as_downloaded_witness :
  let w := Sample.world (256 * 1024)
             (Some (Sample.response 404 "404 Not Found" 0), None) None false in
  let d := getDownloadFunc w DriverSample.cloud 1 "a/f" (Some (Sample.cfg 8 8192))
             "http://d/f" ∅ in
  skipsDownload false (dl_fs d) "a/f" = true
  ∧ dl_result d = Ok (Some (errors_New "404 Not Found")).
Proof.
  intros w d.
  unshelve epose proof
    (opened_destination_counts_as_downloaded w DriverSample.cloud 1 "a/f"
       (Some (Sample.cfg 8 8192)) "http://d/f" ∅ _ _ _) as H.
  1-2: reflexivity.
  { apply not_elem_of_empty. }
  destruct H as (_ & Hskip & Hprobe).
  split; [exact Hskip|].
  refine (proj1 (Hprobe (Sample.response 404 "404 Not Found" 0) eq_refl _)).
  vm_compute. split; discriminate.
Defined.

Lemma plan_config_kept (w : World) (der : Downloader) (cl : HTTPClient)
    (cfg : Config) (mon : Monitor) (resp : Response) :
  config der = Some cfg ->
  exists cfg' : Config,
    config (der_after (plan w der cl cfg mon resp)) = Some cfg'
    ∧ sameSettings cfg' cfg.
Proof.
  intros Hcfg. unfold plan.
  destruct (Response_Request resp) as [req|];
    (destruct (initInstanceState w cfg);
     [exists cfg; by cbn|]);
    (destruct (chooseParallel _ _ _ _ _) as [n|msg];
     [|exists cfg; by cbn]);
    (destruct (blockSizeOf _ _) as [blockSize|msg];
     [|eexists; split; [reflexivity|by cbn]]);
    (case_bool_decide; [eexists; split; [reflexivity|by cbn]|]);
    destruct (workerLoop _ _ _ _ _ _ _ _ _ _ _ _ _ _);
    eexists; (split; [reflexivity|by cbn]).
Qed.

(** [Execute] writes nothing but [parallel] and [cacheSize] into the
    configuration. *)
Lemma Execute_config_kept (w : World) (der : Downloader) (cfg : Config) :
  config der = Some cfg ->
  exists cfg' : Config,
    config (der_after (Execute w der)) = Some cfg' ∧ sameSettings cfg' cfg.
Proof.
  intros Hcfg.
  assert (Hlazy : config (lazyInit w der) = Some cfg)
    by (by rewrite lazyInit_config).
  rewrite (Execute_probe w der cfg Hcfg). cbv zeta.
  destruct (client_Req w (client_of der) "HEAD" (durl der)) as [[resp|] [e|]];
    try (exists cfg; by cbn).
  case_bool_decide; [exists cfg; by cbn|].
  destruct (plan_config_kept w (lazyInit w der) (client_of der) cfg
              (monitor_of w der) resp Hlazy) as (cfg' & Hafter & Hsame).
  unfold afterPlan.
  destruct (result (plan _ _ _ _ _ _)) as [[e|]|msg];
    [by exists cfg'| |by exists cfg'].
  destruct (monitor (der_after (plan _ _ _ _ _ _))); by exists cfg'.
Qed.

(** X16: in a test download the download function's own code makes no
    directory, opens nothing and sets no checkpoint path: when it calls
    [Execute], the file system and the shared configuration are as it
    received them, and the downloader has no sink. [Execute] is run all the
    same; it writes nothing but [parallel] and [cacheSize] into the shared
    configuration, and whatever its outcome no worker of the run holds a
    sink. What the checkpoint calls inside [Execute] do to the disk is not
    part of this statement. *)
Theorem test_download_opens_nothing (w : World) (c : Cloud) (id : Z)
    (savePath : string) (cfg : option Config) (url : string) (fs : gset string) :
  let cfg0 := default (NewConfig w) cfg in
  IsTest cfg0 = true ->
  let d := getDownloadFunc w c id savePath cfg url fs in
  dl_fs d = fs
  ∧ dl_config d = cfg0
  ∧ (writer <$> dl_downloader d) = Some None
  ∧ (exists r : Run,
       dl_run d = Some r
       ∧ dl_result d = result r
       ∧ Forall (fun wk => wwriterAt wk = None) (workersOf r)
       ∧ exists cfg' : Config,
           config (der_after r) = Some cfg'
           ∧ sameSettings cfg' cfg0
           ∧ IsTest cfg' = true
           ∧ InstanceStatePath cfg' = InstanceStatePath cfg0)
  ∧ (dl_result d = Ok None -> dl_printed d = [PrTestEnded id]).
Proof.
  intros cfg0 Htest d.
  assert (Hd : d = {| dl_result := result (Execute w (driverDownloader w c cfg0 None url));
                      dl_fs := fs; dl_config := cfg0;
                      dl_downloader := Some (driverDownloader w c cfg0 None url);
                      dl_run := Some (Execute w (driverDownloader w c cfg0 None url));
                      dl_printed :=
                        match result (Execute w (driverDownloader w c cfg0 None url)) with
                        | Ok None => [PrTestEnded id]
                        | _ => []
                        end |}).
  { unfold d, getDownloadFunc. fold cfg0. rewrite Htest.
    cbn -[Execute]. rewrite Htest. reflexivity. }
  rewrite Hd.
  cbn [dl_fs dl_config dl_downloader dl_run dl_result dl_printed].
  split; [done|]. split; [done|]. split; [done|]. split.
  - eexists. split; [done|]. split; [done|]. split.
    + apply (Execute_workers_sink w (driverDownloader w c cfg0 None url)).
      reflexivity.
    + destruct (Execute_config_kept w (driverDownloader w c cfg0 None url) cfg0
                  eq_refl) as (cfg' & Hafter & Hsame).
      exists cfg'. split; [done|]. split; [done|].
      destruct Hsame as (_ & _ & Hsame_test & Hsame_path).
      split; [by rewrite Hsame_test|done].
  - by intros ->.
Qed.

(** A test download of a file of 1 MiB: [Execute] plans four workers and a
    cache of 8192 bytes into the shared configuration, whose checkpoint path
    stays empty; nothing is opened. *)
Lemma test_download_opens_nothing_witness :
  let w := Sample.world (256 * 1024) (Sample.ok 1048576) None false in
  let cfg := {| MaxParallel := 4; CacheSize := 8192; IsTest := true;
                InstanceStatePath := ""; parallel := 0; cacheSize := 0 |} in
  let d := getDownloadFunc w DriverSample.cloud 1 "a/f" (Some cfg) "http://d/f" ∅ in
  dl_fs d = ∅
  ∧ dl_printed d = [PrTestEnded 1]
  ∧ (config <$> (der_after <$> dl_run d))
    = Some (Some {| MaxParallel := 4; CacheSize := 8192; IsTest := true;
                    InstanceStatePath := ""; parallel := 4; cacheSize := 8192 |}).
Proof.
  intros w cfg d.
  destruct (test_download_opens_nothing w DriverSample.cloud 1 "a/f" (Some cfg)
              "http://d/f" ∅ eq_refl) as (Hfs & _ & _ & _ & Hpr).
  split; [exact Hfs|]. split; [apply Hpr; reflexivity|]. by vm_compute.
Defined.

(** ** The driver's task queue *)

Lemma attempts_app (id : Z) (evs evs' : list DriverEvent) :
  attempts id (evs ++ evs') = (attempts id evs + attempts id evs')%nat.
Proof. unfold attempts. by rewrite omap_app, filter_app, length_app. Qed.

Lemma attempts_quiet (id : Z) (evs evs' : list DriverEvent) :
  omap downloadedId evs' = [] -> attempts id (evs ++ evs') = attempts id evs.
Proof. intros H. rewrite attempts_app. unfold attempts at 2. rewrite H. simpl. lia. Qed.

Lemma attempts_download (id i : Z) (p sp : string) (evs : list DriverEvent) :
  attempts id (evs ++ [DrDownload i p sp])
  = (attempts id evs + if decide (i = id) then 1 else 0)%nat.
Proof.
  rewrite attempts_app. f_equal. unfold attempts. cbn.
  by destruct (decide (i = id)).
Qed.

Local Ltac split_queueInv :=
  refine (conj _ (conj _ (conj _ (conj _ (conj _ (conj _ _)))))).

Lemma queueInv_quiet (q : list dtask) (last : Z) (evs evs' : list DriverEvent) :
  queueInv q last evs ->
  omap queuedId evs' = [] -> omap downloadedId evs' = [] -> Forall sleepOK evs' ->
  queueInv q last (evs ++ evs').
Proof.
  intros (Hids & Hlast & Hdup & Htasks & Hmax & Hknown & Hsleep) Hq Hd Hs.
  split_queueInv.
  - by rewrite omap_app, Hq, app_nil_r.
  - done.
  - done.
  - eapply Forall_impl; [exact Htasks|].
    intros t Ht. unfold taskOK. by rewrite attempts_quiet.
  - intros id. by rewrite attempts_quiet.
  - intros id. rewrite attempts_quiet by done. apply Hknown.
  - by apply Forall_app.
Qed.

Lemma queueInv_pop (t : dtask) (q : list dtask) (last : Z) (evs : list DriverEvent) :
  queueInv (t :: q) last evs ->
  queueInv q last evs ∧ taskOK last evs t ∧ ID t ∉ ID <$> q.
Proof.
  intros (Hids & Hlast & Hdup & Htasks & Hmax & Hknown & Hsleep).
  rewrite fmap_cons in Hdup. apply NoDup_cons in Hdup as [Hnotin Hdup].
  apply Forall_cons in Htasks as [Ht Htasks].
  split; [by split_queueInv|]. by split.
Qed.

Lemma queueInv_enqueue (q : list dtask) (last : Z) (evs : list DriverEvent)
    (p : string) (info : option FileDirectory) :
  queueInv q last evs ->
  idsFit (evs ++ [DrQueued (Int.add_int last 1) p]) ->
  Int.add_int last 1 = last + 1
  ∧ queueInv
      (q ++ [ {| ID := last + 1; MaxRetry := 3; retry := 0; path := p;
                 downloadInfo := info |} ])
      (last + 1) (evs ++ [DrQueued (last + 1) p]).
Proof.
  intros (Hids & Hlast & Hdup & Htasks & Hmax & Hknown & Hsleep) Hfit.
  unfold idsFit in Hfit. rewrite omap_app, length_app, Hids, length_seqZ in Hfit.
  cbn in Hfit.
  assert (Hnext : Int.add_int last 1 = last + 1)
    by (apply int_id; unfold Int.in_int; lia).
  split; [done|].
  assert (Hfresh : attempts (last + 1) evs = 0%nat).
  { destruct (attempts (last + 1) evs) eqn:Ha; [done|].
    assert (1 <= last + 1 <= last) by (apply Hknown; lia). lia. }
  split_queueInv.
  - rewrite omap_app, Hids. cbn.
    rewrite (seqZ_app 1 last 1) by lia. by rewrite Z.add_comm.
  - lia.
  - rewrite fmap_app. apply NoDup_app. split; [done|]. split.
    + intros id Hin Hin'. cbn in Hin'. apply list_elem_of_singleton in Hin'.
      apply list_elem_of_fmap in Hin as (t & -> & Ht).
      rewrite Forall_forall in Htasks. apply Htasks in Ht as ([? ?] & _). lia.
    + cbn. apply NoDup_singleton.
  - apply Forall_app. split.
    + eapply Forall_impl; [exact Htasks|].
      intros t Ht. unfold taskOK in *. rewrite attempts_quiet by done. lia.
    + constructor; [|constructor].
      unfold taskOK. cbn [ID MaxRetry retry].
      rewrite attempts_quiet by done. lia.
  - intros id. by rewrite attempts_quiet.
  - intros id. rewrite attempts_quiet by done. intros H. apply Hknown in H. lia.
  - apply Forall_app. split; [done|]. by repeat constructor.
Qed.

Lemma idsFit_prefix (evs evs' : list DriverEvent) :
  idsFit (evs ++ evs') -> idsFit evs.
Proof. unfold idsFit. rewrite omap_app, length_app. lia. Qed.

Lemma queueInv_attempt (t : dtask) (q : list dtask) (last : Z)
    (evs : list DriverEvent) (p sp : string) :
  queueInv q last evs -> taskOK last evs t -> ID t ∉ ID <$> q ->
  queueInv q last (evs ++ [DrDownload (ID t) p sp])
  ∧ Z.of_nat (attempts (ID t) (evs ++ [DrDownload (ID t) p sp])) <= retry t + 1.
Proof.
  intros (Hids & Hlast & Hdup & Htasks & Hmax & Hknown & Hsleep) Ht Hnotin.
  unfold taskOK in Ht.
  assert (Hself : Z.of_nat (attempts (ID t) (evs ++ [DrDownload (ID t) p sp]))
                  <= retry t + 1).
  { rewrite attempts_download. destruct (decide (ID t = ID t)); lia. }
  split; [|done]. split_queueInv.
  - by rewrite omap_app, app_nil_r.
  - done.
  - done.
  - rewrite Forall_forall in Htasks |- *. intros t' Hin.
    specialize (Htasks t' Hin). unfold taskOK in *.
    rewrite attempts_download.
    destruct (decide (ID t = ID t')) as [Heq|_]; [|lia].
    exfalso. apply Hnotin. rewrite Heq. by apply list_elem_of_fmap_2.
  - intros id. destruct (decide (ID t = id)) as [<-|Hne]; [lia|].
    rewrite attempts_download. destruct (decide (ID t = id)); [done|].
    specialize (Hmax id). lia.
  - intros id. rewrite attempts_download.
    destruct (decide (ID t = id)) as [<-|Hne]; [lia|].
    intros H. apply Hknown. lia.
  - apply Forall_app. split; [done|]. by repeat constructor.
Qed.

Lemma queueInv_requeue (t : dtask) (q : list dtask) (last : Z)
    (evs : list DriverEvent) :
  queueInv q last evs -> taskOK last evs t -> ID t ∉ ID <$> q ->
  queueInv (q ++ [t]) last evs.
Proof.
  intros (Hids & Hlast & Hdup & Htasks & Hmax & Hknown & Hsleep) Ht Hnotin.
  split_queueInv; try done.
  - rewrite fmap_app. apply NoDup_app. split; [done|]. split.
    + intros id Hin Hin'. cbn in Hin'. apply list_elem_of_singleton in Hin'.
      by subst id.
    + cbn. apply NoDup_singleton.
  - apply Forall_app. split; [done|]. constructor; [done|constructor].
Qed.

Section Enqueue.

Context {A : Type} (fp : A -> string) (fi : A -> option FileDirectory).

Lemma foldl_enqueue_frame (l : list A) : forall st : Driver,
  let st' := foldl (fun st x => enqueue (fp x) (fi x) st) st l in
  (exists evs, out st' = out st ++ evs)
  ∧ files st' = files st ∧ totalBytes st' = totalBytes st
  ∧ downloads st' = downloads st
  ∧ length (dlist st') = (length (dlist st) + length l)%nat.
Proof.
  induction l as [|x l IH]; intros st; cbn [foldl].
  - split; [exists []; by rewrite app_nil_r|]. repeat split. cbn. lia.
  - destruct (IH (enqueue (fp x) (fi x) st)) as ([evs Hevs] & Hf & Ht & Hd & Hl).
    cbv zeta. rewrite Hevs, Hf, Ht, Hd, Hl. cbn.
    split; [eexists; by rewrite <- app_assoc|]. repeat split.
    rewrite length_app. cbn. lia.
Qed.

Lemma foldl_enqueue_inv (l : list A) : forall st : Driver,
  let st' := foldl (fun st x => enqueue (fp x) (fi x) st) st l in
  queueInv (dlist st) (lastID st) (out st) ->
  idsFit (out st') ->
  queueInv (dlist st') (lastID st') (out st').
Proof.
  induction l as [|x l IH]; intros st; cbn [foldl]; [done|].
  intros Hinv Hfit. apply IH; [|done].
  destruct (foldl_enqueue_frame l (enqueue (fp x) (fi x) st)) as ([evs Hevs] & _).
  cbv zeta in Hfit. rewrite Hevs in Hfit. apply idsFit_prefix in Hfit.
  cbn [enqueue out] in Hfit.
  destruct (queueInv_enqueue _ _ _ (fp x) (fi x) Hinv Hfit) as [Hnext Hq].
  unfold enqueue. cbn [dlist lastID out]. by rewrite Hnext.
Qed.

(** With the task's details, when [info] gives them. *)
Lemma foldl_enqueue_tasks (l : list A) : forall st : Driver,
  let st' := foldl (fun st x => enqueue (fp x) (fi x) st) st l in
  exists new : list dtask,
    dlist st' = dlist st ++ new
    ∧ length new = length l
    ∧ Forall (fun t => MaxRetry t = 3 ∧ retry t = 0
                       ∧ exists x, x ∈ l ∧ downloadInfo t = fi x) new.
Proof.
  induction l as [|x l IH]; intros st; cbn [foldl].
  - exists []. by rewrite app_nil_r.
  - destruct (IH (enqueue (fp x) (fi x) st)) as (new & Hnew & Hlen & Hall).
    cbv zeta. rewrite Hnew. cbn [enqueue dlist].
    eexists (_ :: new). split; [by rewrite <- app_assoc|].
    split; [cbn; by rewrite Hlen|].
    constructor.
    + cbn. repeat split. exists x. split; [apply list_elem_of_here|done].
    + eapply Forall_impl; [exact Hall|].
      intros t (? & ? & y & ? & ?). repeat split; try done.
      exists y. split; [by apply list_elem_of_further|done].
Qed.

End Enqueue.

Lemma handleTaskErr_inv (t : dtask) (manifest : string) (e : error)
    (q : list dtask) (last : Z) (evs : list DriverEvent) :
  queueInv q last evs ->
  ID t ∉ ID <$> q ->
  1 <= ID t <= last -> MaxRetry t = 3 -> 0 <= retry t <= 3 ->
  Z.of_nat (attempts (ID t) evs) <= retry t + 1 ->
  queueInv (handleTaskErr t manifest (Some e) q).1 last
    (evs ++ (handleTaskErr t manifest (Some e) q).2).
Proof.
  intros Hinv Hnotin Hid Hmax Hretry Hatt. unfold handleTaskErr.
  destruct (String.eqb manifest _ && strings_Contains _ _).
  { cbn [fst snd]. apply queueInv_quiet; try done. by repeat constructor. }
  rewrite Hmax. case_bool_decide as Hlt; cbn [fst snd retry set_retry].
  - unfold Int.add_int. rewrite (int_id (retry t + 1)) by (unfold Int.in_int; lia).
    assert (Hsleep : Int.mul64 (Int.mul64 3 (Int.int64 (retry t + 1))) time_Second
                     = 3 * (retry t + 1) * time_Second).
    { unfold Int.mul64, time_Second.
      rewrite (int64_id (retry t + 1)) by (unfold Int.in_int64; lia).
      rewrite (int64_id (3 * (retry t + 1))) by (unfold Int.in_int64; lia).
      apply int64_id. unfold Int.in_int64. lia. }
    rewrite Hsleep.
    apply queueInv_requeue; [|unfold taskOK, set_retry; cbn [ID MaxRetry retry]|done].
    + apply queueInv_quiet; try done.
      constructor; [done|]. constructor; [|constructor].
      cbn. unfold time_Second.
      assert (retry t = 0 ∨ retry t = 1 ∨ retry t = 2) as [->|[->| ->]] by lia;
        cbn; auto.
    + rewrite attempts_quiet by done. lia.
  - assert (Hlast : retry t = 3) by lia. rewrite Hlast.
    apply queueInv_quiet; try done.
    constructor; [done|]. constructor; [|constructor].
    cbn. right. right. reflexivity.
Qed.

Lemma handleTaskErr_frame (t : dtask) (manifest : string) (e : error)
    (q : list dtask) :
  omap queuedId (handleTaskErr t manifest (Some e) q).2 = [].
Proof.
  unfold handleTaskErr.
  destruct (String.eqb manifest _ && strings_Contains _ _); [done|].
  by case_bool_decide.
Qed.

(** A turn only adds events. *)
Lemma turn_frame (c : Cloud) (isTest : bool) (st st' : Driver) :
  turn c isTest st = Some st' -> exists evs, out st' = out st ++ evs.
Proof.
  unfold turn. destruct (dlist st) as [|task rest]; [done|].
  destruct (match downloadInfo task with
            | Some info => inl info
            | None => FilesDirectoriesMeta c (path task)
            end) as [info|err]; [|intros [= <-]; by eexists].
  destruct (Isdir info).
  - destruct (FilesDirectoriesList c _) as [fileList|err].
    + intros [= <-].
      match goal with
      | |- context [foldl ?f ?s fileList] =>
          destruct (foldl_enqueue_frame Path Some fileList s) as ([evs Hevs] & _)
      end.
      cbv zeta in Hevs. rewrite Hevs. destruct isTest; cbn; eexists;
        by repeat rewrite <- app_assoc.
    + intros [= <-]. destruct isTest; cbn; eexists; by repeat rewrite <- app_assoc.
  - destruct (skipsDownload _ _ _).
    + intros [= <-]. cbn. eexists. by repeat rewrite <- app_assoc.
    + destruct (DownloadFile c _ _ _ _ _) as [fs [e|]].
      * cbn [dlist say].
        destruct (handleTaskErr _ _ _ _) as [queue evs].
        intros [= <-]. cbn. eexists. by repeat rewrite <- app_assoc.
      * intros [= <-]. cbn. eexists. by repeat rewrite <- app_assoc.
Qed.

Lemma turn_inv (c : Cloud) (isTest : bool) (st st' : Driver) :
  turn c isTest st = Some st' ->
  queueInv (dlist st) (lastID st) (out st) ->
  idsFit (out st') ->
  queueInv (dlist st') (lastID st') (out st').
Proof.
  unfold turn. destruct (dlist st) as [|task rest]; [done|].
  intros Hturn Hinv. apply queueInv_pop in Hinv as (Hinv & Htask & Hnotin).
  revert Hturn.
  destruct (match downloadInfo task with
            | Some info => inl info
            | None => FilesDirectoriesMeta c (path task)
            end) as [info|err].
  2: { intros [= <-] _. cbn. apply queueInv_quiet; try done. by repeat constructor. }
  destruct (Isdir info).
  - destruct (FilesDirectoriesList c _) as [fileList|err].
    + intros [= <-] Hfit.
      apply (foldl_enqueue_inv Path Some fileList); [|done].
      destruct isTest; cbn.
      * apply queueInv_quiet; try done. by repeat constructor.
      * apply queueInv_quiet; [apply queueInv_quiet| | |]; try done;
          by repeat constructor.
    + intros [= <-] _. destruct isTest; cbn.
      * apply queueInv_quiet; [apply queueInv_quiet| | |]; try done;
          by repeat constructor.
      * apply queueInv_quiet;
          [apply queueInv_quiet; [apply queueInv_quiet| | |]| | |]; try done;
          by repeat constructor.
  - assert (Hprep : queueInv rest (lastID st)
                      ((out st ++ [DrInfo (ID task) info])
                       ++ [DrPrepare (ID task) (path task)])).
    { apply queueInv_quiet; [apply queueInv_quiet| | |]; try done;
        by repeat constructor. }
    destruct (skipsDownload _ _ _).
    + intros [= <-] _. cbn. apply queueInv_quiet; try done. by repeat constructor.
    + destruct (DownloadFile c _ _ _ _ _) as [fs [e|]].
      * cbn [dlist say out lastID set_downloadInfo ID path].
        pose proof (handleTaskErr_inv (set_downloadInfo info task)
                      "下载文件错误" e rest (lastID st)) as Herr.
        destruct (handleTaskErr _ _ _ _) as [queue evs].
        intros [= <-] _. cbn [dlist lastID out fst snd] in *.
        destruct Htask as (Hid & Hmax & Hretry & Hatt).
        assert (Htask' : taskOK (lastID st)
                  ((out st ++ [DrInfo (ID task) info])
                   ++ [DrPrepare (ID task) (path task)]) task).
        { unfold taskOK. by rewrite !attempts_quiet. }
        destruct (queueInv_attempt task rest (lastID st) _ (path task)
                    (GetSavePath c (path task)) Hprep Htask' Hnotin)
          as [Hafter Hcount].
        by apply Herr.
      * intros [= <-] _. cbn.
        assert (Htask' : taskOK (lastID st)
                  ((out st ++ [DrInfo (ID task) info])
                   ++ [DrPrepare (ID task) (path task)]) task).
        { destruct Htask as (Hid & Hmax & Hretry & Hatt).
          unfold taskOK. by rewrite !attempts_quiet. }
        by destruct (queueInv_attempt task rest (lastID st) _ (path task)
                       (GetSavePath c (path task)) Hprep Htask' Hnotin).
Qed.

Lemma turns_frame (c : Cloud) (isTest : bool) (fuel : nat) : forall st : Driver,
  exists evs, out (turns c isTest fuel st).1 = out st ++ evs.
Proof.
  induction fuel as [|fuel IH]; intros st; cbn [turns].
  - destruct (turn c isTest st); exists []; by rewrite app_nil_r.
  - destruct (turn c isTest st) as [st'|] eqn:Hturn.
    + destruct (turn_frame _ _ _ _ Hturn) as [evs Hevs].
      destruct (IH st') as [evs' Hevs'].
      exists (evs ++ evs'). by rewrite Hevs', Hevs, app_assoc.
    + exists []. by rewrite app_nil_r.
Qed.

Lemma turns_inv (c : Cloud) (isTest : bool) (fuel : nat) : forall st : Driver,
  queueInv (dlist st) (lastID st) (out st) ->
  idsFit (out (turns c isTest fuel st).1) ->
  queueInv (dlist (turns c isTest fuel st).1) (lastID (turns c isTest fuel st).1)
    (out (turns c isTest fuel st).1).
Proof.
  induction fuel as [|fuel IH]; intros st Hinv; cbn [turns].
  - by destruct (turn c isTest st).
  - destruct (turn c isTest st) as [st'|] eqn:Hturn; [|done].
    intros Hfit. apply IH; [|done].
    apply (turn_inv c isTest st st' Hturn Hinv).
    destruct (turns_frame c isTest fuel st') as [evs Hevs].
    rewrite Hevs in Hfit. by apply idsFit_prefix in Hfit.
Qed.

(** What [RunDownload] keeps true, whenever it is looked at. *)
Lemma RunDownload_inv (c : Cloud) (isTest : bool) (parallel : Z)
    (paths : list string) (fs : gset string) (fuel : nat) :
  let st := (RunDownload c isTest parallel paths fs fuel).1 in
  idsFit (out st) ->
  queueInv (dlist st) (lastID st) (out st).
Proof.
  unfold RunDownload, RunDownload_start.
  destruct (getAllAbsPaths c paths) as [ps|err].
  2: { intros _. cbn. split_queueInv; try done; by repeat constructor. }
  match goal with
  | |- context [foldl ?f ?s ps] => set (st0 := foldl f s ps)
  end.
  assert (Hstart : idsFit (out st0) -> queueInv (dlist st0) (lastID st0) (out st0)).
  { apply (foldl_enqueue_inv (fun p : string => p) (fun _ => None) ps).
    cbn. split_queueInv; try done; by repeat constructor. }
  pose proof (turns_inv c isTest fuel st0) as Hloop.
  pose proof (turns_frame c isTest fuel st0) as [evs Hframe].
  destruct (turns c isTest fuel st0) as [st ended]. cbn [fst snd] in *.
  destruct ended; cbn [fst]; intros Hfit.
  - cbn [say out dlist lastID] in *.
    pose proof (idsFit_prefix _ _ Hfit) as Hfit'.
    apply queueInv_quiet; try done; [|by repeat constructor].
    apply Hloop; [|done]. apply Hstart.
    rewrite Hframe in Hfit'. by apply idsFit_prefix in Hfit'.
  - apply Hloop; [|done]. apply Hstart.
    rewrite Hframe in Hfit. by apply idsFit_prefix in Hfit.
Qed.

Lemma attempts_elem (id : Z) (p sp : string) (evs : list DriverEvent) :
  DrDownload id p sp ∈ evs -> attempts id evs <> 0%nat.
Proof.
  intros Hin. unfold attempts.
  assert (Hid : id ∈ filter (fun i => i = id) (omap downloadedId evs)).
  { apply list_elem_of_filter. split; [done|].
    apply list_elem_of_omap. by exists (DrDownload id p sp). }
  destruct (filter _ _); [by apply elem_of_nil in Hid|done].
Qed.

(** X17. However its downloads fail, [RunDownload] starts the download of
    one task at most four times: once, and once more for each of the three
    retries [MaxRetry] allows. It holds at every turn of the loop, for every
    cloud, as long as the number of tasks queued fits an [int]. *)
Theorem at_most_four_downloads_per_task (c : Cloud) (isTest : bool) (parallel : Z)
    (paths : list string) (fs : gset string) (fuel : nat) :
  let st := (RunDownload c isTest parallel paths fs fuel).1 in
  idsFit (out st) ->
  forall id : Z, (attempts id (out st) <= 4)%nat.
Proof.
  intros st Hfit.
  by destruct (RunDownload_inv c isTest parallel paths fs fuel Hfit)
    as (_ & _ & _ & _ & Hfour & _).
Qed.

(** The bound of four is reached when every download fails with an error
    that is retried. *)
Lemma at_most_four_downloads_per_task_witness :
  let st := (RunDownload (DriverSample.failing (errors_New "timeout")) true 0
               ["/d/a"] ∅ 10).1 in
  attempts 1 (out st) = 4%nat ∧ (attempts 1 (out st) <= 4)%nat.
Proof.
  split; [by vm_compute|].
  apply (at_most_four_downloads_per_task
           (DriverSample.failing (errors_New "timeout")) true 0 ["/d/a"] ∅ 10).
  by vm_compute.
Defined.

(** X18. [RunDownload] numbers its tasks 1, 2, 3, ... in the order in which
    it queues them, whether they come from the paths given or from a
    directory listed later; the tasks waiting in the queue bear distinct
    ids, and every download started bears the id of a task queued before. *)
Theorem task_ids_sequential (c : Cloud) (isTest : bool) (parallel : Z)
    (paths : list string) (fs : gset string) (fuel : nat) :
  let st := (RunDownload c isTest parallel paths fs fuel).1 in
  idsFit (out st) ->
  omap queuedId (out st) = seqZ 1 (lastID st)
  ∧ NoDup (ID <$> dlist st)
  ∧ (forall t, t ∈ dlist st -> 1 <= ID t <= lastID st)
  ∧ (forall id p sp, DrDownload id p sp ∈ out st -> 1 <= id <= lastID st).
Proof.
  intros st Hfit.
  destruct (RunDownload_inv c isTest parallel paths fs fuel Hfit)
    as (Hids & _ & Hnodup & Htasks & _ & Hdl & _).
  split; [done|]. split; [done|]. split.
  - intros t Hin. rewrite Forall_forall in Htasks.
    by destruct (Htasks t Hin) as [? _].
  - intros id p sp Hin. apply Hdl. by apply (attempts_elem id p sp).
Qed.

Lemma task_ids_sequential_witness :
  let st := (RunDownload DriverSample.cloud true 0 ["/d"; "/d/b"] ∅ 1).1 in
  omap queuedId (out st) = [1; 2; 3; 4]
  ∧ ID <$> dlist st = [2; 3; 4]
  ∧ lastID st = 4.
Proof.
  cbv zeta.
  unshelve epose proof (task_ids_sequential DriverSample.cloud true 0
                          ["/d"; "/d/b"] ∅ 1 _) as (Hids & _).
  1: by vm_compute.
  split; [exact (eq_trans Hids eq_refl)|]. split; by vm_compute.
Defined.

(** ** What every turn of the loop keeps true *)

Lemma foldl_enqueue_Forall {A : Type} (fp : A -> string)
    (fi : A -> option FileDirectory) (Q : dtask -> Prop)
    (P : DriverEvent -> Prop) (l : list A) :
  (forall id p x, x ∈ l ->
     Q {| ID := id; MaxRetry := 3; retry := 0; path := p; downloadInfo := fi x |}) ->
  (forall id p, P (DrQueued id p)) ->
  forall st : Driver,
    Forall Q (dlist st) -> Forall P (out st) ->
    Forall Q (dlist (foldl (fun st x => enqueue (fp x) (fi x) st) st l))
    ∧ Forall P (out (foldl (fun st x => enqueue (fp x) (fi x) st) st l)).
Proof.
  intros HQ HP. induction l as [|x l IH]; intros st Hq Hp; cbn [foldl]; [done|].
  apply IH.
  - intros id p y Hy. apply HQ. by apply list_elem_of_further.
  - cbn. apply Forall_app. split; [done|].
    constructor; [|constructor]. apply HQ. apply list_elem_of_here.
  - cbn. apply Forall_app. split; [done|]. constructor; [apply HP|constructor].
Qed.

Lemma turns_preserve (c : Cloud) (isTest : bool) (I : Driver -> Prop) :
  (forall st st', turn c isTest st = Some st' -> I st -> I st') ->
  forall (fuel : nat) (st : Driver), I st -> I (turns c isTest fuel st).1.
Proof.
  intros Hturn. induction fuel as [|fuel IH]; intros st Hst; cbn [turns].
  - by destruct (turn c isTest st).
  - destruct (turn c isTest st) as [st'|] eqn:Hst'; [|done].
    apply IH. by apply (Hturn st st').
Qed.

(** An invariant of the queue and of the events that the start of
    [RunDownload], its turns and its closing line keep is true of what
    [RunDownload] leaves. *)
Lemma RunDownload_preserve (c : Cloud) (isTest : bool) (Q : dtask -> Prop)
    (P : DriverEvent -> Prop) :
  (forall id p, Q {| ID := id; MaxRetry := 3; retry := 0; path := p;
                     downloadInfo := None |}) ->
  (forall err, P (DrPathsError err)) ->
  (forall a b, P (DrHeader a b)) ->
  (forall id p, P (DrQueued id p)) ->
  (forall total, P (DrEnd total)) ->
  (forall st st', turn c isTest st = Some st' ->
     Forall Q (dlist st) ∧ Forall P (out st) ->
     Forall Q (dlist st') ∧ Forall P (out st')) ->
  forall (parallel : Z) (paths : list string) (fs : gset string) (fuel : nat),
    Forall Q (dlist (RunDownload c isTest parallel paths fs fuel).1)
    ∧ Forall P (out (RunDownload c isTest parallel paths fs fuel).1).
Proof.
  intros HQ Herr Hhead Hqueued Hend Hturn parallel paths fs fuel.
  unfold RunDownload, RunDownload_start.
  destruct (getAllAbsPaths c paths) as [ps|err].
  2: { cbn. split; [constructor|]. constructor; [apply Herr|constructor]. }
  match goal with
  | |- context [foldl ?f ?s ps] => set (st0 := foldl f s ps)
  end.
  assert (Hstart : Forall Q (dlist st0) ∧ Forall P (out st0)).
  { apply (foldl_enqueue_Forall (fun p : string => p) (fun _ => None) Q P ps).
    - intros id p _ _. apply HQ.
    - done.
    - constructor.
    - cbn. constructor; [apply Hhead|constructor]. }
  pose proof (turns_preserve c isTest
                (fun st => Forall Q (dlist st) ∧ Forall P (out st))
                Hturn fuel st0 Hstart) as Hloop.
  destruct (turns c isTest fuel st0) as [st ended]. cbn [fst] in *.
  destruct ended; cbn [fst]; [|done].
  destruct Hloop as [Hq Hp]. cbn. split; [done|].
  apply Forall_app. split; [done|]. constructor; [apply Hend|constructor].
Qed.

Lemma mul64_sleep (k : Z) :
  0 <= k <= 3 ->
  Int.mul64 (Int.mul64 3 (Int.int64 k)) time_Second = 3 * k * time_Second.
Proof.
  intros Hk. unfold Int.mul64, time_Second.
  rewrite (int64_id k) by (unfold Int.in_int64; lia).
  rewrite (int64_id (3 * k)) by (unfold Int.in_int64; lia).
  apply int64_id. unfold Int.in_int64. lia.
Qed.

Lemma handleTaskErr_sleeps (t : dtask) (manifest : string) (e : error)
    (q : list dtask) :
  retryOK t -> Forall retryOK q ->
  Forall retryOK (handleTaskErr t manifest (Some e) q).1
  ∧ Forall sleepOK (handleTaskErr t manifest (Some e) q).2.
Proof.
  intros [Hmax Hretry] Hq. unfold handleTaskErr.
  destruct (String.eqb manifest _ && strings_Contains _ _).
  { cbn [fst snd]. split; [done|]. by repeat constructor. }
  rewrite Hmax. case_bool_decide as Hlt; cbn [fst snd retry set_retry].
  - unfold Int.add_int. rewrite (int_id (retry t + 1)) by (unfold Int.in_int; lia).
    rewrite mul64_sleep by lia. split.
    + apply Forall_app. split; [done|]. constructor; [|constructor].
      unfold retryOK, set_retry. cbn [MaxRetry retry]. lia.
    + constructor; [done|]. constructor; [|constructor].
      cbn. unfold time_Second.
      assert (retry t = 0 ∨ retry t = 1 ∨ retry t = 2) as [->|[->| ->]] by lia;
        cbn; auto.
  - assert (Hlast : retry t = 3) by lia. rewrite Hlast. split; [done|].
    constructor; [done|]. constructor; [|constructor].
    cbn. right. right. reflexivity.
Qed.

Lemma turn_sleeps (c : Cloud) (isTest : bool) (st st' : Driver) :
  turn c isTest st = Some st' ->
  Forall retryOK (dlist st) ∧ Forall sleepOK (out st) ->
  Forall retryOK (dlist st') ∧ Forall sleepOK (out st').
Proof.
  unfold turn. destruct (dlist st) as [|task rest]; [done|].
  intros Hturn [Hq Hout]. apply Forall_cons in Hq as [Htask Hrest].
  revert Hturn.
  destruct (match downloadInfo task with
            | Some info => inl info
            | None => FilesDirectoriesMeta c (path task)
            end) as [info|err].
  2: { intros [= <-]. cbn. split; [done|]. apply Forall_app. by repeat constructor. }
  destruct (Isdir info).
  - destruct (FilesDirectoriesList c _) as [fileList|err].
    + intros [= <-].
      apply (foldl_enqueue_Forall Path Some retryOK sleepOK fileList).
      * intros id p x _. unfold retryOK. cbn. lia.
      * done.
      * by destruct isTest.
      * destruct isTest; cbn; rewrite ?Forall_app; by repeat constructor.
    + intros [= <-]. split; [by destruct isTest|].
      destruct isTest; cbn; rewrite ?Forall_app; by repeat constructor.
  - destruct (skipsDownload _ _ _).
    + intros [= <-]. cbn. split; [done|]. rewrite ?Forall_app. by repeat constructor.
    + destruct (DownloadFile c _ _ _ _ _) as [fs [e|]].
      * cbn [dlist say out].
        pose proof (handleTaskErr_sleeps (set_downloadInfo info task)
                      "下载文件错误" e rest Htask Hrest) as [Hq' Hevs].
        destruct (handleTaskErr _ _ _ _) as [queue evs].
        intros [= <-]. cbn [dlist out fst snd] in *. split; [done|].
        rewrite ?Forall_app. split; [|done]. by repeat constructor.
      * intros [= <-]. cbn. split; [done|]. rewrite ?Forall_app.
        by repeat constructor.
Qed.

(** X19. Whenever [RunDownload] sleeps after a failed download, it sleeps
    for three, six or nine seconds: three times the task's retry counter,
    which the failure has just moved to 1, 2 or 3, or left at 3 when the
    task is given up. It never sleeps for no time or for longer. *)
Theorem sleeps_three_six_or_nine_seconds (c : Cloud) (isTest : bool)
    (parallel : Z) (paths : list string) (fs : gset string) (fuel : nat) (ns : Z) :
  DrSleep ns ∈ out (RunDownload c isTest parallel paths fs fuel).1 ->
  ns = 3 * time_Second ∨ ns = 6 * time_Second ∨ ns = 9 * time_Second.
Proof.
  intros Hin.
  assert (Hfresh : forall id p,
            retryOK {| ID := id; MaxRetry := 3; retry := 0; path := p;
                       downloadInfo := None |}).
  { intros id p. unfold retryOK. cbn. lia. }
  destruct (RunDownload_preserve c isTest retryOK sleepOK Hfresh
              (fun _ => I) (fun _ _ => I) (fun _ _ => I) (fun _ => I)
              (turn_sleeps c isTest) parallel paths fs fuel) as [_ Hsleeps].
  rewrite Forall_forall in Hsleeps. exact (Hsleeps _ Hin).
Qed.

(** A task whose four downloads fail is slept on for 3, 6, 9 and once more
    9 seconds. *)
Lemma sleeps_three_six_or_nine_seconds_witness :
  let st := (RunDownload (DriverSample.failing (errors_New "timeout")) true 0
               ["/d/a"] ∅ 10).1 in
  omap sleptFor (out st)
  = [3 * time_Second; 6 * time_Second; 9 * time_Second; 9 * time_Second]
  ∧ (6 * time_Second = 3 * time_Second ∨ 6 * time_Second = 6 * time_Second
     ∨ 6 * time_Second = 9 * time_Second).
Proof.
  split; [by vm_compute|].
  apply (sleeps_three_six_or_nine_seconds
           (DriverSample.failing (errors_New "timeout")) true 0 ["/d/a"] ∅ 10).
  vm_compute. repeat first [apply list_elem_of_here | apply list_elem_of_further].
Defined.

Lemma turn_files (c : Cloud) (isTest : bool) (K : gset string -> Prop)
    (st st' : Driver) :
  (forall n p id sp fs0, K fs0 -> K (DownloadFile c n p id sp fs0).1) ->
  (isTest = false ->
   forall p fs0, K fs0 -> K (os_MkdirAll c (GetSavePath c p) fs0)) ->
  turn c isTest st = Some st' ->
  K (files st) -> K (files st').
Proof.
  intros Hdownload Hmkdir. unfold turn.
  destruct (dlist st) as [|task rest]; [done|].
  destruct (match downloadInfo task with
            | Some info => inl info
            | None => FilesDirectoriesMeta c (path task)
            end) as [info|err]; [|by intros [= <-]].
  destruct (Isdir info).
  - assert (Hdir : K (files st) ->
              K (files (if negb isTest
                        then {| dlist := rest; lastID := lastID st;
                                totalBytes := totalBytes st;
                                files := os_MkdirAll c (GetSavePath c (path task))
                                           (files st);
                                downloads := downloads st;
                                out := (out st ++ [DrInfo (ID task) info])
                                       ++ [DrMkdir (GetSavePath c (path task))] |}
                        else say [DrInfo (ID task) info]
                               {| dlist := rest; lastID := lastID st;
                                  totalBytes := totalBytes st; files := files st;
                                  downloads := downloads st; out := out st |}))).
    { intros Hk. destruct isTest; cbn; [done|]. by apply Hmkdir. }
    destruct (FilesDirectoriesList c _) as [fileList|err].
    + intros [= <-] Hk.
      match goal with
      | |- context [foldl ?f ?s fileList] =>
          destruct (foldl_enqueue_frame Path Some fileList s) as (_ & Hfiles & _)
      end.
      cbv zeta in Hfiles. rewrite Hfiles. by apply Hdir.
    + intros [= <-] Hk. cbn [say files]. by apply Hdir.
  - destruct (skipsDownload _ _ _); [by intros [= <-]|].
    cbn [say files downloads set_downloadInfo ID path dlist].
    pose proof (Hdownload (downloads st) (path task) (ID task)
                  (GetSavePath c (path task)) (files st)) as Hk'.
    destruct (DownloadFile c _ _ _ _ _) as [fs' [e|]].
    + destruct (handleTaskErr _ _ _ _) as [queue evs].
      intros [= <-] Hk. cbn. by apply Hk'.
    + intros [= <-] Hk. cbn. by apply Hk'.
Qed.

(** X20. [RunDownload]'s own code writes to the local disk only by making
    the directory of a remote directory, and never in a test download: a
    property of the file system that every [DownloadFile] call keeps (and,
    outside a test download, that [os.MkdirAll] of a save path keeps) holds
    of the file system after any number of turns of a run started where it
    holds. So a test run whose downloads write nothing leaves the disk
    exactly as it found it. *)
Theorem RunDownload_disk_writes (c : Cloud) (isTest : bool) (parallel : Z)
    (paths : list string) (fs : gset string) (fuel : nat)
    (K : gset string -> Prop) :
  K fs ->
  (forall n p id sp fs0, K fs0 -> K (DownloadFile c n p id sp fs0).1) ->
  (isTest = false ->
   forall p fs0, K fs0 -> K (os_MkdirAll c (GetSavePath c p) fs0)) ->
  K (files (RunDownload c isTest parallel paths fs fuel).1).
Proof.
  intros Hfs Hdownload Hmkdir. unfold RunDownload, RunDownload_start.
  destruct (getAllAbsPaths c paths) as [ps|err]; [|done].
  match goal with
  | |- context [foldl ?f ?s ps] =>
      destruct (foldl_enqueue_frame (fun p : string => p) (fun _ => None) ps s)
        as (_ & Hfiles & _);
      set (st0 := foldl f s ps) in *
  end.
  cbv zeta in Hfiles. cbn [files] in Hfiles.
  pose proof (turns_preserve c isTest (fun st => K (files st))
                (fun st st' => turn_files c isTest K st st' Hdownload Hmkdir)
                fuel st0) as Hloop.
  cbv beta in Hloop. rewrite Hfiles in Hloop. specialize (Hloop Hfs).
  destruct (turns c isTest fuel st0) as [st ended]. cbn [fst] in *.
  by destruct ended.
Qed.

(** A remote directory: the test run leaves the empty disk empty, the run
    that is no test makes the directory. *)
Lemma RunDownload_disk_writes_witness :
  files (RunDownload DriverSample.mkdirs true 0 ["/d"] ∅ 10).1 = ∅
  ∧ "save/d" ∈ files (RunDownload DriverSample.mkdirs false 0 ["/d"] ∅ 10).1.
Proof.
  split.
  - apply (RunDownload_disk_writes DriverSample.mkdirs true 0 ["/d"] ∅ 10
             (fun fs => fs = ∅)); [reflexivity| |discriminate].
    by intros n p id sp fs0 ->.
  - by vm_compute.
Defined.




(** ** The loop ends when no path is a directory *)

Lemma turnsLeftOf_app (q q' : list dtask) :
  turnsLeftOf (q ++ q') = (turnsLeftOf q + turnsLeftOf q')%nat.
Proof. unfold turnsLeftOf. by rewrite fmap_app, sum_list_with_app. Qed.

Lemma turnsLeft_fileTask (t : dtask) : fileTask t -> (1 <= turnsLeft t)%nat.
Proof. intros (Hmax & Hretry & _). unfold turnsLeft. lia. Qed.

Lemma turn_None (c : Cloud) (isTest : bool) (st : Driver) :
  turn c isTest st = None -> dlist st = [].
Proof.
  unfold turn. destruct (dlist st) as [|task rest]; [done|].
  destruct (match downloadInfo task with
            | Some info => inl info
            | None => FilesDirectoriesMeta c (path task)
            end) as [info|err]; [|done].
  destruct (Isdir info).
  - by destruct (FilesDirectoriesList c _).
  - destruct (skipsDownload _ _ _); [done|].
    destruct (DownloadFile c _ _ _ _ _) as [fs [e|]]; [|done].
    cbn [dlist say]. by destruct (handleTaskErr _ _ _ _).
Qed.

Lemma handleTaskErr_measure (t : dtask) (manifest : string) (e : error)
    (q : list dtask) :
  fileTask t -> Forall fileTask q ->
  Forall fileTask (handleTaskErr t manifest (Some e) q).1
  ∧ (turnsLeftOf (handleTaskErr t manifest (Some e) q).1
     < turnsLeft t + turnsLeftOf q)%nat.
Proof.
  intros (Hmax & Hretry & Hinfo) Hq. unfold handleTaskErr.
  destruct (String.eqb manifest _ && strings_Contains _ _).
  { cbn [fst]. split; [done|]. unfold turnsLeft. lia. }
  rewrite Hmax. case_bool_decide as Hlt; cbn [fst].
  - unfold Int.add_int. rewrite (int_id (retry t + 1)) by (unfold Int.in_int; lia).
    split.
    + apply Forall_app. split; [done|]. constructor; [|constructor].
      unfold fileTask, set_retry. cbn [MaxRetry retry downloadInfo].
      split; [done|]. split; [lia|done].
    + rewrite turnsLeftOf_app. unfold turnsLeftOf at 2. cbn.
      unfold turnsLeft, set_retry. cbn [MaxRetry retry]. lia.
  - split; [done|]. unfold turnsLeft. lia.
Qed.

Lemma turn_measure (c : Cloud) (isTest : bool) (st st' : Driver) :
  (forall p info, FilesDirectoriesMeta c p = inl info -> Isdir info = false) ->
  turn c isTest st = Some st' ->
  Forall fileTask (dlist st) ->
  Forall fileTask (dlist st')
  ∧ (turnsLeftOf (dlist st') < turnsLeftOf (dlist st))%nat.
Proof.
  intros Hfiles. unfold turn. destruct (dlist st) as [|task rest]; [done|].
  intros Hturn Hq. apply Forall_cons in Hq as [Htask Hrest].
  pose proof (turnsLeft_fileTask task Htask) as Hone.
  assert (Hcons : turnsLeftOf (task :: rest)
                  = (turnsLeft task + turnsLeftOf rest)%nat) by done.
  rewrite Hcons. revert Hturn.
  destruct (match downloadInfo task with
            | Some info => inl info
            | None => FilesDirectoriesMeta c (path task)
            end) as [info|err] eqn:Hfound.
  2: { intros [= <-]. cbn [dlist say]. split; [done|lia]. }
  assert (Hfile : Isdir info = false).
  { destruct Htask as (_ & _ & Hinfo).
    destruct (downloadInfo task) as [known|].
    - injection Hfound as ->. by apply Hinfo.
    - by apply (Hfiles (path task)). }
  rewrite Hfile.
  destruct (skipsDownload _ _ _).
  { intros [= <-]. cbn [dlist say]. split; [done|lia]. }
  destruct (DownloadFile c _ _ _ _ _) as [fs [e|]].
  - cbn [dlist say].
    assert (Htask' : fileTask (set_downloadInfo info task)).
    { destruct Htask as (Hmax & Hretry & _). unfold fileTask, set_downloadInfo.
      cbn [MaxRetry retry downloadInfo]. split; [done|]. split; [done|].
      by intros ? [= <-]. }
    pose proof (handleTaskErr_measure (set_downloadInfo info task)
                  "下载文件错误" e rest Htask' Hrest) as [Hq' Hless].
    destruct (handleTaskErr _ _ _ _) as [queue evs].
    intros [= <-]. cbn [dlist fst] in *. split; [done|].
    exact Hless.
  - intros [= <-]. cbn [dlist say]. split; [done|lia].
Qed.

Lemma turns_end (c : Cloud) (isTest : bool) :
  (forall p info, FilesDirectoriesMeta c p = inl info -> Isdir info = false) ->
  forall (fuel : nat) (st : Driver),
    Forall fileTask (dlist st) ->
    (turnsLeftOf (dlist st) <= fuel)%nat ->
    (turns c isTest fuel st).2 = true ∧ dlist (turns c isTest fuel st).1 = [].
Proof.
  intros Hfiles. induction fuel as [|fuel IH]; intros st Hq Hfuel; cbn [turns].
  - destruct (turn c isTest st) as [st'|] eqn:Hturn.
    + destruct (turn_measure c isTest st st' Hfiles Hturn Hq) as [_ Hless]. lia.
    + split; [done|]. by apply (turn_None c isTest).
  - destruct (turn c isTest st) as [st'|] eqn:Hturn.
    + destruct (turn_measure c isTest st st' Hfiles Hturn Hq) as [Hq' Hless].
      apply IH; [done|lia].
    + split; [done|]. by apply (turn_None c isTest).
Qed.

Lemma foldl_enqueue_measure (ps : list string) : forall st : Driver,
  Forall fileTask (dlist st) ->
  Forall fileTask (dlist (foldl (fun st p => enqueue p None st) st ps))
  ∧ turnsLeftOf (dlist (foldl (fun st p => enqueue p None st) st ps))
    = (turnsLeftOf (dlist st) + 4 * length ps)%nat.
Proof.
  induction ps as [|p ps IH]; intros st Hq; cbn [foldl].
  - split; [done|]. cbn. lia.
  - destruct (IH (enqueue p None st)) as [Hq' Hsum].
    + cbn. apply Forall_app. split; [done|]. constructor; [|constructor].
      unfold fileTask. cbn. split; [done|]. split; [lia|done].
    + split; [done|]. rewrite Hsum. cbn [enqueue dlist].
      rewrite turnsLeftOf_app.
      match goal with
      | |- context [turnsLeftOf [?t]] => change (turnsLeftOf [t]) with 4%nat
      end.
      cbn [length]. lia.
Qed.

(** X22. When none of the paths is a directory, [RunDownload] ends: given
    four turns for each path (one download and three retries), its loop
    empties the queue, whatever fails on the way, and the closing line with
    the total is the last thing it prints. *)
Theorem files_only_run_ends (c : Cloud) (isTest : bool) (parallel : Z)
    (paths ps : list string) (fs : gset string) (fuel : nat) :
  getAllAbsPaths c paths = inl ps ->
  (forall p info, FilesDirectoriesMeta c p = inl info -> Isdir info = false) ->
  (4 * length ps <= fuel)%nat ->
  let r := RunDownload c isTest parallel paths fs fuel in
  r.2 = true ∧ dlist r.1 = [] ∧ last (out r.1) = Some (DrEnd (totalBytes r.1)).
Proof.
  intros Hpaths Hfiles Hfuel. unfold RunDownload, RunDownload_start.
  rewrite Hpaths.
  match goal with
  | |- context [foldl ?f ?s ps] =>
      destruct (foldl_enqueue_measure ps s) as [Hq Hsum]; [constructor|];
      set (st0 := foldl f s ps) in *
  end.
  destruct (turns_end c isTest Hfiles fuel st0 Hq) as [Hended Hempty].
  { rewrite Hsum. cbn. lia. }
  destruct (turns c isTest fuel st0) as [st ended]. cbn [fst snd] in *.
  subst ended. cbn [fst snd say dlist out totalBytes].
  split; [done|]. split; [done|]. apply last_snoc.
Qed.

(** Two files whose downloads fail twice before they succeed: the run ends
    within eight turns, with the sizes of both files in the total; three
    turns are not enough. *)
Lemma files_only_run_ends_witness :
  let r := RunDownload DriverSample.flaky true 0 ["/d/a"; "/d/b"] ∅ 8 in
  (RunDownload DriverSample.flaky true 0 ["/d/a"; "/d/b"] ∅ 3).2 = false
  ∧ r.2 = true ∧ dlist r.1 = [] ∧ last (out r.1) = Some (DrEnd 42).
Proof.
  cbv zeta. split; [by vm_compute|].
  unshelve epose proof (files_only_run_ends DriverSample.flaky true 0
                          ["/d/a"; "/d/b"] ["/d/a"; "/d/b"] ∅ 8 _ _ _)
    as (Hended & Hempty & Hlast).
  - reflexivity.
  - intros p info. cbn.
    destruct (String.eqb p "/d/a"); [by intros [= <-]|].
    destruct (String.eqb p "/d/b"); [by intros [= <-]|]. done.
  - cbn. lia.
  - split; [exact Hended|]. split; [exact Hempty|].
    exact (eq_trans Hlast eq_refl).
Defined.
